(** * softlayer_saltmaster_bootstrap: the bounded-retry orchestration

    A shallow embedding of [softlayer_saltmaster_bootstrap/__main__.py].
    The program talks to a cloud provider, an SSH client, the file system
    and the wall clock; those collaborators are kept abstract (a class of
    operations over a world type [W]) and every call the program makes on
    them is recorded as an [Event], so that statements such as "no cancel
    call is issued" are statements about the emitted event list.

    Modelling conventions.
    - Provider records are Python dicts; they are modelled as records whose
      fields are optional (a missing key is [None]), typed after the object
      mask the program requests.
    - The clock is read in microseconds, the resolution of [datetime]; the
      test [total_seconds() / 60 > lim_min] is written with both sides
      multiplied by sixty million.
    - [_debug] is a module global assigned once by [main]; it is passed to
      the functions that read it.
    - Formatted diagnostic lines are recorded by their template; the final
      report line is recorded verbatim.
    - A Python [str] is a [string] with one character per code point; the
      code points are those below 256, text beyond them is not
      represented. *)

From Stdlib Require Import ZArith List String Ascii Bool Lia DecimalString.
Import ListNotations.
Open Scope string_scope.
Open Scope Z_scope.
Open Scope list_scope.

(** ** Data model *)

(** One entry of [operatingSystem.passwords]. *)
Record OsPassword := {
  pw_username : option string;
  pw_password : option string
}.

Record OperatingSystem := {
  os_passwords : option (list OsPassword)
}.

(** A virtual guest as returned under the mask
    [id, fullyQualifiedDomainName, hostname, domain, primaryIpAddress,
     operatingSystem.passwords]. *)
Record VirtualGuest := {
  vg_id : option Z;
  vg_fullyQualifiedDomainName : option string;
  vg_hostname : option string;
  vg_domain : option string;
  vg_primaryIpAddress : option string;
  vg_operatingSystem : option OperatingSystem
}.

(** A registered SSH key of the account. *)
Record SshKey := {
  key_id : option Z;
  key_label : option string
}.

(** The tuple [(fqdn, primaryIpAddress, root_password, instance_id)] that
    [_locate_instance] returns.  The third component is what [root_pass]
    returned, which may be [None]. *)
Record Instance := {
  inst_fqdn : string;
  inst_ip : string;
  inst_root_password : option string;
  inst_id : Z
}.

(** [_vm_template] after the [update] done by [main]. *)
Record VmRequest := {
  startCpus : Z;
  maxMemory : Z;
  hourlyBillingFlag : bool;
  operatingSystemReferenceCode : string;
  localDiskFlag : bool;
  datacenter : string;
  vm_hostname : string;
  vm_domain : string;
  sshKeys : list Z
}.

Definition _vm_template (hostname domain : string) (keys : list Z) : VmRequest :=
  {| startCpus := 1;
     maxMemory := 1024;
     hourlyBillingFlag := true;
     operatingSystemReferenceCode := "CENTOS_LATEST";
     localDiskFlag := false;
     datacenter := "dal09";
     vm_hostname := hostname;
     vm_domain := domain;
     sshKeys := keys |}.

(** Parsed command line. *)
Record Args := {
  saltmaster_vm_name : string;
  saltmaster_vm_domain : string;
  show_root_pass : bool;
  ssh_pub_key : option string;
  seed_dir : option string;
  add_sl_cli : bool;
  debug : bool
}.

(** ** Exceptions *)

Inductive exn :=
| TimeLimitedOperationException (lim_min : Z)
    (* 'reached time limit {}m and didn't succeed' *)
| FailedOperationProvidedTest
    (* Exception('failed operation-provided test') *)
| MultipleRootPasswords (name : string)
| FailedToLocate (name : string)
    (* 'failed to locate vs named {} with operatingSystem val' *)
| AmbiguousResults (name : string) (matching : list VirtualGuest)
| KeyLabelExists (path label : string)
| KeyLabelNotFound (label : string)
| IndexError
| KeyError (key : string)
| TypeError
| NameError (name : string)
| UnboundLocalError (name : string)
| CollaboratorError (msg : string)   (* raised inside a collaborator call *)
| SystemExit (code : Z).

(** [except Exception] catches everything here but [SystemExit]. *)
Definition is_Exception (e : exn) : bool :=
  match e with
  | SystemExit _ => false
  | _ => true
  end.

(** ** Events: the calls made on the collaborators and on standard output *)

Inductive Event :=
| EvNow                                  (* datetime.now() *)
| EvSleep (secs : Z)                     (* time.sleep(secs) *)
| EvGetVirtualGuests                     (* client['Account'].getVirtualGuests *)
| EvCreateObject (vm : VmRequest)        (* client['Virtual_Guest'].createObject *)
| EvCancelInstance (id : Z)              (* VSManager.cancel_instance *)
| EvListKeys                             (* SshKeyManager.list_keys *)
| EvAddKey (key label : string)          (* SshKeyManager.add_key *)
| EvPathExists (path : string)           (* os.path.exists *)
| EvReadFile (path : string)             (* open(path).read() *)
| EvSshConnect (ip : string) (password : option string)
| EvSftpPut (src dst : string)           (* sftp.put / sftp.putfo *)
| EvExecCommand (cmd : string)           (* ssh.exec_command, then _print_ssh *)
| EvTraceback                            (* traceback.print_exc(file=sys.stdout) *)
| EvDebug (template : string)            (* _debug and print(template.format(..)) *)
| EvPrintFailed (name : string) (ex : exn)
    (* print('Failed to create and provision instance named: {}. Hosing it.
              Original exception: {}') *)
| EvPrint (line : string).               (* print(line) *)

Definition is_cancel (ev : Event) : bool :=
  match ev with EvCancelInstance _ => true | _ => false end.

Definition is_create (ev : Event) : bool :=
  match ev with EvCreateObject _ => true | _ => false end.

Definition is_add_key (ev : Event) : bool :=
  match ev with EvAddKey _ _ => true | _ => false end.

(** Calls that change something on the provider account. *)
Definition is_provider_mutation (ev : Event) : bool :=
  is_create ev || is_cancel ev || is_add_key ev.

(** The clock and delay events, the ones the timing rule is about. *)
Definition is_timing (ev : Event) : bool :=
  match ev with EvNow | EvSleep _ => true | _ => false end.

(** ** Collaborators *)

(** A collaborator call either raises (the message on the left) or
    returns. *)
Class Collaborators (W : Type) := {
  datetime_now : W -> Z * W;
  time_sleep : Z -> W -> W;
  getVirtualGuests : W -> (string + list VirtualGuest) * W;
  createObject : VmRequest -> W -> (string + unit) * W;
  cancel_instance : Z -> W -> (string + unit) * W;
  list_keys : W -> (string + list SshKey) * W;
  add_key : string -> string -> W -> (string + unit) * W;
  path_exists : string -> W -> bool * W;
  read_file : string -> W -> (string + string) * W;
  ssh_connect_to : string -> option string -> W -> (string + unit) * W;
  sftp_put : string -> string -> W -> (string + unit) * W;
  exec_command : string -> W -> (string + unit) * W
}.

(** ** The monad: world passing, exceptions, emitted events, fuel *)

Inductive Res (A : Type) :=
| Ok (a : A)
| Raise (e : exn).
Arguments Ok {A} a.
Arguments Raise {A} e.

(** [None] is "no more fuel": only the polling loop can produce it. *)
Definition M (W A : Type) : Type := W -> option (Res A * W * list Event).

Section Monad.
Context {W : Type}.

Definition ret {A} (a : A) : M W A := fun w => Some (Ok a, w, []).

Definition raise {A} (e : exn) : M W A := fun w => Some (Raise e, w, []).

Definition bind {A B} (m : M W A) (f : A -> M W B) : M W B :=
  fun w =>
    match m w with
    | None => None
    | Some (Raise e, w1, evs) => Some (Raise e, w1, evs)
    | Some (Ok a, w1, evs) =>
        match f a w1 with
        | None => None
        | Some (r, w2, evs') => Some (r, w2, evs ++ evs')
        end
    end.

Definition emit (ev : Event) : M W unit := fun w => Some (Ok tt, w, [ev]).

(** Run [m] as the body of a [try: ... except Exception as ex:] and hand
    the caught exception, if any, to the continuation. *)
Definition attempt {A} (m : M W A) : M W (exn + A) :=
  fun w =>
    match m w with
    | None => None
    | Some (Ok a, w1, evs) => Some (Ok (inr a), w1, evs)
    | Some (Raise e, w1, evs) =>
        if is_Exception e then Some (Ok (inl e), w1, evs)
        else Some (Raise e, w1, evs)
    end.

(** A call on a collaborator that may raise. *)
Definition call {A} (op : W -> (string + A) * W) (ev : Event) : M W A :=
  fun w =>
    match op w with
    | (inl msg, w1) => Some (Raise (CollaboratorError msg), w1, [ev])
    | (inr a, w1) => Some (Ok a, w1, [ev])
    end.

(** A call on a collaborator that cannot raise. *)
Definition call_total {A} (op : W -> A * W) (ev : Event) : M W A :=
  fun w => let (a, w1) := op w in Some (Ok a, w1, [ev]).

(** [_debug and print(...)] *)
Definition debug_print (dbg : bool) (template : string) : M W unit :=
  if dbg then emit (EvDebug template) else ret tt.

Definition sys_exit {A} (code : Z) : M W A := raise (SystemExit code).
End Monad.

Declare Scope py_scope.
Delimit Scope py_scope with py.
Notation "x <- m ;; k" := (bind m (fun x => k))
(at level 61, m at next level, right associativity) : py_scope.
Notation "m ;; k" := (bind m (fun _ => k))
(at level 61, right associativity) : py_scope.
Open Scope py_scope.

(** Exit status of the process given how [main] ended: [sys.exit(n)]
  exits with [n], an uncaught exception with 1. *)
Definition exit_status (r : Res unit) : Z :=
match r with
| Ok _ => 0
| Raise (SystemExit code) => code
| Raise _ => 1
end.

(** ** Bounded Retry Engine: [until_with_lim_test] *)

(** The local variables of the [while] loop. *)
Record LoopState (R : Type) := {
retries : nat;
test : bool;
limit_reached : bool;
res : option R
}.
Arguments retries {R} _.
Arguments test {R} _.
Arguments limit_reached {R} _.
Arguments res {R} _.
Arguments Build_LoopState {R} _ _ _ _.

(** The three branches after the loop. *)
Inductive Branch := BrTimeLimit | BrFailedTest | BrSuccess.

Definition exit_branch {R} (s : LoopState R) : Branch :=
if limit_reached s then BrTimeLimit
else if negb (test s) then BrFailedTest
else BrSuccess.

(** The time limit in the unit of the clock, so that
    [elapsed / 60 > lim_min] in seconds is [limit_us lim_min < elapsed]. *)
Definition limit_us (lim_min : Z) : Z := 60000000 * lim_min.
Arguments limit_us : simpl never.

Section RetryEngine.
Context {W : Type} `{Collaborators W}.
Variable dbg : bool.

(** [if retries > 2: time.sleep(3)] *)
Definition delay (retries : nat) : M W unit :=
  if (2 <? retries)%nat
  then call_total (fun w => (tt, time_sleep 3 w)) (EvSleep 3)
  else ret tt.

(** The [while not (test or limit_reached)] loop.  [truthy] is Python's
    truth value of a result; [test_fn] returns the truth value of what
    the predicate returned.  Leaving through [break] skips the delay. *)
Fixpoint until_loop {R} (fuel : nat) (truthy : R -> bool)
    (test_fn : option (R -> M W bool)) (lim_min : Z) (desc : string)
    (fn : M W R) (start : Z) (s : LoopState R) : M W (LoopState R) :=
  match fuel with
  | O => fun _ => None
  | S fuel' =>
      if negb (test s || limit_reached s) then
        now <- call_total datetime_now EvNow ;;
        let limit_reached' := limit_us lim_min <? now - start in
        r <- fn ;;
        let retries' := S (retries s) in
        debug_print dbg "operation {} retried: {} times" ;;
        match test_fn with
        | Some t =>
            test' <- t r ;;
            delay retries' ;;
            until_loop fuel' truthy test_fn lim_min desc fn start
              (Build_LoopState retries' test' limit_reached' (Some r))
        | None =>
            if truthy r then
              ret (Build_LoopState retries' true limit_reached' (Some r))
            else
              delay retries' ;;
              until_loop fuel' truthy test_fn lim_min desc fn start
                (Build_LoopState retries' (test s) limit_reached' (Some r))
        end
      else ret s
  end.

Definition until_with_lim_test {R} (fuel : nat) (truthy : R -> bool)
    (test_fn : option (R -> M W bool)) (lim_min : Z) (desc : string)
    (fn : M W R) : M W R :=
  start <- call_total datetime_now EvNow ;;
  s <- until_loop fuel truthy test_fn lim_min desc fn start
         (Build_LoopState 0 false false None) ;;
  match exit_branch s with
  | BrTimeLimit => raise (TimeLimitedOperationException lim_min)
  | BrFailedTest => raise FailedOperationProvidedTest
  | BrSuccess =>
      debug_print dbg "succeeded, returning result" ;;
      match res s with
      | Some r => ret r
      | None => raise (UnboundLocalError "res")
      end
  end.

(** [until_with_lim = partial(until_with_lim_test, None)] *)
Definition until_with_lim {R} (fuel : nat) (truthy : R -> bool)
    (lim_min : Z) (desc : string) (fn : M W R) : M W R :=
  until_with_lim_test fuel truthy None lim_min desc fn.
End RetryEngine.

(** ** Small pieces of Python *)

(** [d.get(k, default)] *)
Definition get_or {A} (o : option A) (default : A) : A :=
  match o with
  | Some a => a
  | None => default
  end.

Definition is_some {A} (o : option A) : bool :=
  match o with
  | Some _ => true
  | None => false
  end.

(** Truth value of a guest dict: a dict is false only when it is empty. *)
Definition guest_truthy (g : VirtualGuest) : bool :=
  is_some (vg_id g) || is_some (vg_fullyQualifiedDomainName g)
  || is_some (vg_hostname g) || is_some (vg_domain g)
  || is_some (vg_primaryIpAddress g) || is_some (vg_operatingSystem g).

Definition key_truthy (k : SshKey) : bool :=
  is_some (key_id k) || is_some (key_label k).

Definition list_truthy {A} (l : list A) : bool :=
  match l with
  | [] => false
  | _ :: _ => true
  end.

(** Truth value of what [root_pass] returns: [None] and the empty string
    are false. *)
Definition password_truthy (p : option string) : bool :=
  match p with
  | Some s => negb (s =? "")%string
  | None => false
  end.

(** [str(x)] for an integer and for an optional string. *)
Definition str_int (z : Z) : string := NilZero.string_of_int (Z.to_int z).

Definition str_opt (o : option string) : string :=
  match o with
  | Some s => s
  | None => "None"
  end.

(** Whitespace as [str.split()] sees it among the code points below 256:
    tab to carriage return, U+001C to U+0020, U+0085 and U+00A0. *)
Definition is_space (c : ascii) : bool :=
  let n := nat_of_ascii c in
  ((9 <=? n) && (n <=? 13) || (28 <=? n) && (n <=? 32)
   || (n =? 133) || (n =? 160))%nat.

Fixpoint split_from (s : string) (cur : option string) : list string :=
  match s with
  | EmptyString =>
      match cur with
      | Some t => [t]
      | None => []
      end
  | String c s' =>
      if is_space c then
        match cur with
        | Some t => t :: split_from s' None
        | None => split_from s' None
        end
      else split_from s' (Some (get_or cur "" ++ String c "")%string)
  end.

(** [s.split()] *)
Definition split (s : string) : list string := split_from s None.

(** [''.join(key.split()[-1:])]: the last field, or the empty string. *)
Definition key_comment (key : string) : string := last (split key) "".

(** ** Instance Locator: [_locate_instance] *)

(** The list comprehension of [vs_lookup]:
    [i and i.get('hostname', '') == name and i.get('domain', '') == domain]. *)
Definition exact_matches (name domain : string) (vs_li : list VirtualGuest)
    : list VirtualGuest :=
  filter (fun i => guest_truthy i
                   && (get_or (vg_hostname i) "" =? name)%string
                   && (get_or (vg_domain i) "" =? domain)%string) vs_li.

(** The filter on [operatingSystem.passwords] inside [root_pass]. *)
Definition root_passwords (pws : list OsPassword) : list OsPassword :=
  filter (fun i => (get_or (pw_username i) "" =? "root")%string) pws.

(** [root_pass] is called once on the list [vs_lookup] returned and once on
    a single guest. *)
Inductive RootPassArg :=
| OfList (vs : list VirtualGuest)
| OfGuest (vs : VirtualGuest).

Section Locator.
Context {W : Type} `{Collaborators W}.
Variable dbg : bool.

Definition getitem {A} (field : option A) (key : string) : M W A :=
  match field with
  | Some a => ret a
  | None => raise (KeyError key)
  end.

Definition vs_lookup (name domain : string) : M W (list VirtualGuest) :=
  debug_print dbg "Attempting lookup of instance with name: {}; ..." ;;
  vs_li <- call getVirtualGuests EvGetVirtualGuests ;;
  ret (exact_matches name domain vs_li).

Definition root_pass (name : string) (vs : RootPassArg) : M W (option string) :=
  let my_vs :=
    match vs with
    | OfList (g :: _) => Some g       (* vs[0] *)
    | OfList [] => None               (* the empty list itself, which is false *)
    | OfGuest g => Some g
    end in
  debug_print dbg "my_vs: {}" ;;
  match my_vs with
  | None => ret None
  | Some g =>
      if guest_truthy g then
        match vg_operatingSystem g with
        | None => ret None
        | Some os =>
            match os_passwords os with
            | None => ret None
            | Some pws =>
                if list_truthy pws then
                  let passw := root_passwords pws in
                  if (List.length passw =? 1)%nat then
                    match passw with
                    | p :: _ => s <- getitem (pw_password p) "password" ;; ret (Some s)
                    | [] => raise IndexError
                    end
                  else if (1 <? List.length passw)%nat then
                    raise (MultipleRootPasswords name)
                  else ret None
                else ret None
            end
        end
      else ret None
  end.

(** [root_pass] used as the predicate of the polling loop. *)
Definition root_pass_test (name : string) (vs : list VirtualGuest) : M W bool :=
  p <- root_pass name (OfList vs) ;;
  ret (password_truthy p).

Definition _locate_instance (fuel : nat) (name domain : string)
    : M W (option Instance) :=
  matching <- vs_lookup name domain ;;
  if negb (list_truthy matching) then ret None
  else if (List.length matching =? 1)%nat then
    found <- until_with_lim_test dbg fuel list_truthy
               (Some (root_pass_test name))
               5 "VM lookup" (vs_lookup name domain) ;;
    match found with
    | [] => raise IndexError
    | provisioned :: _ =>
        if guest_truthy provisioned then
          debug_print dbg "queried provisioned box: {}" ;;
          fqdn <- getitem (vg_fullyQualifiedDomainName provisioned)
                    "fullyQualifiedDomainName" ;;
          ip <- getitem (vg_primaryIpAddress provisioned) "primaryIpAddress" ;;
          pw <- root_pass name (OfGuest provisioned) ;;
          id <- getitem (vg_id provisioned) "id" ;;
          ret (Some {| inst_fqdn := fqdn; inst_ip := ip;
                       inst_root_password := pw; inst_id := id |})
        else raise (FailedToLocate name)
    end
  else raise (AmbiguousResults name matching).
End Locator.

(** ** Report and cancel *)

(** [_report_instance]; [list(None)] is a [TypeError]. *)
Definition _report_instance (instance : option Instance) (show_root_pass : bool)
    : Res string :=
  match instance with
  | None => Raise TypeError
  | Some i =>
      let password := if show_root_pass then str_opt (inst_root_password i)
                      else "XXXXX" in
      Ok (String.concat " " [inst_fqdn i; inst_ip i; password; str_int (inst_id i)])
  end.

Section Provisioning.
Context {W : Type} `{Collaborators W}.
Variable dbg : bool.

Definition lift_res {A} (r : Res A) : M W A :=
  match r with
  | Ok a => ret a
  | Raise e => raise e
  end.

Definition _hose_instance (instance : Instance) : M W unit :=
  debug_print dbg "hosing instance {}" ;;
  call (cancel_instance (inst_id instance)) (EvCancelInstance (inst_id instance)).

(** ** Key Provisioner: [_locate_or_add_pubkey] *)

(** [key['label'] == key_label] for every key, in order. *)
Fixpoint keys_with_label (keys : list SshKey) (key_label' : string)
    : Res (list SshKey) :=
  match keys with
  | [] => Ok []
  | key :: rest =>
      match key_label key with
      | None => Raise (KeyError "label")
      | Some l =>
          match keys_with_label rest key_label' with
          | Raise e => Raise e
          | Ok found => Ok (if (l =? key_label')%string then key :: found else found)
          end
      end
  end.

Definition key_by_label (key_label' : string) : M W SshKey :=
  keys <- call list_keys EvListKeys ;;
  found <- lift_res (keys_with_label keys key_label') ;;
  match found with
  | key :: _ => ret key
  | [] => raise IndexError
  end.

Definition _locate_or_add_pubkey (path_or_label : string) : M W SshKey :=
  is_file <- call_total (path_exists path_or_label) (EvPathExists path_or_label) ;;
  if is_file : bool then
    key <- call (read_file path_or_label) (EvReadFile path_or_label) ;;
    let key_label' := key_comment key in
    sl_key <- key_by_label key_label' ;;
    again <- key_by_label key_label' ;;
    if key_truthy again then raise (KeyLabelExists path_or_label key_label')
    else
      call (add_key key key_label') (EvAddKey key key_label') ;;
      key_by_label key_label'
  else
    sl_key <- key_by_label path_or_label ;;
    if key_truthy sl_key then ret sl_key
    else raise (KeyLabelNotFound path_or_label).
End Provisioning.

(** ** Remote configuration over SSH *)

Section Orchestrator.
Context {W : Type} `{Collaborators W}.
Variable dbg : bool.

(** The local function [ssh_connect] of [_ssh_with_retry].  Indexing a
    missing instance is a [TypeError], caught like a refused connection.
    With debug output on, the handler's own message names [ssh_lim_min],
    which is not defined. *)
Definition ssh_connect (instance : option Instance) : M W bool :=
  r <- attempt
         (debug_print dbg "Attempting to SSH to instance: {}" ;;
          match instance with
          | None => raise TypeError
          | Some i =>
              call (ssh_connect_to (inst_ip i) (inst_root_password i))
                   (EvSshConnect (inst_ip i) (inst_root_password i))
          end) ;;
  match r with
  | inr _ => ret true
  | inl _ =>
      (if dbg then
         match instance with
         | None => raise TypeError
         | Some _ => raise (NameError "ssh_lim_min")
         end
       else ret tt) ;;
      emit EvTraceback ;;
      ret false
  end.

Definition _ssh_with_retry (fuel : nat) (instance : option Instance)
    (fn : M W unit) (lim : Z) : M W unit :=
  until_with_lim dbg fuel (fun b : bool => b) lim "SSH connect"
    (ssh_connect instance) ;;
  fn.

Definition tmp_dest_archive : string := "/tmp/saltmaster_seed.tar.gz".

Definition _upload_salt_seed (seed_dir' : string) : M W unit :=
  call (sftp_put seed_dir' tmp_dest_archive) (EvSftpPut seed_dir' tmp_dest_archive) ;;
  call (exec_command "ARCHIVE=/tmp/saltmaster_seed.tar.gz; tar xvzf $ARCHIVE -C / && rm -f $ARCHIVE")
       (EvExecCommand "ARCHIVE=/tmp/saltmaster_seed.tar.gz; tar xvzf $ARCHIVE -C / && rm -f $ARCHIVE") ;;
  debug_print dbg "uploaded seed dir {} to instance and extracted in /".

(** Both commands sit behind [_debug and ...]. *)
Definition _install_saltmaster_in_docker : M W unit :=
  debug_print dbg "installing docker" ;;
  (if dbg then
     call (exec_command "yum install -y docker && systemctl enable docker && systemctl start docker")
          (EvExecCommand "yum install -y docker && systemctl enable docker && systemctl start docker")
   else ret tt) ;;
  debug_print dbg "downloading and starting saltmaster container" ;;
  (if dbg then
     call (exec_command "mkdir /etc/salt && docker run --name saltmaster -v /etc/salt:/etc/salt -v /srv:/srv -d mdye/v2015_5-saltmaster")
          (EvExecCommand "mkdir /etc/salt && docker run --name saltmaster -v /etc/salt:/etc/salt -v /srv:/srv -d mdye/v2015_5-saltmaster")
   else ret tt).

(** The last statement reads the name [debug], which is not defined. *)
Definition _add_sl_cli : M W unit :=
  call (sftp_put "~/.softlayer" "/root/.softlayer")
       (EvSftpPut "~/.softlayer" "/root/.softlayer") ;;
  raise (NameError "debug").

(** ** Provisioning Orchestrator: [main] *)

Definition str_truthy (o : option string) : bool :=
  match o with
  | Some s => negb (s =? "")%string
  | None => false
  end.

Definition my_locate (fuel : nat) (args : Args) : M W (option Instance) :=
  _locate_instance dbg fuel (saltmaster_vm_name args) (saltmaster_vm_domain args).

(** The three remote steps inside the [try]. *)
Definition configure (fuel : nat) (args : Args) (vs : option Instance) : M W unit :=
  (if str_truthy (seed_dir args) then
     _ssh_with_retry fuel vs (_upload_salt_seed (get_or (seed_dir args) "")) 5
   else ret tt) ;;
  _ssh_with_retry fuel vs _install_saltmaster_in_docker 5 ;;
  (if add_sl_cli args then _ssh_with_retry fuel vs _add_sl_cli 5 else ret tt).

(** The [except Exception as ex:] block; [vs] is the variable's value when
    the exception was raised. *)
Definition on_failure (args : Args) (ex : exn) (vs : option Instance) : M W unit :=
  emit (EvPrintFailed (saltmaster_vm_name args) ex) ;;
  match vs with
  | Some i => _hose_instance dbg i
  | None => ret tt
  end.

(** The [try] statement of [main].  [vs] is assigned by the second
    statement of the body: an exception before that leaves it false, one
    after it finds the located instance.  The result is the final value
    of [vs]. *)
Definition create_and_provision (fuel : nat) (args : Args) (my_vm : VmRequest)
    : M W (option Instance) :=
  located <- attempt (call (createObject my_vm) (EvCreateObject my_vm) ;;
                      my_locate fuel args) ;;
  match located with
  | inl ex => on_failure args ex None ;; ret None
  | inr vs =>
      configured <- attempt (configure fuel args vs) ;;
      match configured with
      | inl ex => on_failure args ex vs ;; ret vs
      | inr _ => ret vs
      end
  end.

(** The [if args.ssh_pub_key:] block; [None] is "[ssh_key] not bound". *)
Definition resolve_key (args : Args) : M W (option SshKey) :=
  if str_truthy (ssh_pub_key args) then
    r <- attempt (_locate_or_add_pubkey (get_or (ssh_pub_key args) "")) ;;
    match r with
    | inr ssh_key => ret (Some ssh_key)
    | inl _ =>
        debug_print dbg "Failed to use ssh_key. Original exception: {}" ;;
        sys_exit 1
    end
  else ret None.

Definition report_and_exit (args : Args) (vs : option Instance) (exit_code : Z)
    : M W unit :=
  line <- lift_res (_report_instance vs (show_root_pass args)) ;;
  emit (EvPrint line) ;;
  sys_exit exit_code.

Definition main_with (fuel : nat) (args : Args) : M W unit :=
  debug_print dbg "Enabling debug output" ;;
  vs <- my_locate fuel args ;;
  match vs with
  | Some _ => report_and_exit args vs 0
  | None =>
      ssh_key <- resolve_key args ;;
      id <- match ssh_key with
            | None => raise (UnboundLocalError "ssh_key")
            | Some k => getitem (key_id k) "id"
            end ;;
      let my_vm := _vm_template (saltmaster_vm_name args)
                     (saltmaster_vm_domain args) [id] in
      debug_print dbg "creating new server w/ order detail: {}" ;;
      vs' <- create_and_provision fuel args my_vm ;;
      report_and_exit args vs' 15
  end.
End Orchestrator.

(** [main] sets the global [_debug] from the arguments first. *)
Definition main {W : Type} `{Collaborators W} (fuel : nat) (args : Args) : M W unit :=
  main_with (debug args) fuel args.

(** ** A simulated provider, to run the program on concrete scenarios *)

Module Sim.

(** The provider answers [getVirtualGuests] from a script (the last answer
    repeats), each such call and each SSH connection attempt takes
    [call_cost] microseconds, and sleeping advances the clock.  SSH either
    always connects or never does. *)
Record World := {
  time : Z;
  call_cost : Z;
  responses : list (list VirtualGuest);
  keys : list SshKey;
  files : list (string * string);
  ssh_up : bool
}.

Definition advance (dt : Z) (w : World) : World :=
  {| time := time w + dt; call_cost := call_cost w; responses := responses w;
     keys := keys w; files := files w; ssh_up := ssh_up w |}.

Definition next_response (w : World) : list VirtualGuest * World :=
  match responses w with
  | [] => ([], w)
  | [r] => (r, w)
  | r :: rest =>
      (r, {| time := time w; call_cost := call_cost w; responses := rest;
             keys := keys w; files := files w; ssh_up := ssh_up w |})
  end.

Definition register (k : SshKey) (w : World) : World :=
  {| time := time w; call_cost := call_cost w; responses := responses w;
     keys := keys w ++ [k]; files := files w; ssh_up := ssh_up w |}.

Fixpoint lookup_file (path : string) (fs : list (string * string)) : option string :=
  match fs with
  | [] => None
  | (p, content) :: rest => if (p =? path)%string then Some content else lookup_file path rest
  end.

#[export] Instance collaborators : Collaborators World := {
  datetime_now w := (time w, w);
  time_sleep secs w := advance (secs * 1000000) w;
  getVirtualGuests w :=
    let (r, w1) := next_response w in (inr r, advance (call_cost w) w1);
  createObject _ w := (inr tt, w);
  cancel_instance _ w := (inr tt, w);
  list_keys w := (inr (keys w), w);
  add_key key label w :=
    (inr tt, register {| key_id := Some (Z.of_nat (List.length (keys w)));
                         key_label := Some label |} w);
  path_exists path w := (is_some (lookup_file path (files w)), w);
  read_file path w :=
    match lookup_file path (files w) with
    | Some content => (inr content, w)
    | None => (inl "No such file or directory", w)
    end;
  ssh_connect_to _ _ w :=
    (if ssh_up w then inr tt else inl "Unable to connect", advance (call_cost w) w);
  sftp_put _ _ w := (inr tt, w);
  exec_command _ w := (inr tt, w)
}.

Definition root_credential (password : string) : OsPassword :=
  {| pw_username := Some "root"; pw_password := Some password |}.

Definition guest (id : Z) (hostname domain ip : string)
    (passwords : option (list OsPassword)) : VirtualGuest :=
  {| vg_id := Some id;
     vg_fullyQualifiedDomainName := Some (hostname ++ "." ++ domain)%string;
     vg_hostname := Some hostname;
     vg_domain := Some domain;
     vg_primaryIpAddress := Some ip;
     vg_operatingSystem :=
       match passwords with
       | Some pws => Some {| os_passwords := Some pws |}
       | None => None
       end |}.

Definition args_for (hostname domain : string) (key : option string) : Args :=
  {| saltmaster_vm_name := hostname; saltmaster_vm_domain := domain;
     show_root_pass := false; ssh_pub_key := key; seed_dir := None;
     add_sl_cli := false; debug := false |}.

Definition world (cost : Z) (script : list (list VirtualGuest)) : World :=
  {| time := 0; call_cost := cost; responses := script;
     keys := [ {| key_id := Some 77; key_label := Some "ops@laptop" |} ];
     files := [ ("/home/me/id_rsa.pub", "ssh-rsa AAAAB3Nza me@host") ];
     ssh_up := true |}.

Definition db1 : VirtualGuest :=
  guest 4242 "db1" "example.com" "10.0.0.5" (Some [root_credential "p@ss"]).

(** The record of a guest whose operating system is not installed yet. *)
Definition db1_pending : VirtualGuest :=
  guest 4242 "db1" "example.com" "10.0.0.5" None.

(** Credentials have been populated, but none is for [root]. *)
Definition db1_no_root : VirtualGuest :=
  guest 4242 "db1" "example.com" "10.0.0.5"
    (Some [ {| pw_username := Some "admin"; pw_password := Some "s3cret" |} ]).

(** *** Scenarios *)

(** The polling loop exactly as [_locate_instance] runs it for db1. *)
Definition poll (fuel : nat) : M World (list VirtualGuest) :=
  until_with_lim_test false fuel list_truthy (Some (root_pass_test false "db1"))
    5 "VM lookup" (vs_lookup false "db1" "example.com").

(** db1 exists and is ready; listings take one second. *)
Definition existing : World := world 1000000 [[db1]].

(** Two guests carry the name. *)
Definition duplicated : World := world 1000000 [[db1; db1]].

(** Nothing carries the name. *)
Definition absent : World := world 1000000 [[]].

(** The third listing of the poll is the first to show the root
    credential. *)
Definition ready_on_third : World :=
  world 1000000 [[db1_pending]; [db1_pending]; [db1]].

(** Listings take 101 seconds; the fourth one, requested 306 seconds after
    the poll started, is the first to show the root credential. *)
Definition ready_late : World :=
  world 101000000 [[db1_pending]; [db1_pending]; [db1_pending]; [db1]].

(** db1 is absent at first and, once created, never gets its operating
    system installed; listings take 101 seconds. *)
Definition created_never_ready : World :=
  world 101000000 [[]; [db1_pending]].

(** db1 never gets a root credential; listings take 101 seconds. *)
Definition never_root : World := world 101000000 [[db1_no_root]].

(** db1 is absent at first and ready right after its creation. *)
Definition created_ready : World := world 1000000 [[]; [db1]].

(** The same, but calls take 101 seconds and SSH never connects. *)
Definition created_unreachable : World :=
  {| time := 0; call_cost := 101000000; responses := [[]; [db1]];
     keys := keys created_ready; files := files created_ready; ssh_up := false |}.

Definition db1_instance : Instance :=
  {| inst_fqdn := "db1.example.com"; inst_ip := "10.0.0.5";
     inst_root_password := Some "p@ss"; inst_id := 4242 |}.

(** Create db1 with the registered key, then also install the provider
    CLI. *)
Definition args_with_cli : Args :=
  {| saltmaster_vm_name := "db1"; saltmaster_vm_domain := "example.com";
     show_root_pass := false; ssh_pub_key := Some "ops@laptop"; seed_dir := None;
     add_sl_cli := true; debug := false |}.

(** db1 with two credentials for [root]. *)
Definition db1_two_roots : VirtualGuest :=
  guest 4242 "db1" "example.com" "10.0.0.5"
    (Some [root_credential "p@ss"; root_credential "other"]).

(** db1 exists; from the second listing on it shows two root
    credentials. *)
Definition two_roots : World := world 1000000 [[db1]; [db1_two_roots]].

(** Create db1 with the registered key, with debug output. *)
Definition args_debug : Args :=
  {| saltmaster_vm_name := "db1"; saltmaster_vm_domain := "example.com";
     show_root_pass := false; ssh_pub_key := Some "ops@laptop"; seed_dir := None;
     add_sl_cli := false; debug := true |}.

(** db1 with its root credential, before an address is assigned to it. *)
Definition db1_no_address : VirtualGuest :=
  {| vg_id := Some 4242;
     vg_fullyQualifiedDomainName := Some "db1.example.com";
     vg_hostname := Some "db1";
     vg_domain := Some "example.com";
     vg_primaryIpAddress := None;
     vg_operatingSystem := Some {| os_passwords := Some [root_credential "p@ss"] |} |}.

Definition existing_no_address : World := world 1000000 [[db1_no_address]].

(** db1 whose one root credential has the empty password; listings take
    101 seconds. *)
Definition db1_blank_password : VirtualGuest :=
  guest 4242 "db1" "example.com" "10.0.0.5" (Some [root_credential ""]).

Definition existing_blank_password : World := world 101000000 [[db1_blank_password]].

(** A record of another host, and one without hostname and domain. *)
Definition web1 : VirtualGuest :=
  guest 17 "web1" "example.com" "10.0.0.9" (Some [root_credential "w"]).

Definition unnamed : VirtualGuest :=
  {| vg_id := Some 5; vg_fullyQualifiedDomainName := None; vg_hostname := None;
     vg_domain := None; vg_primaryIpAddress := None; vg_operatingSystem := None |}.

(** A listing that shows db1 three times among other records. *)
Definition crowded : World :=
  world 1000000 [[web1; db1; unnamed; db1_pending; db1]].

(** A record that has the domain but no hostname. *)
Definition nameless : VirtualGuest :=
  {| vg_id := Some 6; vg_fullyQualifiedDomainName := None; vg_hostname := None;
     vg_domain := Some "example.com"; vg_primaryIpAddress := None;
     vg_operatingSystem := None |}.

End Sim.

(** The simulated provider with a listing call that raises once [healthy]
    listings were served. *)
Module Flaky.

#[local] Existing Instance Sim.collaborators.

Record World := {
  base : Sim.World;
  healthy : nat
}.

Definition lift {A} (op : Sim.World -> A * Sim.World) (w : World) : A * World :=
  let (a, b) := op (base w) in (a, {| base := b; healthy := healthy w |}).

#[export] Instance collaborators : Collaborators World := {
  datetime_now := lift datetime_now;
  time_sleep secs w := {| base := time_sleep secs (base w); healthy := healthy w |};
  getVirtualGuests w :=
    match healthy w with
    | O => (inl "Service unavailable", w)
    | S n =>
        let (r, b) := getVirtualGuests (base w) in (r, {| base := b; healthy := n |})
    end;
  createObject vm := lift (createObject vm);
  cancel_instance id := lift (cancel_instance id);
  list_keys := lift list_keys;
  add_key key label := lift (add_key key label);
  path_exists path := lift (path_exists path);
  read_file path := lift (read_file path);
  ssh_connect_to ip pw := lift (ssh_connect_to ip pw);
  sftp_put src dst := lift (sftp_put src dst);
  exec_command cmd := lift (exec_command cmd)
}.

(** db1 is not ready at the first poll, and the provider fails from the
    third listing on. *)
Definition two_listings : World :=
  {| base := Sim.world 1000000 [[Sim.db1]; [Sim.db1_pending]]; healthy := 2 |}.

End Flaky.

(** ** A record of what the clock and the listing call answered *)

Inductive Answer :=
| ClockRead (t : Z)
| Listed (vs_li : list VirtualGuest)
| ListingFailed (msg : string).

Definition listing_answer (r : string + list VirtualGuest) : Answer :=
  match r with
  | inl msg => ListingFailed msg
  | inr vs_li => Listed vs_li
  end.

Definition is_failed_listing (a : Answer) : bool :=
  match a with ListingFailed _ => true | _ => false end.

(** Any world, together with the answers of its clock and of its listing
    call, written down in the order of the calls.  Nothing else changes. *)
Module Recorded.
Section Recorded.
Context {W : Type} (C : Collaborators W).

Definition keep {A} (op : W -> A * W) (w : W * list Answer) : A * (W * list Answer) :=
  let (a, b) := op (fst w) in (a, (b, snd w)).

Definition collaborators : Collaborators (W * list Answer) := {|
  datetime_now w :=
    let (t, b) := datetime_now (fst w) in (t, (b, snd w ++ [ClockRead t]));
  time_sleep secs w := (time_sleep secs (fst w), snd w);
  getVirtualGuests w :=
    let (r, b) := getVirtualGuests (fst w) in (r, (b, snd w ++ [listing_answer r]));
  createObject vm := keep (createObject vm);
  cancel_instance id := keep (cancel_instance id);
  list_keys := keep list_keys;
  add_key key label := keep (add_key key label);
  path_exists path := keep (path_exists path);
  read_file path := keep (read_file path);
  ssh_connect_to ip pw := keep (ssh_connect_to ip pw);
  sftp_put src dst := keep (sftp_put src dst);
  exec_command cmd := keep (exec_command cmd)
|}.
End Recorded.
End Recorded.

(** ** The timing rule of the retry engine, as event lists *)

(** What attempt number [k] contributes: the clock is read at the top of
    the iteration, and [if retries > 2: time.sleep(3)] runs at its end. *)
Definition attempt_timing (k : nat) : list Event :=
  EvNow :: (if (2 <? k)%nat then [EvSleep 3] else []).

(** Clock and delay events of a loop that ran [retries s] attempts.
    Without a predicate a successful attempt leaves through [break] and is
    not followed by a delay. *)
Definition engine_timing {R} (has_test : bool) (s : LoopState R) : list Event :=
  if has_test || negb (test s)
  then flat_map attempt_timing (seq 1 (retries s))
  else flat_map attempt_timing (seq 1 (retries s - 1)) ++ [EvNow].

(** The rule with the delay placed before every attempt after the second. *)
Definition delay_before_third_timing (n : nat) : list Event :=
  flat_map (fun k => (if (2 <? k)%nat then [EvSleep 3] else []) ++ [EvNow])
           (seq 1 n).

(** ** Vocabulary of the statements *)

(** Every event emitted by [m], however it ends, satisfies [P]. *)
Definition emits {W : Type} (P : Event -> Prop) {A} (m : M W A) : Prop :=
  forall w r w' evs, m w = Some (r, w', evs) -> Forall P evs.

(** [m] neither reads the clock nor sleeps. *)
Definition quiet {W : Type} {A} (m : M W A) : Prop :=
  emits (fun ev => is_timing ev = false) m.

(** An event that is not a cancel call. *)
Definition calm (ev : Event) : Prop := is_cancel ev = false.

(** What [debug_print] adds to the output. *)
Definition debug_line (dbg : bool) (template : string) : list Event :=
  if dbg then [EvDebug template] else [].

(** Everything attempt number [k] emits when [fn] emitted [e] and the
    predicate emitted [f]. *)
Definition attempt_events (dbg : bool) (k : nat) (e f : list Event) : list Event :=
  [EvNow] ++ e ++ debug_line dbg "operation {} retried: {} times" ++ f
  ++ (if (2 <? k)%nat then [EvSleep 3] else []).

(** The loop variables before the first iteration. *)
Definition loop_start (R : Type) : LoopState R :=
  Build_LoopState 0 false false None.

(** The credential list of [g] is populated and holds no entry for the
    [root] account. *)
Definition populated_without_root (g : VirtualGuest) : Prop :=
  exists os pws,
    vg_operatingSystem g = Some os /\ os_passwords os = Some pws /\
    pws <> [] /\ root_passwords pws = [].

(** [g] is fully populated: the fields of the report are present and
    exactly one credential, with a non-empty password, is for [root]. *)
Definition provisioned_as (g : VirtualGuest) (fqdn ip password : string) (id : Z)
    : Prop :=
  vg_fullyQualifiedDomainName g = Some fqdn /\
  vg_primaryIpAddress g = Some ip /\
  vg_id g = Some id /\
  password <> "" /\
  exists os pws p,
    vg_operatingSystem g = Some os /\ os_passwords os = Some pws /\
    root_passwords pws = [p] /\ pw_password p = Some password.

(** For as long as the program runs ([Inv] is kept by every call it makes
    while polling), each listing shows exactly one match, whose credential
    list is populated without a [root] entry. *)
Definition stuck_without_root {W : Type} `{Collaborators W}
    (name domain : string) (Inv : W -> Prop) : Prop :=
  (forall w, Inv w -> Inv (snd (datetime_now w))) /\
  (forall w secs, Inv w -> Inv (time_sleep secs w)) /\
  (forall w, Inv w ->
     exists vs_li w1 g,
       getVirtualGuests w = (inr vs_li, w1) /\ Inv w1 /\
       exact_matches name domain vs_li = [g] /\ populated_without_root g).

(** Every exception [m] can end with satisfies [Q]. *)
Definition raises {W : Type} (Q : exn -> Prop) {A} (m : M W A) : Prop :=
  forall w e w' evs, m w = Some (Raise e, w', evs) -> Q e.

(** [r] was produced by a call of [fn] and accepted: the predicate, called
    on it right after, answered true; without a predicate, [r] is true. *)
Definition accepted {W : Type} {R} (truthy : R -> bool)
    (test_fn : option (R -> M W bool)) (fn : M W R) (r : R) : Prop :=
  exists w0 w1 e0,
    fn w0 = Some (Ok r, w1, e0) /\
    match test_fn with
    | Some t => exists w2 e, t r w1 = Some (Ok true, w2, e)
    | None => truthy r = true
    end.

(** An event that is neither a create nor a cancel call. *)
Definition steady (ev : Event) : Prop := is_create ev = false /\ is_cancel ev = false.

(** Events that reach neither the provider's state nor the instance:
    clock, sleep, listings, local files and output. *)
Definition local_event (ev : Event) : bool :=
  match ev with
  | EvNow | EvSleep _ | EvGetVirtualGuests | EvListKeys | EvPathExists _
  | EvReadFile _ | EvTraceback | EvDebug _ | EvPrintFailed _ _ | EvPrint _ => true
  | _ => false
  end.

Definition is_ssh_connect (ev : Event) : bool :=
  match ev with EvSshConnect _ _ => true | _ => false end.

(** A command run or a file put on the instance. *)
Definition is_remote_action (ev : Event) : bool :=
  match ev with EvSftpPut _ _ | EvExecCommand _ => true | _ => false end.

Definition is_listing (ev : Event) : bool :=
  match ev with EvGetVirtualGuests => true | _ => false end.

(** No character of [s] is whitespace for [str.split()]. *)
Fixpoint no_space (s : string) : Prop :=
  match s with
  | EmptyString => True
  | String c s' => is_space c = false /\ no_space s'
  end.

(** Every character of [s] is whitespace for [str.split()]. *)
Fixpoint all_space (s : string) : Prop :=
  match s with
  | EmptyString => True
  | String c s' => is_space c = true /\ all_space s'
  end.

(** A non-empty field without whitespace. *)
Definition field (s : string) : Prop := s <> "" /\ no_space s.

(** The credential list of [g] holds two or more entries for [root]. *)
Definition several_root_credentials (g : VirtualGuest) : Prop :=
  exists os pws,
    vg_operatingSystem g = Some os /\ os_passwords os = Some pws /\
    (2 <= List.length (root_passwords pws))%nat.

(** The exceptions the Locator can end with. *)
Definition locator_exn (e : exn) : Prop :=
  match e with
  | CollaboratorError _ | TimeLimitedOperationException _
  | MultipleRootPasswords _ | AmbiguousResults _ _ | KeyError _ => True
  | _ => False
  end.

(** The exceptions the Key Provisioner can end with. *)
Definition key_exn (e : exn) : Prop :=
  match e with
  | CollaboratorError _ | IndexError | KeyError _ | KeyLabelExists _ _ => True
  | _ => False
  end.

(** What [except Exception] catches. *)
Definition caught (e : exn) : Prop := is_Exception e = true.

(** An event that is not a key registration. *)
Definition unregistered (ev : Event) : Prop := is_add_key ev = false.

Definition is_print (ev : Event) : bool :=
  match ev with EvPrint _ => true | _ => false end.

(** The credential list of [g] holds exactly one entry for [root]. *)
Definition one_root_credential (g : VirtualGuest) : Prop :=
  exists os pws p,
    vg_operatingSystem g = Some os /\ os_passwords os = Some pws /\
    root_passwords pws = [p].

(** [hist] is a record the world keeps of its clock: each reading adds its
    answer at the end, and sleeping adds nothing. *)
Definition records_clock {W : Type} `{Collaborators W} (hist : W -> list Answer)
    : Prop :=
  (forall w, hist (snd (datetime_now w))
             = hist w ++ [ClockRead (fst (datetime_now w))]) /\
  (forall secs w, hist (time_sleep secs w) = hist w).

(** [hist] also records the listing call: each call adds its answer at the
    end. *)
Definition records_listing {W : Type} `{Collaborators W} (hist : W -> list Answer)
    : Prop :=
  forall w, hist (snd (getVirtualGuests w))
            = hist w ++ [listing_answer (fst (getVirtualGuests w))].

(** [m] only adds to the record. *)
Definition extends {W : Type} (hist : W -> list Answer) {A} (m : M W A) : Prop :=
  forall w r w' evs, m w = Some (r, w', evs) -> exists l, hist w' = hist w ++ l.

(** [m] leaves the world as it is. *)
Definition still {W : Type} {A} (m : M W A) : Prop :=
  forall w r w' evs, m w = Some (r, w', evs) -> w' = w.

(** No listing among the answers [l] failed. *)
Definition unfailing (l : list Answer) : Prop :=
  Forall (fun a => is_failed_listing a = false) l.

(** Among the answers [l] only the last can be a failed listing, and then
    the computation ended with that failure. *)
Definition failure_last {A} (l : list Answer) (r : Res A) : Prop :=
  unfailing l \/
  exists pre msg,
    l = pre ++ [ListingFailed msg] /\ unfailing pre /\
    r = Raise (CollaboratorError msg).

(** [g] has the hostname and the domain among its fields. *)
Definition carries (name domain : string) (g : VirtualGuest) : bool :=
  match vg_hostname g, vg_domain g with
  | Some h, Some d => (h =? name)%string && (d =? domain)%string
  | _, _ => false
  end.

(** * Properties *)

(** ** Running monadic code *)

Section Run.
Context {W : Type}.

Lemma bind_ok {A B} (m : M W A) (f : A -> M W B) w a w1 e1 :
  m w = Some (Ok a, w1, e1) ->
  bind m f w =
  match f a w1 with
  | None => None
  | Some (r, w2, e2) => Some (r, w2, e1 ++ e2)
  end.
Proof. intros E. unfold bind. rewrite E. reflexivity. Qed.

Lemma bind_raise {A B} (m : M W A) (f : A -> M W B) w e w1 e1 :
  m w = Some (Raise e, w1, e1) ->
  bind m f w = Some (Raise e, w1, e1).
Proof. intros E. unfold bind. rewrite E. reflexivity. Qed.

Lemma bind_inv {A B} (m : M W A) (f : A -> M W B) w r w' evs :
  bind m f w = Some (r, w', evs) ->
  (exists e, m w = Some (Raise e, w', evs) /\ r = Raise e) \/
  (exists a w1 e1 e2,
      m w = Some (Ok a, w1, e1) /\ f a w1 = Some (r, w', e2) /\ evs = e1 ++ e2).
Proof.
  unfold bind. destruct (m w) as [[[[a|e] w1] e1]|] eqn:E; try discriminate.
  - destruct (f a w1) as [[[r2 w2] e2]|] eqn:F; try discriminate.
    intros X. inversion X; subst. right. exists a, w1, e1, e2. auto.
  - intros X. inversion X; subst. left. exists e. auto.
Qed.

Lemma attempt_inv {A} (m : M W A) w r w' evs :
  attempt m w = Some (r, w', evs) ->
  (exists a, m w = Some (Ok a, w', evs) /\ r = Ok (inr a)) \/
  (exists e, m w = Some (Raise e, w', evs) /\
             r = if is_Exception e then Ok (inl e) else Raise e).
Proof.
  unfold attempt. destruct (m w) as [[[[a|e] w1] e1]|] eqn:E; try discriminate.
  - intros X. inversion X; subst. left. eauto.
  - destruct (is_Exception e) eqn:Ex; intros X; inversion X; subst; right;
      exists e; rewrite Ex; auto.
Qed.

(** ** Which events a computation can emit *)

Lemma emits_ret P {A} (a : A) : emits P (@ret W A a).
Proof. intros w r w' evs X. inversion X. constructor. Qed.

Lemma emits_raise P {A} e : emits P (@raise W A e).
Proof. intros w r w' evs X. inversion X. constructor. Qed.

Lemma emits_emit (P : Event -> Prop) ev : P ev -> emits P (@emit W ev).
Proof. intros Hp w r w' evs X. inversion X. auto. Qed.

Lemma emits_bind P {A B} (m : M W A) (f : A -> M W B) :
  emits P m -> (forall a, emits P (f a)) -> emits P (bind m f).
Proof.
  intros Hm Hf w r w' evs X.
  destruct (bind_inv _ _ _ _ _ _ X) as [(e & E & _)|(a & w1 & e1 & e2 & E & F & ->)].
  - eapply Hm; eauto.
  - apply Forall_app. split; [eapply Hm | eapply Hf]; eauto.
Qed.

Lemma emits_attempt P {A} (m : M W A) : emits P m -> emits P (attempt m).
Proof.
  intros Hm w r w' evs X.
  destruct (attempt_inv _ _ _ _ _ X) as [(a & E & _)|(e & E & _)]; eapply Hm; eauto.
Qed.

Lemma emits_call (P : Event -> Prop) {A} (op : W -> (string + A) * W) ev :
  P ev -> emits P (call op ev).
Proof.
  intros Hp w r w' evs. unfold call.
  destruct (op w) as [[msg|a] w1]; intros X; inversion X; auto.
Qed.

Lemma emits_call_total (P : Event -> Prop) {A} (op : W -> A * W) ev :
  P ev -> emits P (call_total op ev).
Proof.
  intros Hp w r w' evs. unfold call_total.
  destruct (op w) as [a w1]; intros X; inversion X; auto.
Qed.

Lemma emits_debug_print (P : Event -> Prop) dbg template :
  P (EvDebug template) -> emits P (@debug_print W dbg template).
Proof.
  intros Hp. destruct dbg; simpl; [apply emits_emit | apply emits_ret]; auto.
Qed.

Lemma emits_lift_res P {A} (r : Res A) : emits P (@lift_res W A r).
Proof. destruct r; [apply emits_ret | apply emits_raise]. Qed.

Lemma emits_getitem P {A} (field : option A) key :
  emits P (@getitem W A field key).
Proof. destruct field; [apply emits_ret | apply emits_raise]. Qed.

Lemma Forall_filter_nil (p : Event -> bool) evs :
  Forall (fun ev => p ev = false) evs -> filter p evs = [].
Proof.
  induction 1 as [|ev evs Hev _ IH]; simpl; auto. rewrite Hev. exact IH.
Qed.
End Run.

Create HintDb emits.
#[local] Hint Resolve emits_ret emits_raise emits_emit emits_attempt emits_call
  emits_call_total emits_debug_print emits_lift_res emits_getitem : emits.

(** Break a goal [emits P m] down along the structure of [m]. *)
Ltac emits_step :=
  match goal with
  | |- emits _ (bind _ _) => apply emits_bind; [| intros ?]
  | |- emits _ (if ?b then _ else _) => destruct b
  | |- emits _ (match ?x with _ => _ end) => destruct x
  | |- emits _ _ => solve [auto with emits]
  end.

(** ** The retry engine *)

Section EngineFacts.
Context {W : Type} `{Collaborators W}.

Lemma emits_delay (P : Event -> Prop) n : P (EvSleep 3) -> emits P (delay n).
Proof.
  intros Hp. unfold delay. destruct (2 <? n)%nat; auto with emits.
Qed.

(** The loop emits only what [fn] and the predicate emit, clock readings,
    delays and its progress line. *)
Lemma emits_until_loop (P : Event -> Prop) {R} dbg fuel truthy
    (test_fn : option (R -> M W bool)) lim_min desc fn start s :
  P EvNow -> P (EvSleep 3) -> P (EvDebug "operation {} retried: {} times") ->
  emits P fn ->
  (forall t r, test_fn = Some t -> emits P (t r)) ->
  emits P (until_loop dbg fuel truthy test_fn lim_min desc fn start s).
Proof.
  intros Hnow Hsleep Hdbg Hfn Htest. revert s.
  induction fuel as [|fuel IH]; intros s; simpl.
  - intros w r w' evs X. discriminate.
  - destruct (negb (test s || limit_reached s)); [|apply emits_ret].
    apply emits_bind; [auto with emits|intros now].
    apply emits_bind; [exact Hfn|intros r].
    apply emits_bind; [auto with emits|intros _].
    destruct test_fn as [t|].
    + apply emits_bind; [eapply Htest; reflexivity|intros b].
      apply emits_bind; [apply emits_delay; exact Hsleep|intros _]. apply IH.
    + destruct (truthy r); [apply emits_ret|].
      apply emits_bind; [apply emits_delay; exact Hsleep|intros _]. apply IH.
Qed.

Lemma emits_until_with_lim_test (P : Event -> Prop) {R} dbg fuel truthy
    (test_fn : option (R -> M W bool)) lim_min desc fn :
  P EvNow -> P (EvSleep 3) -> (forall t, P (EvDebug t)) ->
  emits P fn ->
  (forall t r, test_fn = Some t -> emits P (t r)) ->
  emits P (until_with_lim_test dbg fuel truthy test_fn lim_min desc fn).
Proof.
  intros Hnow Hsleep Hdbg Hfn Htest. unfold until_with_lim_test.
  apply emits_bind; [auto with emits|intros start].
  apply emits_bind; [apply emits_until_loop; auto|intros s].
  destruct (exit_branch s); auto with emits.
  apply emits_bind; [auto with emits|intros _].
  destruct (res s); auto with emits.
Qed.

(** The loop stops only once the test holds or the limit was found
    exceeded. *)
Lemma until_loop_exit {R} dbg fuel truthy (test_fn : option (R -> M W bool))
    lim_min desc fn start s0 w s w' evs :
  until_loop dbg fuel truthy test_fn lim_min desc fn start s0 w = Some (Ok s, w', evs) ->
  test s || limit_reached s = true.
Proof.
  revert s0 w evs. induction fuel as [|fuel IH]; intros s0 w evs; simpl.
  - discriminate.
  - destruct (test s0 || limit_reached s0) eqn:C; simpl.
    + intros X. inversion X; subst. exact C.
    + intros X.
      apply bind_inv in X. destruct X as [(e & _ & X)|(now & w1 & e1 & e2 & _ & X & _)];
        [discriminate|].
      apply bind_inv in X. destruct X as [(e & _ & X)|(r & w2 & e3 & e4 & _ & X & _)];
        [discriminate|].
      apply bind_inv in X. destruct X as [(e & _ & X)|(u & w3 & e5 & e6 & _ & X & _)];
        [discriminate|].
      destruct test_fn as [t|].
      * apply bind_inv in X. destruct X as [(e & _ & X)|(b & w4 & e7 & e8 & _ & X & _)];
          [discriminate|].
        apply bind_inv in X. destruct X as [(e & _ & X)|(u' & w5 & e9 & e10 & _ & X & _)];
          [discriminate|].
        eapply IH; eauto.
      * destruct (truthy r).
        -- inversion X; subst. reflexivity.
        -- apply bind_inv in X.
           destruct X as [(e & _ & X)|(u' & w5 & e9 & e10 & _ & X & _)]; [discriminate|].
           eapply IH; eauto.
Qed.

(** C9: whenever the retry loop is left with the time limit not found
    exceeded, the test is satisfied; so the branch that raises
    'failed operation-provided test' is never the one taken after the
    loop. *)
Theorem until_failed_test_branch_unreachable {R} dbg fuel truthy
    (test_fn : option (R -> M W bool)) lim_min desc fn start s0 w s w' evs :
  until_loop dbg fuel truthy test_fn lim_min desc fn start s0 w = Some (Ok s, w', evs) ->
  (limit_reached s = false -> test s = true) /\ exit_branch s <> BrFailedTest.
Proof.
  intros X. apply until_loop_exit in X. unfold exit_branch.
  destruct (limit_reached s), (test s); simpl in *; split;
    congruence || discriminate.
Qed.
End EngineFacts.

(** ** Timing of the attempts *)

Section Timing.
Context {W : Type} `{Collaborators W}.

Lemma delay_run (n : nat) (w : W) :
  delay n w =
  Some (Ok tt, if (2 <? n)%nat then time_sleep 3 w else w,
        if (2 <? n)%nat then [EvSleep 3] else []).
Proof. unfold delay. destruct (2 <? n)%nat; reflexivity. Qed.

Lemma quiet_filter {A} (m : M W A) w r w' evs :
  quiet m -> m w = Some (r, w', evs) -> filter is_timing evs = [].
Proof. intros Q E. apply Forall_filter_nil. eapply Q; eauto. Qed.

Lemma quiet_debug_print dbg template : quiet (@debug_print W dbg template).
Proof. apply emits_debug_print. reflexivity. Qed.

Lemma flat_map_seq_cons {B} (f : nat -> list B) k n :
  (k < n)%nat ->
  f (S k) ++ flat_map f (seq (S (S k)) (n - S k)) = flat_map f (seq (S k) (n - k)).
Proof.
  intros L. replace (n - k)%nat with (S (n - S k)) by lia. reflexivity.
Qed.

(** With a predicate: every attempt, the satisfying one included, is
    followed by the delay once more than two attempts were made. *)
Lemma until_loop_timing_test {R} dbg fuel truthy (t : R -> M W bool)
    lim_min desc fn start s0 w s w' evs :
  quiet fn -> (forall r, quiet (t r)) ->
  until_loop dbg fuel truthy (Some t) lim_min desc fn start s0 w = Some (Ok s, w', evs) ->
  (retries s0 <= retries s)%nat /\
  filter is_timing evs =
  flat_map attempt_timing (seq (S (retries s0)) (retries s - retries s0)).
Proof.
  intros Qfn Qt. revert s0 w evs. induction fuel as [|fuel IH]; intros s0 w evs; simpl.
  - discriminate.
  - destruct (negb (test s0 || limit_reached s0)).
    + intros X.
      apply bind_inv in X. destruct X as [(e & _ & X)|(now & w1 & e1 & e2 & E1 & X & ->)];
        [discriminate|].
      unfold call_total in E1. destruct (datetime_now w) as [now' w1'].
      inversion E1; subst now' w1' e1; clear E1.
      apply bind_inv in X. destruct X as [(e & _ & X)|(r & w2 & e3 & e4 & E3 & X & ->)];
        [discriminate|].
      apply bind_inv in X. destruct X as [(e & _ & X)|(u & w3 & e5 & e6 & E5 & X & ->)];
        [discriminate|].
      apply bind_inv in X. destruct X as [(e & _ & X)|(b & w4 & e7 & e8 & E7 & X & ->)];
        [discriminate|].
      apply bind_inv in X. destruct X as [(e & _ & X)|(u' & w5 & e9 & e10 & E9 & X & ->)];
        [discriminate|].
      rewrite delay_run in E9. inversion E9; subst; clear E9.
      apply IH in X. simpl in X. destruct X as [L X].
      split; [lia|].
      rewrite !filter_app, X.
      rewrite (quiet_filter _ _ _ _ _ Qfn E3).
      rewrite (quiet_filter _ _ _ _ _ (quiet_debug_print _ _) E5).
      rewrite (quiet_filter _ _ _ _ _ (Qt r) E7).
      rewrite <- (flat_map_seq_cons attempt_timing (retries s0) (retries s)) by lia.
      unfold attempt_timing at 2. simpl.
      destruct (retries s0) as [|[|k]]; reflexivity.
    + intros X. inversion X; subst. split; [lia|].
      rewrite Nat.sub_diag. reflexivity.
Qed.

(** Without a predicate: a successful attempt leaves through [break],
    before the delay. *)
Lemma until_loop_timing_break {R} dbg fuel truthy lim_min desc (fn : M W R)
    start s0 w s w' evs :
  quiet fn -> test s0 = false ->
  until_loop dbg fuel truthy None lim_min desc fn start s0 w = Some (Ok s, w', evs) ->
  (retries s0 <= retries s)%nat /\
  (test s = true -> (retries s0 < retries s)%nat) /\
  filter is_timing evs =
  if test s
  then flat_map attempt_timing (seq (S (retries s0)) (retries s - retries s0 - 1))
       ++ [EvNow]
  else flat_map attempt_timing (seq (S (retries s0)) (retries s - retries s0)).
Proof.
  intros Qfn. revert s0 w evs. induction fuel as [|fuel IH]; intros s0 w evs T0; simpl.
  - discriminate.
  - rewrite T0. simpl. destruct (negb (limit_reached s0)).
    + intros X.
      apply bind_inv in X. destruct X as [(e & _ & X)|(now & w1 & e1 & e2 & E1 & X & ->)];
        [discriminate|].
      unfold call_total in E1. destruct (datetime_now w) as [now' w1'].
      inversion E1; subst now' w1' e1; clear E1.
      apply bind_inv in X. destruct X as [(e & _ & X)|(r & w2 & e3 & e4 & E3 & X & ->)];
        [discriminate|].
      apply bind_inv in X. destruct X as [(e & _ & X)|(u & w3 & e5 & e6 & E5 & X & ->)];
        [discriminate|].
      rewrite !filter_app.
      rewrite (quiet_filter _ _ _ _ _ Qfn E3).
      rewrite (quiet_filter _ _ _ _ _ (quiet_debug_print _ _) E5).
      destruct (truthy r).
      * clear IH. inversion X; subst; cbn [retries test]. split; [lia|]. split; [lia|].
        replace (S (retries s0) - retries s0 - 1)%nat with 0%nat by lia. reflexivity.
      * apply bind_inv in X.
        destruct X as [(e & _ & X)|(u' & w5 & e9 & e10 & E9 & X & ->)]; [discriminate|].
        rewrite delay_run in E9. inversion E9; subst; clear E9.
        apply IH in X; [|reflexivity]. simpl in X. destruct X as (L & Lt & X).
        split; [lia|]. split; [intros; lia|].
        rewrite filter_app, X. destruct (test s).
        -- specialize (Lt eq_refl).
           replace (retries s - retries s0 - 1)%nat
             with (S (retries s - S (retries s0) - 1)) by lia.
           cbn [seq flat_map]. unfold attempt_timing at 2.
           destruct (retries s0) as [|[|k]]; simpl; reflexivity.
        -- rewrite <- (flat_map_seq_cons attempt_timing (retries s0) (retries s)) by lia.
           unfold attempt_timing at 2. simpl.
           destruct (retries s0) as [|[|k]]; reflexivity.
    + intros X. inversion X; subst. rewrite T0. split; [lia|]. split; [congruence|].
      rewrite Nat.sub_diag. reflexivity.
Qed.
End Timing.

(** ** Stepping the loop *)

Section Stepping.
Context {W : Type} `{Collaborators W}.

Lemma debug_print_run dbg template (w : W) :
  debug_print dbg template w = Some (Ok tt, w, debug_line dbg template).
Proof. destruct dbg; reflexivity. Qed.

Lemma until_loop_done {R} dbg fuel truthy (test_fn : option (R -> M W bool))
    lim_min desc fn start s w :
  test s || limit_reached s = true ->
  until_loop dbg (S fuel) truthy test_fn lim_min desc fn start s w = Some (Ok s, w, []).
Proof. intros C. simpl. rewrite C. reflexivity. Qed.

(** One iteration with a predicate, when [fn] and the predicate return. *)
Lemma until_loop_step {R} dbg fuel truthy (t : R -> M W bool) lim_min desc fn
    start s w now w1 r w2 e b w3 f :
  test s || limit_reached s = false ->
  datetime_now w = (now, w1) ->
  fn w1 = Some (Ok r, w2, e) ->
  t r w2 = Some (Ok b, w3, f) ->
  until_loop dbg (S fuel) truthy (Some t) lim_min desc fn start s w =
  match
    until_loop dbg fuel truthy (Some t) lim_min desc fn start
      (Build_LoopState (S (retries s)) b (limit_us lim_min <? now - start) (Some r))
      (if (2 <? S (retries s))%nat then time_sleep 3 w3 else w3)
  with
  | None => None
  | Some (r', w', evs) => Some (r', w', attempt_events dbg (S (retries s)) e f ++ evs)
  end.
Proof.
  intros C Enow Efn Et. simpl. rewrite C. simpl.
  unfold bind at 1. unfold call_total. rewrite Enow.
  unfold bind at 1. rewrite Efn.
  unfold bind at 1. rewrite debug_print_run.
  unfold bind at 1. rewrite Et.
  unfold bind at 1. rewrite delay_run.
  destruct (until_loop _ _ _ _ _ _ _ _ _ _) as [[[r' w'] evs]|]; [|reflexivity].
  unfold attempt_events. rewrite <- !app_assoc. reflexivity.
Qed.
End Stepping.

(** ** C4: where the delay falls *)

Section DelayRule.
Context {W : Type} `{Collaborators W}.

(** Three attempts with a predicate that holds on the third, the limit not
    found exceeded at any of the three clock readings. *)
Lemma until_third_call {R} dbg fuel truthy (t : R -> M W bool) lim_min desc fn
    w0 t0 w1 t1 w2 r1 w3 e1 w4 f1 t2 w5 r2 w6 e2 w7 f2 t3 w8 r3 w9 e3 w10 f3 :
  datetime_now w0 = (t0, w1) ->
  datetime_now w1 = (t1, w2) -> fn w2 = Some (Ok r1, w3, e1) ->
  t r1 w3 = Some (Ok false, w4, f1) ->
  datetime_now w4 = (t2, w5) -> fn w5 = Some (Ok r2, w6, e2) ->
  t r2 w6 = Some (Ok false, w7, f2) ->
  datetime_now w7 = (t3, w8) -> fn w8 = Some (Ok r3, w9, e3) ->
  t r3 w9 = Some (Ok true, w10, f3) ->
  t1 - t0 <= limit_us lim_min -> t2 - t0 <= limit_us lim_min ->
  t3 - t0 <= limit_us lim_min ->
  until_with_lim_test dbg (4 + fuel) truthy (Some t) lim_min desc fn w0 =
  Some (Ok r3, time_sleep 3 w10,
        [EvNow] ++ attempt_events dbg 1 e1 f1 ++ attempt_events dbg 2 e2 f2
        ++ attempt_events dbg 3 e3 f3
        ++ debug_line dbg "succeeded, returning result").
Proof.
  intros N0 N1 F1 T1 N2 F2 T2 N3 F3 T3 L1 L2 L3.
  apply Z.ltb_ge in L1, L2, L3.
  unfold until_with_lim_test.
  unfold bind at 1. unfold call_total at 1. rewrite N0.
  unfold bind at 1.
  change (4 + fuel)%nat with (S (S (S (S fuel)))).
  rewrite (until_loop_step dbg _ truthy t lim_min desc fn t0 _ w1 t1 w2 r1 w3 e1 false w4 f1)
    by (reflexivity || assumption).
  cbn [retries Nat.ltb Nat.leb].
  rewrite L1.
  rewrite (until_loop_step dbg _ truthy t lim_min desc fn t0 _ w4 t2 w5 r2 w6 e2 false w7 f2)
    by (reflexivity || assumption).
  cbn [retries Nat.ltb Nat.leb].
  rewrite L2.
  rewrite (until_loop_step dbg _ truthy t lim_min desc fn t0 _ w7 t3 w8 r3 w9 e3 true w10 f3)
    by (reflexivity || assumption).
  cbn [retries Nat.ltb Nat.leb].
  rewrite L3.
  rewrite until_loop_done by reflexivity.
  unfold exit_branch. cbn [limit_reached test negb res].
  unfold bind. rewrite debug_print_run. cbn [ret].
  rewrite !app_nil_r, <- !app_assoc. reflexivity.
Qed.

(** C4, amended: the delay runs at the end of an iteration once more than
    two attempts were made, so the first three attempts run back-to-back
    and every attempt from the third on is followed by the 3-unit delay
    (an attempt that leaves through the no-predicate [break] is not).
    In particular, with a predicate that holds on the third call and the
    limit not found exceeded at the three clock readings, exactly three
    calls are made and the third result is returned, after one delay. *)
Theorem until_delay_follows_third_attempt :
  (forall R dbg fuel truthy (test_fn : option (R -> M W bool)) lim_min desc fn
          start w s w' evs,
      quiet fn ->
      (forall t r, test_fn = Some t -> quiet (t r)) ->
      until_loop dbg fuel truthy test_fn lim_min desc fn start (loop_start R) w
        = Some (Ok s, w', evs) ->
      filter is_timing evs = engine_timing (is_some test_fn) s) /\
  (forall R dbg fuel truthy (t : R -> M W bool) lim_min desc fn
          w0 t0 w1 t1 w2 r1 w3 e1 w4 f1 t2 w5 r2 w6 e2 w7 f2 t3 w8 r3 w9 e3 w10 f3,
      datetime_now w0 = (t0, w1) ->
      datetime_now w1 = (t1, w2) -> fn w2 = Some (Ok r1, w3, e1) ->
      t r1 w3 = Some (Ok false, w4, f1) ->
      datetime_now w4 = (t2, w5) -> fn w5 = Some (Ok r2, w6, e2) ->
      t r2 w6 = Some (Ok false, w7, f2) ->
      datetime_now w7 = (t3, w8) -> fn w8 = Some (Ok r3, w9, e3) ->
      t r3 w9 = Some (Ok true, w10, f3) ->
      t1 - t0 <= limit_us lim_min -> t2 - t0 <= limit_us lim_min ->
      t3 - t0 <= limit_us lim_min ->
      until_with_lim_test dbg (4 + fuel) truthy (Some t) lim_min desc fn w0 =
      Some (Ok r3, time_sleep 3 w10,
            [EvNow] ++ attempt_events dbg 1 e1 f1 ++ attempt_events dbg 2 e2 f2
            ++ attempt_events dbg 3 e3 f3
            ++ debug_line dbg "succeeded, returning result")).
Proof.
  split.
  - intros R dbg fuel truthy test_fn lim_min desc fn start w s w' evs Qfn Qt X.
    unfold engine_timing. destruct test_fn as [t|]; cbn [is_some orb].
    + apply until_loop_timing_test in X; [|exact Qfn|intros r; eapply Qt; reflexivity].
      destruct X as [_ X]. cbn [loop_start retries] in X.
      rewrite Nat.sub_0_r in X. exact X.
    + apply until_loop_timing_break in X; [|exact Qfn|reflexivity].
      destruct X as (_ & _ & X). cbn [loop_start retries] in X.
      rewrite !Nat.sub_0_r in X. rewrite X. destruct (test s); reflexivity.
  - intros. eapply until_third_call; eassumption.
Qed.
End DelayRule.

(** ** The Locator *)

Section LocatorFacts.
Context {W : Type} `{Collaborators W}.

Lemma vs_lookup_run dbg name domain (w : W) vs_li w1 :
  getVirtualGuests w = (inr vs_li, w1) ->
  vs_lookup dbg name domain w =
  Some (Ok (exact_matches name domain vs_li), w1,
        debug_line dbg "Attempting lookup of instance with name: {}; ..."
        ++ [EvGetVirtualGuests]).
Proof.
  intros E. unfold vs_lookup, bind, call. rewrite debug_print_run, E. cbn [ret].
  rewrite app_nil_r. reflexivity.
Qed.

Lemma emits_vs_lookup (P : Event -> Prop) dbg name domain :
  (forall t, P (EvDebug t)) -> P EvGetVirtualGuests ->
  emits P (@vs_lookup W _ dbg name domain).
Proof. intros Hd Hg. unfold vs_lookup. repeat emits_step. Qed.

Lemma emits_root_pass (P : Event -> Prop) dbg name vs :
  (forall t, P (EvDebug t)) -> emits P (@root_pass W dbg name vs).
Proof. intros Hd. unfold root_pass. repeat emits_step. Qed.

Lemma emits_root_pass_test (P : Event -> Prop) dbg name vs :
  (forall t, P (EvDebug t)) -> emits P (@root_pass_test W dbg name vs).
Proof.
  intros Hd. unfold root_pass_test.
  apply emits_bind; [apply emits_root_pass; exact Hd|intros p; apply emits_ret].
Qed.

(** The Locator only lists guests, reads the clock, sleeps and prints
    debug lines. *)
Lemma emits_locate_instance (P : Event -> Prop) dbg fuel name domain :
  (forall t, P (EvDebug t)) -> P EvGetVirtualGuests -> P EvNow -> P (EvSleep 3) ->
  emits P (@_locate_instance W _ dbg fuel name domain).
Proof.
  intros Hd Hg Hn Hs. unfold _locate_instance.
  apply emits_bind; [apply emits_vs_lookup; auto|intros matching].
  destruct (negb (list_truthy matching)); [apply emits_ret|].
  destruct (List.length matching =? 1)%nat; [|apply emits_raise].
  apply emits_bind.
  - apply emits_until_with_lim_test; auto.
    + apply emits_vs_lookup; auto.
    + intros t r E. inversion E; subst. apply emits_root_pass_test; auto.
  - intros found. destruct found as [|provisioned rest]; [apply emits_raise|].
    destruct (guest_truthy provisioned); [|apply emits_raise].
    apply emits_bind; [auto with emits|intros _].
    apply emits_bind; [auto with emits|intros fqdn].
    apply emits_bind; [auto with emits|intros ip].
    apply emits_bind; [apply emits_root_pass; auto|intros pw].
    apply emits_bind; [auto with emits|intros id].
    apply emits_ret.
Qed.

Lemma root_passwords_nonempty pws p : root_passwords pws = [p] -> list_truthy pws = true.
Proof. destruct pws; [discriminate|reflexivity]. Qed.

(** A populated record with exactly one root credential: [root_pass]
    returns its password. *)
Lemma root_pass_provisioned dbg name g rest fqdn ip password id (w : W) :
  provisioned_as g fqdn ip password id ->
  root_pass dbg name (OfList (g :: rest)) w
    = Some (Ok (Some password), w, debug_line dbg "my_vs: {}") /\
  root_pass dbg name (OfGuest g) w
    = Some (Ok (Some password), w, debug_line dbg "my_vs: {}") /\
  guest_truthy g = true.
Proof.
  intros (Hf & Hip & Hid & Hne & os & pws & p & Hos & Hpws & Hroot & Hpw).
  assert (T : guest_truthy g = true) by (unfold guest_truthy; rewrite Hid; reflexivity).
  assert (X : forall vs, (vs = OfList (g :: rest) \/ vs = OfGuest g) ->
            root_pass dbg name vs w
            = Some (Ok (Some password), w, debug_line dbg "my_vs: {}")).
  { intros vs [-> | ->]; unfold root_pass, bind; rewrite debug_print_run;
      rewrite T, Hos, Hpws, (root_passwords_nonempty _ _ Hroot), Hroot;
      cbn [List.length Nat.eqb]; rewrite Hpw; cbn [getitem ret];
      rewrite ?app_nil_r; reflexivity. }
  repeat split; auto.
Qed.

(** A populated record without a root credential: [root_pass] returns
    [None], so the polling predicate is false. *)
Lemma root_pass_without_root dbg name g rest (w : W) :
  populated_without_root g ->
  root_pass_test dbg name (g :: rest) w = Some (Ok false, w, debug_line dbg "my_vs: {}").
Proof.
  intros (os & pws & Hos & Hpws & Hne & Hroot).
  unfold root_pass_test, root_pass, bind. rewrite debug_print_run.
  destruct (guest_truthy g); cbn [ret password_truthy]; rewrite ?app_nil_r; auto.
  rewrite Hos, Hpws, Hroot.
  destruct pws; [congruence|]. cbn [list_truthy List.length Nat.eqb Nat.ltb Nat.leb ret].
  rewrite ?app_nil_r. reflexivity.
Qed.
End LocatorFacts.

(** ** Runs of [main] decided by the first lookup *)

Section FirstLookup.
Context {W : Type} `{Collaborators W}.

Lemma locate_none dbg fuel name domain (w : W) vs_li w1 :
  getVirtualGuests w = (inr vs_li, w1) ->
  exact_matches name domain vs_li = [] ->
  _locate_instance dbg fuel name domain w =
  Some (Ok None, w1,
        debug_line dbg "Attempting lookup of instance with name: {}; ..."
        ++ [EvGetVirtualGuests]).
Proof.
  intros E M. unfold _locate_instance.
  rewrite (bind_ok _ _ _ _ _ _ (vs_lookup_run dbg name domain w vs_li w1 E)).
  rewrite M. cbn [list_truthy negb ret]. rewrite app_nil_r. reflexivity.
Qed.

Lemma locate_ambiguous dbg fuel name domain (w : W) vs_li w1 :
  getVirtualGuests w = (inr vs_li, w1) ->
  (2 <= List.length (exact_matches name domain vs_li))%nat ->
  _locate_instance dbg fuel name domain w =
  Some (Raise (AmbiguousResults name (exact_matches name domain vs_li)), w1,
        debug_line dbg "Attempting lookup of instance with name: {}; ..."
        ++ [EvGetVirtualGuests]).
Proof.
  intros E L. unfold _locate_instance.
  rewrite (bind_ok _ _ _ _ _ _ (vs_lookup_run dbg name domain w vs_li w1 E)).
  destruct (exact_matches name domain vs_li) as [|g1 [|g2 rest]]; simpl in L; try lia.
  cbn [list_truthy negb List.length Nat.eqb raise]. rewrite app_nil_r. reflexivity.
Qed.

Lemma filter_debug_line (p : Event -> bool) dbg template :
  p (EvDebug template) = false -> filter p (debug_line dbg template) = [].
Proof. intros E. destruct dbg; simpl; [rewrite E|]; reflexivity. Qed.

(** C6: when the provider's answer holds two or more exact
    (hostname, domain) matches, the Locator fails with the ambiguity error
    carrying all the matches, having made that one listing call and never
    entered the credential polling; [main] then ends on that uncaught
    error with a non-zero exit status, and no create, cancel or other
    provider-changing call was made. *)
Theorem ambiguous_matches_abort fuel args (w : W) vs_li w1 :
  let name := saltmaster_vm_name args in
  let matching := exact_matches name (saltmaster_vm_domain args) vs_li in
  let lookup := debug_line (debug args)
                  "Attempting lookup of instance with name: {}; ..."
                ++ [EvGetVirtualGuests] in
  let evs := debug_line (debug args) "Enabling debug output" ++ lookup in
  getVirtualGuests w = (inr vs_li, w1) ->
  (2 <= List.length matching)%nat ->
  _locate_instance (debug args) fuel name (saltmaster_vm_domain args) w
    = Some (Raise (AmbiguousResults name matching), w1, lookup) /\
  main fuel args w = Some (Raise (AmbiguousResults name matching), w1, evs) /\
  exit_status (Raise (AmbiguousResults name matching)) <> 0 /\
  filter is_timing evs = [] /\
  filter is_create evs = [] /\
  filter is_cancel evs = [] /\
  filter is_provider_mutation evs = [].
Proof.
  intros name matching lookup evs E L.
  pose proof (locate_ambiguous (debug args) fuel name (saltmaster_vm_domain args)
                w vs_li w1 E L) as X.
  split; [exact X|]. split.
  - unfold main, main_with.
    rewrite (bind_ok _ _ _ _ _ _ (debug_print_run _ _ w)).
    unfold my_locate. rewrite (bind_raise _ _ _ _ _ _ X). reflexivity.
  - split; [simpl; discriminate|].
    unfold evs, lookup.
    repeat split; rewrite !filter_app, !filter_debug_line by reflexivity; reflexivity.
Qed.

(** C10: when no instance matches and the key argument is absent (or
    empty), [main] stops on the unbound [ssh_key] variable while building
    the request: the exit status is non-zero, and the only call made on
    the provider is the listing; no create, cancel or key registration
    was issued. *)
Theorem no_key_no_create fuel args (w : W) vs_li w1 :
  let evs := debug_line (debug args) "Enabling debug output"
             ++ debug_line (debug args)
                  "Attempting lookup of instance with name: {}; ..."
             ++ [EvGetVirtualGuests] in
  getVirtualGuests w = (inr vs_li, w1) ->
  exact_matches (saltmaster_vm_name args) (saltmaster_vm_domain args) vs_li = [] ->
  str_truthy (ssh_pub_key args) = false ->
  main fuel args w = Some (Raise (UnboundLocalError "ssh_key"), w1, evs) /\
  exit_status (Raise (UnboundLocalError "ssh_key")) <> 0 /\
  filter is_create evs = [] /\
  filter is_provider_mutation evs = [].
Proof.
  intros evs E M K.
  pose proof (locate_none (debug args) fuel _ _ w vs_li w1 E M) as X.
  split.
  - unfold main, main_with.
    rewrite (bind_ok _ _ _ _ _ _ (debug_print_run _ _ w)).
    unfold my_locate. rewrite (bind_ok _ _ _ _ _ _ X).
    unfold resolve_key. rewrite K. unfold bind, ret, raise.
    unfold evs. rewrite !app_nil_r. reflexivity.
  - split; [simpl; discriminate|].
    unfold evs.
    split; rewrite !filter_app, !filter_debug_line by reflexivity; reflexivity.
Qed.
End FirstLookup.

(** ** An instance that already exists *)

Section Found.
Context {W : Type} `{Collaborators W}.

(** The first attempt satisfies the predicate and the limit was not found
    exceeded: the result is returned without any delay. *)
Lemma until_first_call {R} dbg fuel truthy (t : R -> M W bool) lim_min desc fn
    (w0 : W) t0 w1 t1 w2 r w3 e w4 f :
  datetime_now w0 = (t0, w1) ->
  datetime_now w1 = (t1, w2) -> fn w2 = Some (Ok r, w3, e) ->
  t r w3 = Some (Ok true, w4, f) ->
  t1 - t0 <= limit_us lim_min ->
  until_with_lim_test dbg (2 + fuel) truthy (Some t) lim_min desc fn w0 =
  Some (Ok r, w4,
        [EvNow] ++ attempt_events dbg 1 e f
        ++ debug_line dbg "succeeded, returning result").
Proof.
  intros N0 N1 F1 T1 L1. apply Z.ltb_ge in L1.
  unfold until_with_lim_test.
  unfold bind at 1. unfold call_total at 1. rewrite N0.
  unfold bind at 1.
  change (2 + fuel)%nat with (S (S fuel)).
  rewrite (until_loop_step dbg _ truthy t lim_min desc fn t0 _ w1 t1 w2 r w3 e true w4 f)
    by (reflexivity || assumption).
  cbn [retries Nat.ltb Nat.leb]. rewrite L1.
  rewrite until_loop_done by reflexivity.
  unfold exit_branch. cbn [limit_reached test negb res].
  unfold bind. rewrite debug_print_run. cbn [ret].
  rewrite !app_nil_r. reflexivity.
Qed.

Lemma locate_found dbg fuel name domain (w : W) l1 w1 g1 t0 w2 t1 w3 l2 w4 g rest
    fqdn ip password id :
  getVirtualGuests w = (inr l1, w1) ->
  exact_matches name domain l1 = [g1] ->
  datetime_now w1 = (t0, w2) ->
  datetime_now w2 = (t1, w3) ->
  t1 - t0 <= limit_us 5 ->
  getVirtualGuests w3 = (inr l2, w4) ->
  exact_matches name domain l2 = g :: rest ->
  provisioned_as g fqdn ip password id ->
  let lookup := debug_line dbg "Attempting lookup of instance with name: {}; ..."
                ++ [EvGetVirtualGuests] in
  _locate_instance dbg (2 + fuel) name domain w =
  Some (Ok (Some {| inst_fqdn := fqdn; inst_ip := ip;
                    inst_root_password := Some password; inst_id := id |}), w4,
        lookup ++ ([EvNow] ++ attempt_events dbg 1 lookup (debug_line dbg "my_vs: {}")
                   ++ debug_line dbg "succeeded, returning result")
        ++ debug_line dbg "queried provisioned box: {}"
        ++ debug_line dbg "my_vs: {}").
Proof.
  intros E1 M1 N0 N1 L E2 M2 P lookup.
  destruct (root_pass_provisioned dbg name g rest fqdn ip password id w4 P)
    as (RL & RG & T).
  assert (Ne : password_truthy (Some password) = true).
  { destruct P as (_ & _ & _ & Hne & _). simpl.
    destruct (String.eqb_spec password ""); [contradiction|reflexivity]. }
  assert (RT : root_pass_test dbg name (g :: rest) w4
               = Some (Ok true, w4, debug_line dbg "my_vs: {}")).
  { unfold root_pass_test. rewrite (bind_ok _ _ _ _ _ _ RL). cbn [ret].
    rewrite Ne, app_nil_r. reflexivity. }
  unfold _locate_instance.
  rewrite (bind_ok _ _ _ _ _ _ (vs_lookup_run dbg name domain w l1 w1 E1)).
  rewrite M1. cbn [list_truthy negb List.length Nat.eqb].
  pose proof (vs_lookup_run dbg name domain w3 l2 w4 E2) as F. rewrite M2 in F.
  rewrite (bind_ok _ _ _ _ _ _
             (until_first_call dbg fuel list_truthy (root_pass_test dbg name) 5
                "VM lookup" (vs_lookup dbg name domain)
                w1 t0 w2 t1 w3 _ w4 _ w4 _ N0 N1 F RT L)).
  rewrite T.
  destruct P as (Hf & Hip & Hid & _).
  rewrite Hf, Hip, Hid. unfold bind. rewrite debug_print_run. cbn [getitem ret].
  rewrite RG. rewrite !app_nil_r. reflexivity.
Qed.

(** C8: an instance with the given hostname and domain exists (both
    listings of the run show exactly one match), it has the report fields
    and exactly one root credential, with a non-empty password, and the
    five minutes have not already passed at the first clock check.  Then
    the last thing [main] prints is the line
    [fqdn ip credential id], the credential being [XXXXX] unless
    --show_root_pass was given, and it exits with status 0 having made no
    create or cancel call. *)
Theorem existing_instance_report fuel args (w : W) l1 w1 g1 t0 w2 t1 w3 l2 w4 g
    fqdn ip password id :
  let name := saltmaster_vm_name args in
  let domain := saltmaster_vm_domain args in
  let line := String.concat " "
                [fqdn; ip; if show_root_pass args then password else "XXXXX";
                 str_int id] in
  getVirtualGuests w = (inr l1, w1) ->
  exact_matches name domain l1 = [g1] ->
  datetime_now w1 = (t0, w2) ->
  datetime_now w2 = (t1, w3) ->
  t1 - t0 <= limit_us 5 ->
  getVirtualGuests w3 = (inr l2, w4) ->
  exact_matches name domain l2 = [g] ->
  provisioned_as g fqdn ip password id ->
  exists before,
    main (2 + fuel) args w = Some (Raise (SystemExit 0), w4, before ++ [EvPrint line]) /\
    exit_status (Raise (SystemExit 0)) = 0 /\
    filter is_create before = [] /\
    filter is_cancel before = [].
Proof.
  intros name domain line E1 M1 N0 N1 L E2 M2 P.
  pose proof (locate_found (debug args) fuel name domain w l1 w1 g1 t0 w2 t1 w3 l2 w4
                g [] fqdn ip password id E1 M1 N0 N1 L E2 M2 P) as X.
  cbv zeta in X.
  eexists. split.
  - unfold main, main_with.
    rewrite (bind_ok _ _ _ _ _ _ (debug_print_run _ _ w)).
    unfold my_locate. fold name domain. rewrite (bind_ok _ _ _ _ _ _ X).
    unfold report_and_exit, _report_instance, lift_res, bind, ret, emit, sys_exit, raise.
    cbn [inst_fqdn inst_ip inst_root_password inst_id str_opt].
    fold line. rewrite !app_nil_r, !app_assoc. reflexivity.
  - split; [reflexivity|].
    unfold attempt_events.
    split; rewrite ?filter_app, ?filter_debug_line by reflexivity;
      destruct (debug args); reflexivity.
Qed.
End Found.

(** ** The Key Provisioner *)

Section KeyFacts.
Context {W : Type} `{Collaborators W}.

Lemma keys_with_label_labelled keys label found :
  keys_with_label keys label = Ok found ->
  Forall (fun k => key_label k = Some label) found.
Proof.
  revert found. induction keys as [|k keys IH]; simpl; intros found E.
  - inversion E. constructor.
  - destruct (key_label k) as [l|] eqn:Kl; [|discriminate].
    destruct (keys_with_label keys label) as [found'|e]; [|discriminate].
    inversion E; subst; clear E.
    destruct (String.eqb_spec l label) as [->|]; auto.
Qed.

(** What [key_by_label] returns carries the label, so it is a non-empty
    dict. *)
Lemma key_by_label_truthy label (w : W) k w' evs :
  key_by_label label w = Some (Ok k, w', evs) -> key_truthy k = true.
Proof.
  unfold key_by_label. intros X.
  apply bind_inv in X. destruct X as [(e & _ & X)|(keys & w1 & e1 & e2 & _ & X & _)];
    [discriminate|].
  apply bind_inv in X. destruct X as [(e & _ & X)|(found & w2 & e3 & e4 & E & X & _)];
    [discriminate|].
  destruct (keys_with_label keys label) as [found'|e] eqn:K; [|discriminate].
  inversion E; subst. apply keys_with_label_labelled in K.
  destruct found as [|k' rest]; inversion X; subst.
  inversion K; subst. unfold key_truthy.
  match goal with E : key_label _ = Some _ |- _ => rewrite E end.
  apply orb_true_r.
Qed.

Lemma emits_key_by_label (P : Event -> Prop) label :
  P EvListKeys -> emits P (@key_by_label W _ label).
Proof. intros Hl. unfold key_by_label. repeat emits_step. Qed.

(** When the argument is a file, the function never gets as far as
    registering the key: each call of [key_by_label] either raises or
    returns a non-empty dict, which sends the function into the
    'already exists' branch. *)
Lemma file_key_path_always_fails path (w : W) w1 r w' evs :
  path_exists path w = (true, w1) ->
  _locate_or_add_pubkey path w = Some (r, w', evs) ->
  (exists e, r = Raise e) /\ filter is_add_key evs = [].
Proof.
  intros E X. unfold _locate_or_add_pubkey in X.
  unfold bind at 1 in X. unfold call_total at 1 in X. rewrite E in X.
  assert (Q : forall label, emits (fun ev => is_add_key ev = false)
                              (@key_by_label W _ label))
    by (intros; apply emits_key_by_label; reflexivity).
  destruct (bind _ _ w1) as [[[r1 w1'] evs1]|] eqn:B; [|discriminate].
  assert (G : (exists e, r1 = Raise e) /\ filter is_add_key evs1 = []).
  { apply bind_inv in B.
    destruct B as [(e & B & ->)|(key & w2 & e1 & e2 & B1 & B & ->)].
    - split; [eauto|]. apply Forall_filter_nil.
      eapply (emits_call (fun ev => is_add_key ev = false)); [|exact B]. reflexivity.
    - assert (F1 : filter is_add_key e1 = []).
      { apply Forall_filter_nil.
        eapply (emits_call (fun ev => is_add_key ev = false)); [|exact B1]. reflexivity. }
      rewrite filter_app, F1. simpl.
      apply bind_inv in B.
      destruct B as [(e & B & ->)|(sl_key & w3 & e3 & e4 & B3 & B & ->)].
      + split; [eauto|]. apply Forall_filter_nil. eapply Q; eauto.
      + rewrite filter_app, (Forall_filter_nil _ _ (Q _ _ _ _ _ B3)). simpl.
        apply bind_inv in B.
        destruct B as [(e & B & ->)|(again & w4 & e5 & e6 & B5 & B & ->)].
        * split; [eauto|]. apply Forall_filter_nil. eapply Q; eauto.
        * rewrite filter_app, (Forall_filter_nil _ _ (Q _ _ _ _ _ B5)). simpl.
          rewrite (key_by_label_truthy _ _ _ _ _ B5) in B.
          inversion B; subst. split; [eauto|reflexivity]. }
  destruct G as [[e ->] F]. inversion X; subst. split; [eauto|].
  simpl. exact F.
Qed.

(** C1, on the code: the argument names an existing file and its derived
    label matches no registered key.  The first [key_by_label] then
    indexes an empty list: the Provisioner raises [IndexError] after the
    listing call, and no registration call is made. *)
Theorem fresh_key_label_raises_index_error path (w : W) w1 key w2 keys w3 :
  path_exists path w = (true, w1) ->
  read_file path w1 = (inr key, w2) ->
  list_keys w2 = (inr keys, w3) ->
  keys_with_label keys (key_comment key) = Ok [] ->
  _locate_or_add_pubkey path w =
  Some (Raise IndexError, w3, [EvPathExists path; EvReadFile path; EvListKeys]).
Proof.
  intros E R L K. unfold _locate_or_add_pubkey, key_by_label, bind, call_total, call.
  rewrite E, R, L, K. reflexivity.
Qed.
End KeyFacts.

(** ** The Orchestrator: rollback *)

Section Rollback.
Context {W : Type} `{Collaborators W}.

Lemma calm_locate dbg fuel name domain : emits calm (@_locate_instance W _ dbg fuel name domain).
Proof. apply emits_locate_instance; intros; reflexivity. Qed.

Lemma calm_locate_or_add_pubkey path : emits calm (@_locate_or_add_pubkey W _ path).
Proof.
  assert (Q : forall label, emits calm (@key_by_label W _ label))
    by (intros; apply emits_key_by_label; reflexivity).
  unfold _locate_or_add_pubkey.
  apply emits_bind; [apply emits_call_total; reflexivity|intros is_file].
  destruct is_file.
  - apply emits_bind; [apply emits_call; reflexivity|intros key].
    apply emits_bind; [apply Q|intros sl_key].
    apply emits_bind; [apply Q|intros again].
    destruct (key_truthy again); [apply emits_raise|].
    apply emits_bind; [apply emits_call; reflexivity|intros _]. apply Q.
  - apply emits_bind; [apply Q|intros sl_key].
    destruct (key_truthy sl_key); auto with emits.
Qed.

Lemma calm_resolve_key dbg args : emits calm (@resolve_key W _ dbg args).
Proof.
  unfold resolve_key. destruct (str_truthy (ssh_pub_key args)); [|apply emits_ret].
  apply emits_bind; [apply emits_attempt, calm_locate_or_add_pubkey|intros r].
  destruct r; [|apply emits_ret].
  apply emits_bind; [apply emits_debug_print; reflexivity|intros _]. apply emits_raise.
Qed.

Lemma calm_ssh_with_retry dbg fuel instance fn lim :
  emits calm fn -> emits calm (@_ssh_with_retry W _ dbg fuel instance fn lim).
Proof.
  intros Hfn. unfold _ssh_with_retry, until_with_lim.
  apply emits_bind; [|intros _; exact Hfn].
  apply emits_until_with_lim_test; try reflexivity; try discriminate.
  unfold ssh_connect.
  apply emits_bind.
  - apply emits_attempt.
    apply emits_bind; [apply emits_debug_print; reflexivity|intros _].
    destruct instance; [apply emits_call; reflexivity|apply emits_raise].
  - intros r. destruct r; [|apply emits_ret].
    apply emits_bind.
    + destruct dbg; [destruct instance; apply emits_raise|apply emits_ret].
    + intros _. apply emits_bind; [apply emits_emit; reflexivity|intros _].
      apply emits_ret.
Qed.

Lemma calm_configure dbg fuel args vs : emits calm (@configure W _ dbg fuel args vs).
Proof.
  unfold configure.
  apply emits_bind.
  - destruct (str_truthy (seed_dir args)); [|apply emits_ret].
    apply calm_ssh_with_retry. unfold _upload_salt_seed.
    apply emits_bind; [apply emits_call; reflexivity|intros _].
    apply emits_bind; [apply emits_call; reflexivity|intros _].
    apply emits_debug_print; reflexivity.
  - intros _. apply emits_bind.
    + apply calm_ssh_with_retry. unfold _install_saltmaster_in_docker.
      apply emits_bind; [apply emits_debug_print; reflexivity|intros _].
      apply emits_bind; [destruct dbg; [apply emits_call; reflexivity|apply emits_ret]|intros _].
      apply emits_bind; [apply emits_debug_print; reflexivity|intros _].
      destruct dbg; [apply emits_call; reflexivity|apply emits_ret].
    + intros _. destruct (add_sl_cli args); [|apply emits_ret].
      apply calm_ssh_with_retry. unfold _add_sl_cli.
      apply emits_bind; [apply emits_call; reflexivity|intros _]. apply emits_raise.
Qed.

Lemma calm_filter {A} (m : M W A) w r w' evs :
  emits calm m -> m w = Some (r, w', evs) -> filter is_cancel evs = [].
Proof. intros Q E. apply Forall_filter_nil. eapply Q; eauto. Qed.

(** The [try] statement when the instance was located again and a remote
    step then raised. *)
Lemma provision_configure_fails dbg fuel args my_vm (w2 : W) w3 inst w4 e4 ex w5 e5 :
  createObject my_vm w2 = (inr tt, w3) ->
  my_locate dbg fuel args w3 = Some (Ok (Some inst), w4, e4) ->
  configure dbg fuel args (Some inst) w4 = Some (Raise ex, w5, e5) ->
  is_Exception ex = true ->
  let evs := [EvCreateObject my_vm] ++ e4 ++ e5
             ++ [EvPrintFailed (saltmaster_vm_name args) ex]
             ++ debug_line dbg "hosing instance {}"
             ++ [EvCancelInstance (inst_id inst)] in
  create_and_provision dbg fuel args my_vm w2 =
  match cancel_instance (inst_id inst) w5 with
  | (inl msg, w6) => Some (Raise (CollaboratorError msg), w6, evs)
  | (inr _, w6) => Some (Ok (Some inst), w6, evs)
  end.
Proof.
  intros C L F Ex evs. unfold create_and_provision.
  assert (A1 : attempt (call (createObject my_vm) (EvCreateObject my_vm) ;;
                        my_locate dbg fuel args) w2
               = Some (Ok (inr (Some inst)), w4, [EvCreateObject my_vm] ++ e4)).
  { unfold attempt, bind, call. rewrite C, L. reflexivity. }
  rewrite (bind_ok _ _ _ _ _ _ A1).
  assert (A2 : attempt (configure dbg fuel args (Some inst)) w4
               = Some (Ok (inl ex), w5, e5)).
  { unfold attempt. rewrite F, Ex. reflexivity. }
  rewrite (bind_ok _ _ _ _ _ _ A2).
  unfold on_failure, _hose_instance, bind, emit, call. rewrite debug_print_run.
  unfold evs.
  destruct (cancel_instance (inst_id inst) w5) as [[msg|u] w6]; cbn [ret];
    rewrite ?app_nil_r, <- ?app_assoc; reflexivity.
Qed.

(** The [try] statement when locating the new instance raised. *)
Lemma provision_relocate_fails dbg fuel args my_vm (w2 : W) w3 ex w4 e4 :
  createObject my_vm w2 = (inr tt, w3) ->
  my_locate dbg fuel args w3 = Some (Raise ex, w4, e4) ->
  is_Exception ex = true ->
  create_and_provision dbg fuel args my_vm w2 =
  Some (Ok None, w4,
        [EvCreateObject my_vm] ++ e4 ++ [EvPrintFailed (saltmaster_vm_name args) ex]).
Proof.
  intros C L Ex. unfold create_and_provision.
  assert (A1 : attempt (call (createObject my_vm) (EvCreateObject my_vm) ;;
                        my_locate dbg fuel args) w2
               = Some (Ok (inl ex), w4, [EvCreateObject my_vm] ++ e4)).
  { unfold attempt, bind, call. rewrite C, L, Ex. reflexivity. }
  rewrite (bind_ok _ _ _ _ _ _ A1).
  unfold on_failure, bind, emit, ret. rewrite <- !app_assoc. reflexivity.
Qed.

(** [main] up to the [try] statement, when nothing was found and the key
    was resolved. *)
Lemma main_reaches_try fuel args (w0 : W) w1 e1 key kid w2 e2 :
  my_locate (debug args) fuel args w0 = Some (Ok None, w1, e1) ->
  resolve_key (debug args) args w1 = Some (Ok (Some key), w2, e2) ->
  key_id key = Some kid ->
  let my_vm := _vm_template (saltmaster_vm_name args) (saltmaster_vm_domain args) [kid] in
  let before := debug_line (debug args) "Enabling debug output" ++ e1 ++ e2
                ++ debug_line (debug args) "creating new server w/ order detail: {}" in
  main fuel args w0 =
  match create_and_provision (debug args) fuel args my_vm w2 with
  | None => None
  | Some (Raise e, w', evs) => Some (Raise e, w', before ++ evs)
  | Some (Ok vs, w', evs) =>
      match _report_instance vs (show_root_pass args) with
      | Ok line => Some (Raise (SystemExit 15), w', before ++ evs ++ [EvPrint line])
      | Raise e => Some (Raise e, w', before ++ evs)
      end
  end.
Proof.
  intros L K Kid my_vm before. unfold main, main_with.
  rewrite (bind_ok _ _ _ _ _ _ (debug_print_run _ _ w0)).
  rewrite (bind_ok _ _ _ _ _ _ L).
  rewrite (bind_ok _ _ _ _ _ _ K).
  rewrite Kid. cbn [getitem]. unfold bind at 1. cbn [ret].
  unfold bind at 1. rewrite debug_print_run.
  unfold bind at 1. fold my_vm.
  destruct (create_and_provision (debug args) fuel args my_vm w2)
    as [[[[vs|e] w'] evs]|]; [| |reflexivity].
  - unfold report_and_exit, lift_res, bind, emit, sys_exit, raise, ret.
    destruct (_report_instance vs (show_root_pass args)) as [line|e]; unfold before;
      rewrite ?app_nil_r, <- ?app_assoc; reflexivity.
  - unfold before. rewrite ?app_nil_r, <- ?app_assoc. reflexivity.
Qed.
End Rollback.

Section RollbackClaims.
Context {W : Type} `{Collaborators W}.

(** A remote step raised after the new instance had been located. *)
Lemma main_configure_failure fuel args (w0 : W) w1 e1 key kid w2 e2 w3 inst w4 e4
    ex w5 e5 :
  let my_vm := _vm_template (saltmaster_vm_name args) (saltmaster_vm_domain args) [kid] in
  my_locate (debug args) fuel args w0 = Some (Ok None, w1, e1) ->
  resolve_key (debug args) args w1 = Some (Ok (Some key), w2, e2) ->
  key_id key = Some kid ->
  createObject my_vm w2 = (inr tt, w3) ->
  my_locate (debug args) fuel args w3 = Some (Ok (Some inst), w4, e4) ->
  configure (debug args) fuel args (Some inst) w4 = Some (Raise ex, w5, e5) ->
  is_Exception ex = true ->
  exists r w' evs,
    main fuel args w0 = Some (r, w', evs) /\
    filter is_cancel evs = [EvCancelInstance (inst_id inst)] /\
    In (EvPrintFailed (saltmaster_vm_name args) ex) evs /\
    exit_status r <> 0.
Proof.
  intros my_vm L0 K Kid C L1 F Ex.
  pose proof (main_reaches_try fuel args w0 w1 e1 key kid w2 e2 L0 K Kid) as Hm.
  pose proof (provision_configure_fails (debug args) fuel args my_vm w2 w3 inst w4 e4
                ex w5 e5 C L1 F Ex) as Hp.
  cbv zeta in Hm, Hp. fold my_vm in Hm. rewrite Hp in Hm. clear Hp.
  assert (F1 : filter is_cancel e1 = []) by (eapply calm_filter; [apply calm_locate|exact L0]).
  assert (F2 : filter is_cancel e2 = [])
    by (eapply calm_filter; [apply calm_resolve_key|exact K]).
  assert (F4 : filter is_cancel e4 = []) by (eapply calm_filter; [apply calm_locate|exact L1]).
  assert (F5 : filter is_cancel e5 = [])
    by (eapply calm_filter; [apply calm_configure|exact F]).
  destruct (cancel_instance (inst_id inst) w5) as [[msg|u] w6];
    cbn [_report_instance] in Hm;
    do 3 eexists; (split; [exact Hm|]);
    (split; [rewrite !filter_app, F1, F2, F4, F5, !filter_debug_line by reflexivity;
             reflexivity|]);
    (split; [|simpl; discriminate]);
    rewrite !in_app_iff; simpl; tauto.
Qed.

(** C7: nothing was found, the key was resolved, the create call was
    accepted, the new instance was located, and then a remote
    configuration step raised.  [main] issues exactly one cancel call, for
    the ID of the located instance, and ends with a non-zero exit
    status. *)
Theorem configure_failure_cancels_once fuel args (w0 : W) w1 e1 key kid w2 e2 w3
    inst w4 e4 ex w5 e5 :
  let my_vm := _vm_template (saltmaster_vm_name args) (saltmaster_vm_domain args) [kid] in
  my_locate (debug args) fuel args w0 = Some (Ok None, w1, e1) ->
  resolve_key (debug args) args w1 = Some (Ok (Some key), w2, e2) ->
  key_id key = Some kid ->
  createObject my_vm w2 = (inr tt, w3) ->
  my_locate (debug args) fuel args w3 = Some (Ok (Some inst), w4, e4) ->
  configure (debug args) fuel args (Some inst) w4 = Some (Raise ex, w5, e5) ->
  is_Exception ex = true ->
  exists r w' evs,
    main fuel args w0 = Some (r, w', evs) /\
    filter is_cancel evs = [EvCancelInstance (inst_id inst)] /\
    exit_status r <> 0.
Proof.
  intros my_vm L0 K Kid C L1 F Ex.
  destruct (main_configure_failure fuel args w0 w1 e1 key kid w2 e2 w3 inst w4 e4
              ex w5 e5 L0 K Kid C L1 F Ex) as (r & w' & evs & Hm & Hc & _ & Hx).
  exists r, w', evs. auto.
Qed.

(** C2, amended: a time-limit failure raised by a remote step, that is
    after the new instance was located, is reported and followed by one
    cancel call for that instance.  A time-limit failure raised while
    locating the freshly created instance is reported too, but then no
    instance is known: no cancel call is made, and [main] ends on the
    [TypeError] of reporting a missing instance. *)
Theorem time_limit_rollback_needs_descriptor :
  (forall fuel args (w0 : W) w1 e1 key kid w2 e2 w3 inst w4 e4 lim w5 e5,
      my_locate (debug args) fuel args w0 = Some (Ok None, w1, e1) ->
      resolve_key (debug args) args w1 = Some (Ok (Some key), w2, e2) ->
      key_id key = Some kid ->
      createObject (_vm_template (saltmaster_vm_name args)
                      (saltmaster_vm_domain args) [kid]) w2 = (inr tt, w3) ->
      my_locate (debug args) fuel args w3 = Some (Ok (Some inst), w4, e4) ->
      configure (debug args) fuel args (Some inst) w4
        = Some (Raise (TimeLimitedOperationException lim), w5, e5) ->
      exists r w' evs,
        main fuel args w0 = Some (r, w', evs) /\
        In (EvPrintFailed (saltmaster_vm_name args)
              (TimeLimitedOperationException lim)) evs /\
        filter is_cancel evs = [EvCancelInstance (inst_id inst)] /\
        exit_status r <> 0) /\
  (forall fuel args (w0 : W) w1 e1 key kid w2 e2 w3 lim w4 e4,
      my_locate (debug args) fuel args w0 = Some (Ok None, w1, e1) ->
      resolve_key (debug args) args w1 = Some (Ok (Some key), w2, e2) ->
      key_id key = Some kid ->
      createObject (_vm_template (saltmaster_vm_name args)
                      (saltmaster_vm_domain args) [kid]) w2 = (inr tt, w3) ->
      my_locate (debug args) fuel args w3
        = Some (Raise (TimeLimitedOperationException lim), w4, e4) ->
      exists evs,
        main fuel args w0 = Some (Raise TypeError, w4, evs) /\
        In (EvPrintFailed (saltmaster_vm_name args)
              (TimeLimitedOperationException lim)) evs /\
        filter is_cancel evs = [] /\
        exit_status (Raise TypeError) <> 0).
Proof.
  split.
  - intros fuel args w0 w1 e1 key kid w2 e2 w3 inst w4 e4 lim w5 e5 L0 K Kid C L1 F.
    destruct (main_configure_failure fuel args w0 w1 e1 key kid w2 e2 w3 inst w4 e4
                _ w5 e5 L0 K Kid C L1 F eq_refl) as (r & w' & evs & Hm & Hc & Hp & Hx).
    exists r, w', evs. auto.
  - intros fuel args w0 w1 e1 key kid w2 e2 w3 lim w4 e4 L0 K Kid C L1.
    pose proof (main_reaches_try fuel args w0 w1 e1 key kid w2 e2 L0 K Kid) as Hm.
    cbv zeta in Hm.
    rewrite (provision_relocate_fails (debug args) fuel args _ w2 w3 _ w4 e4 C L1 eq_refl)
      in Hm.
    cbn [_report_instance] in Hm.
    eexists. split; [exact Hm|]. split; [|split; [|simpl; discriminate]].
    + rewrite !in_app_iff. simpl. tauto.
    + rewrite !filter_app.
      rewrite (calm_filter _ _ _ _ _ (calm_locate _ _ _ _) L0).
      rewrite (calm_filter _ _ _ _ _ (calm_resolve_key _ _) K).
      rewrite (calm_filter _ _ _ _ _ (calm_locate _ _ _ _) L1).
      rewrite !filter_debug_line by reflexivity. reflexivity.
Qed.
End RollbackClaims.

(** ** C5: credentials populated, none for root *)

Section NoRootCredential.
Context {W : Type} `{Collaborators W}.

(** While every listing looks like that, no attempt satisfies the
    predicate and nothing raises: the loop can only be left with the test
    still false. *)
Lemma until_loop_stuck dbg fuel name domain (Inv : W -> Prop) start s0 w r w' evs :
  stuck_without_root name domain Inv ->
  Inv w -> test s0 = false ->
  until_loop dbg fuel list_truthy (Some (root_pass_test dbg name)) 5 "VM lookup"
    (vs_lookup dbg name domain) start s0 w = Some (r, w', evs) ->
  exists s, r = Ok s /\ test s = false /\ limit_reached s = true.
Proof.
  intros (Hnow & Hsleep & Hlist). revert s0 w r w' evs.
  induction fuel as [|fuel IH]; intros s0 w r w' evs I T0 X.
  - discriminate.
  - destruct (test s0 || limit_reached s0) eqn:C.
    + rewrite until_loop_done in X by exact C. inversion X; subst.
      exists s0. rewrite T0 in C. auto.
    + destruct (datetime_now w) as [now w1] eqn:N.
      assert (I1 : Inv w1) by (specialize (Hnow w I); rewrite N in Hnow; exact Hnow).
      destruct (Hlist w1 I1) as (vs_li & w2 & g & E & I2 & Mt & P).
      pose proof (vs_lookup_run dbg name domain w1 vs_li w2 E) as F. rewrite Mt in F.
      rewrite (until_loop_step dbg fuel list_truthy _ 5 "VM lookup" _ start s0 w now w1
                 _ w2 _ false w2 _ C N F (root_pass_without_root dbg name g [] w2 P)) in X.
      match type of X with
      | match until_loop _ _ _ _ _ _ _ _ ?s1 ?w3 with _ => _ end = _ =>
          destruct (until_loop dbg fuel list_truthy (Some (root_pass_test dbg name)) 5
                      "VM lookup" (vs_lookup dbg name domain) start s1 w3)
            as [[[r1 w1'] evs1]|] eqn:U; [|discriminate];
          apply IH in U; [|destruct (2 <? S (retries s0))%nat; auto|reflexivity]
      end.
      inversion X; subst. exact U.
Qed.

(** C5, amended: with exactly one match whose credential list is populated
    but holds no root credential, for as long as the program polls, no
    attempt satisfies the polling predicate and the Locator can only end
    by finding the five minutes exceeded: the failure is the time-limit
    one, not 'failed to locate'. *)
Theorem locate_without_root_times_out dbg fuel name domain (Inv : W -> Prop)
    (w : W) r w' evs :
  stuck_without_root name domain Inv ->
  Inv w ->
  _locate_instance dbg fuel name domain w = Some (r, w', evs) ->
  r = Raise (TimeLimitedOperationException 5) /\ r <> Raise (FailedToLocate name).
Proof.
  intros S I X.
  assert (G : r = Raise (TimeLimitedOperationException 5)); [|split; [exact G|]].
  2: { rewrite G. discriminate. }
  pose proof S as (Hnow & Hsleep & Hlist).
  destruct (Hlist w I) as (vs_li & w1 & g & E & I1 & Mt & P).
  unfold _locate_instance in X.
  rewrite (bind_ok _ _ _ _ _ _ (vs_lookup_run dbg name domain w vs_li w1 E)) in X.
  rewrite Mt in X. cbn [list_truthy negb List.length Nat.eqb] in X.
  destruct (bind _ _ w1) as [[[r1 w1'] evs1]|] eqn:B; [|discriminate].
  assert (G : r1 = Raise (TimeLimitedOperationException 5)).
  { apply bind_inv in B.
    destruct B as [(e & B & ->)|(found & w2 & e1 & e2 & B & _ & _)].
    - unfold until_with_lim_test in B.
      unfold bind at 1 in B. unfold call_total at 1 in B.
      destruct (datetime_now w1) as [start w2] eqn:N.
      assert (I2 : Inv w2) by (specialize (Hnow w1 I1); rewrite N in Hnow; exact Hnow).
      destruct (bind _ _ w2) as [[[r2 w2'] evs2]|] eqn:B2; [|discriminate].
      inversion B; subst; clear B.
      apply bind_inv in B2.
      destruct B2 as [(e' & B2 & E')|(s & w3 & e3 & e4 & B2 & B3 & _)].
      + eapply until_loop_stuck in B2; eauto. destruct B2 as (s & ? & _). discriminate.
      + eapply until_loop_stuck in B2; eauto.
        destruct B2 as (s' & Es & Ts & Ls). inversion Es; subst s'.
        unfold exit_branch in B3. rewrite Ls in B3. inversion B3; subst. reflexivity.
    - exfalso. unfold until_with_lim_test in B.
      unfold bind at 1 in B. unfold call_total at 1 in B.
      destruct (datetime_now w1) as [start w3] eqn:N.
      assert (I2 : Inv w3) by (specialize (Hnow w1 I1); rewrite N in Hnow; exact Hnow).
      destruct (bind _ _ w3) as [[[r2 w2'] evs2]|] eqn:B2; [|discriminate].
      inversion B; subst; clear B.
      apply bind_inv in B2.
      destruct B2 as [(e' & B2 & E')|(s & w4 & e3 & e4 & B2 & B3 & _)]; [discriminate|].
      eapply until_loop_stuck in B2; eauto.
      destruct B2 as (s' & Es & Ts & Ls). inversion Es; subst s'.
      unfold exit_branch in B3. rewrite Ls in B3. discriminate. }
  subst r1. inversion X; subst. reflexivity.
Qed.
End NoRootCredential.

(** * Concrete runs *)

Section ConcreteRuns.
Import Sim.

(** C3, on the code: the poll's fourth listing is requested 306 seconds
    after the start and shows the root credential, so its result
    satisfies the predicate; the limit was found exceeded at the top of
    that same iteration, and the engine raises the time-limit exception
    instead of returning the result. *)
Theorem until_raises_time_limit_on_satisfying_attempt :
  root_pass_test false "db1" [db1] ready_late = Some (Ok true, ready_late, []) /\
  exists w,
    poll 10 ready_late =
    Some (Raise (TimeLimitedOperationException 5), w,
          [EvNow;
           EvNow; EvGetVirtualGuests;
           EvNow; EvGetVirtualGuests;
           EvNow; EvGetVirtualGuests; EvSleep 3;
           EvNow; EvGetVirtualGuests; EvSleep 3]) /\
    time w = 410000000 /\ responses w = [[db1]].
Proof.
  split; [reflexivity|]. eexists. split; [vm_compute; reflexivity|].
  split; reflexivity.
Qed.

(** C4 as stated fails: with the predicate true on the third call, the
    three attempts are not separated by any delay; the only delay comes
    after the third attempt, where the claim puts it before. *)
Lemma delay_before_third_attempt_counterexample :
  exists w evs,
    poll 10 ready_on_third = Some (Ok [db1], w, evs) /\
    filter is_timing evs = [EvNow; EvNow; EvNow; EvNow; EvSleep 3] /\
    filter is_timing evs <> EvNow :: delay_before_third_timing 3.
Proof.
  do 2 eexists. split; [vm_compute; reflexivity|].
  split; [reflexivity|]. vm_compute. discriminate.
Qed.

(** C2 as stated fails: the create call is made, the time limit runs out
    while locating the new instance, the failure is reported, and no cancel
    call is issued before the process ends. *)
Lemma relocate_time_limit_counterexample :
  exists w evs,
    main 10 (args_for "db1" "example.com" (Some "ops@laptop")) created_never_ready
      = Some (Raise TypeError, w, evs) /\
    filter is_create evs <> [] /\
    In (EvPrintFailed "db1" (TimeLimitedOperationException 5)) evs /\
    filter is_cancel evs = [].
Proof.
  do 2 eexists. split; [vm_compute; reflexivity|].
  split; [vm_compute; discriminate|]. split; [|reflexivity].
  vm_compute. tauto.
Qed.

(** C5 as stated fails: one match, credentials populated, none for root;
    the Locator ends with the time-limit exception, not with
    'failed to locate'. *)
Lemma no_root_credential_counterexample :
  populated_without_root db1_no_root /\
  exists w evs,
    _locate_instance false 10 "db1" "example.com" never_root
      = Some (Raise (TimeLimitedOperationException 5), w, evs) /\
    Raise (TimeLimitedOperationException 5)
      <> @Raise (option Instance) (FailedToLocate "db1").
Proof.
  split.
  - do 2 eexists. repeat split; try reflexivity. discriminate.
  - do 2 eexists. split; [vm_compute; reflexivity|discriminate].
Qed.
(** C8 as stated fails: db1 exists with exactly one root credential, and
    [main] prints no report and ends with status 1: on a [KeyError] when
    the record has no address yet, on the time limit when the password of
    the credential is empty. *)
Lemma existing_instance_without_report_counterexample :
  (exact_matches "db1" "example.com" [db1_no_address] = [db1_no_address] /\
   one_root_credential db1_no_address /\
   exists w evs,
     main 10 (args_for "db1" "example.com" None) existing_no_address
       = Some (Raise (KeyError "primaryIpAddress"), w, evs) /\
     filter is_print evs = [] /\
     exit_status (Raise (KeyError "primaryIpAddress")) = 1) /\
  (exact_matches "db1" "example.com" [db1_blank_password] = [db1_blank_password] /\
   one_root_credential db1_blank_password /\
   exists w evs,
     main 10 (args_for "db1" "example.com" None) existing_blank_password
       = Some (Raise (TimeLimitedOperationException 5), w, evs) /\
     filter is_print evs = [] /\
     exit_status (Raise (TimeLimitedOperationException 5)) = 1).
Proof.
  split; (split; [reflexivity|]); (split; [do 3 eexists; repeat split; reflexivity|]);
    do 2 eexists; (split; [vm_compute; reflexivity|]); split; reflexivity.
Qed.
End ConcreteRuns.

(** * The statements at concrete inputs *)

Section Witnesses.
Import Sim.

Lemma until_failed_test_branch_unreachable_witness :
  exists s w evs,
    until_loop false 10 list_truthy (Some (root_pass_test false "db1")) 5 "VM lookup"
      (vs_lookup false "db1" "example.com") 0 (loop_start _) ready_on_third
      = Some (Ok s, w, evs) /\
    (limit_reached s = false -> test s = true) /\ exit_branch s <> BrFailedTest.
Proof.
  do 3 eexists. split; [vm_compute; reflexivity|].
  eapply (until_failed_test_branch_unreachable false 10 list_truthy
            (Some (root_pass_test false "db1")) 5 "VM lookup"
            (vs_lookup false "db1" "example.com") 0 (loop_start _) ready_on_third).
  vm_compute. reflexivity.
Defined.

Lemma until_delay_follows_third_attempt_witness :
  (exists s w evs,
      until_loop false 10 list_truthy (Some (root_pass_test false "db1")) 5 "VM lookup"
        (vs_lookup false "db1" "example.com") 0 (loop_start _) ready_late
        = Some (Ok s, w, evs) /\
      retries s = 4%nat /\
      filter is_timing evs = engine_timing true s) /\
  (exists w,
      poll 4 ready_on_third =
      Some (Ok [db1], w,
            [EvNow;
             EvNow; EvGetVirtualGuests;
             EvNow; EvGetVirtualGuests;
             EvNow; EvGetVirtualGuests; EvSleep 3])).
Proof.
  split.
  - do 3 eexists. split; [vm_compute; reflexivity|]. split; [reflexivity|].
    eapply (proj1 until_delay_follows_third_attempt _ false 10%nat list_truthy
              (Some (root_pass_test false "db1")) 5 "VM lookup"
              (vs_lookup false "db1" "example.com") 0 ready_late).
    + apply emits_vs_lookup; intros; reflexivity.
    + intros t r E. inversion E. apply emits_root_pass_test. intros; reflexivity.
    + vm_compute. reflexivity.
  - eexists. etransitivity.
    + eapply (proj2 until_delay_follows_third_attempt _ false 0%nat list_truthy
                (root_pass_test false "db1") 5 "VM lookup"
                (vs_lookup false "db1" "example.com") ready_on_third);
        try reflexivity; vm_compute; discriminate.
    + reflexivity.
Defined.
Lemma ambiguous_matches_abort_witness :
  exists w1,
    getVirtualGuests duplicated = (inr [db1; db1], w1) /\
    main 0 (args_for "db1" "example.com" None) duplicated
      = Some (Raise (AmbiguousResults "db1" [db1; db1]), w1, [EvGetVirtualGuests]).
Proof.
  eexists. split; [reflexivity|].
  eapply (ambiguous_matches_abort 0 (args_for "db1" "example.com" None)
            duplicated [db1; db1]).
  - reflexivity.
  - vm_compute. lia.
Defined.

Lemma no_key_no_create_witness :
  exists w1,
    getVirtualGuests absent = (inr [], w1) /\
    main 0 (args_for "db1" "example.com" None) absent
      = Some (Raise (UnboundLocalError "ssh_key"), w1, [EvGetVirtualGuests]).
Proof.
  eexists. split; [reflexivity|].
  eapply (no_key_no_create 0 (args_for "db1" "example.com" None) absent []);
    reflexivity.
Defined.

Lemma existing_instance_report_witness :
  provisioned_as db1 "db1.example.com" "10.0.0.5" "p@ss" 4242 /\
  exists w before,
    main 2 (args_for "db1" "example.com" None) existing
      = Some (Raise (SystemExit 0), w,
              before ++ [EvPrint "db1.example.com 10.0.0.5 XXXXX 4242"]) /\
    exit_status (Raise (SystemExit 0)) = 0 /\
    filter is_create before = [] /\
    filter is_cancel before = [].
Proof.
  assert (P : provisioned_as db1 "db1.example.com" "10.0.0.5" "p@ss" 4242).
  { repeat split; try reflexivity; try discriminate.
    do 3 eexists. repeat split; reflexivity. }
  split; [exact P|]. eexists.
  eapply (existing_instance_report 0 (args_for "db1" "example.com" None) existing
            [db1] _ db1 _ _ _ _ [db1] _ db1 "db1.example.com" "10.0.0.5" "p@ss" 4242);
    try reflexivity; [vm_compute; discriminate|exact P].
Defined.

Lemma fresh_key_label_raises_index_error_witness :
  key_comment "ssh-rsa AAAAB3Nza me@host" = "me@host" /\
  keys_with_label (keys absent) "me@host" = Ok [] /\
  _locate_or_add_pubkey "/home/me/id_rsa.pub" absent
    = Some (Raise IndexError, absent,
            [EvPathExists "/home/me/id_rsa.pub"; EvReadFile "/home/me/id_rsa.pub";
             EvListKeys]).
Proof.
  split; [reflexivity|]. split; [reflexivity|].
  exact (fresh_key_label_raises_index_error "/home/me/id_rsa.pub" absent absent
           "ssh-rsa AAAAB3Nza me@host" absent (keys absent) absent
           eq_refl eq_refl eq_refl eq_refl).
Defined.

Lemma configure_failure_cancels_once_witness :
  exists r w evs,
    main 10 args_with_cli created_ready = Some (r, w, evs) /\
    filter is_cancel evs = [EvCancelInstance 4242] /\
    exit_status r <> 0.
Proof.
  eapply (configure_failure_cancels_once 10 args_with_cli created_ready
            _ _ _ 77 _ _ _ db1_instance _ _ (NameError "debug"));
    vm_compute; reflexivity.
Defined.

Lemma time_limit_rollback_needs_descriptor_witness :
  (exists r w evs,
      main 10 (args_for "db1" "example.com" (Some "ops@laptop")) created_unreachable
        = Some (r, w, evs) /\
      In (EvPrintFailed "db1" (TimeLimitedOperationException 5)) evs /\
      filter is_cancel evs = [EvCancelInstance 4242] /\
      exit_status r <> 0) /\
  (exists w evs,
      main 10 (args_for "db1" "example.com" (Some "ops@laptop")) created_never_ready
        = Some (Raise TypeError, w, evs) /\
      In (EvPrintFailed "db1" (TimeLimitedOperationException 5)) evs /\
      filter is_cancel evs = [] /\
      exit_status (Raise TypeError) <> 0).
Proof.
  split.
  - eapply (proj1 time_limit_rollback_needs_descriptor 10%nat
              (args_for "db1" "example.com" (Some "ops@laptop")) created_unreachable
              _ _ _ 77 _ _ _ db1_instance _ _ 5);
      vm_compute; reflexivity.
  - eexists.
    eapply (proj2 time_limit_rollback_needs_descriptor 10%nat
              (args_for "db1" "example.com" (Some "ops@laptop")) created_never_ready
              _ _ _ 77 _ _ _ 5);
      vm_compute; reflexivity.
Defined.

Lemma locate_without_root_times_out_witness :
  exists w evs,
    _locate_instance false 10 "db1" "example.com" never_root
      = Some (Raise (TimeLimitedOperationException 5), w, evs) /\
    Raise (TimeLimitedOperationException 5)
      <> @Raise (option Instance) (FailedToLocate "db1").
Proof.
  do 2 eexists. split; [vm_compute; reflexivity|].
  eapply (locate_without_root_times_out false 10 "db1" "example.com"
            (fun w => responses w = [[db1_no_root]]) never_root).
  - split; [|split].
    + intros w I. exact I.
    + intros w secs I. exact I.
    + intros w I. unfold getVirtualGuests, collaborators, next_response.
      rewrite I. do 3 eexists. split; [reflexivity|]. split; [exact I|].
      split; [reflexivity|].
      do 2 eexists. repeat split; try reflexivity. discriminate.
  - reflexivity.
  - vm_compute. reflexivity.
Defined.
End Witnesses.

(** * Further properties of the code *)

(** ** The retry engine: what a returned result and a time-limit mean *)

Section EngineMeaning.
Context {W : Type} `{Collaborators W}.

(** The loop keeps in [res] the last result of [fn], and sets [test] only
    on an accepted result. *)
Lemma until_loop_accepts {R} dbg fuel truthy (test_fn : option (R -> M W bool))
    lim_min desc fn start s0 w s w' evs :
  (test s0 = true -> exists r, res s0 = Some r /\ accepted truthy test_fn fn r) ->
  until_loop dbg fuel truthy test_fn lim_min desc fn start s0 w = Some (Ok s, w', evs) ->
  test s = true -> exists r, res s = Some r /\ accepted truthy test_fn fn r.
Proof.
  revert s0 w evs. induction fuel as [|fuel IH]; intros s0 w evs I0; simpl.
  - discriminate.
  - destruct (test s0 || limit_reached s0) eqn:C; simpl.
    + intros X. inversion X; subst. exact I0.
    + apply orb_false_elim in C. destruct C as [T0 _].
      intros X.
      apply bind_inv in X. destruct X as [(e & _ & X)|(now & w1 & e1 & e2 & _ & X & _)];
        [discriminate|].
      apply bind_inv in X. destruct X as [(e & _ & X)|(r & w2 & e3 & e4 & F & X & _)];
        [discriminate|].
      apply bind_inv in X. destruct X as [(e & _ & X)|(u & w3 & e5 & e6 & D & X & _)];
        [discriminate|].
      assert (w3 = w2) by (rewrite debug_print_run in D; congruence). subst w3. clear D.
      destruct test_fn as [t|].
      * apply bind_inv in X. destruct X as [(e & _ & X)|(b & w4 & e7 & e8 & T & X & _)];
          [discriminate|].
        apply bind_inv in X. destruct X as [(e & _ & X)|(u' & w5 & e9 & e10 & _ & X & _)];
          [discriminate|].
        eapply IH; [|exact X]. cbn [test res]. intros ->.
        exists r. split; [reflexivity|]. exists w1, w2, e3. split; [exact F|]. eauto.
      * destruct (truthy r) eqn:Tr.
        -- assert (A : accepted truthy None fn r) by (exists w1, w2, e3; auto).
           inversion X; subst. intros _. exists r. split; [reflexivity|exact A].
        -- apply bind_inv in X.
           destruct X as [(e & _ & X)|(u' & w5 & e9 & e10 & _ & X & _)]; [discriminate|].
           eapply IH; [|exact X]. cbn [test res]. congruence.
Qed.

(** Exceptions of the loop are those of [fn] and of the predicate. *)
Lemma raises_until_loop (Q : exn -> Prop) {R} dbg fuel truthy
    (test_fn : option (R -> M W bool)) lim_min desc fn start s :
  raises Q fn ->
  (forall t r, test_fn = Some t -> raises Q (t r)) ->
  raises Q (until_loop dbg fuel truthy test_fn lim_min desc fn start s).
Proof.
  intros Qfn Qt. revert s. induction fuel as [|fuel IH]; intros s w e w' evs; simpl.
  - discriminate.
  - destruct (negb (test s || limit_reached s)); [|discriminate].
    intros X.
    apply bind_inv in X. destruct X as [(e0 & N & _)|(now & w1 & e1 & e2 & _ & X & _)].
    { unfold call_total in N. destruct (datetime_now w). discriminate. }
    apply bind_inv in X. destruct X as [(e0 & F & E)|(r & w2 & e3 & e4 & _ & X & _)].
    { inversion E; subst. eapply Qfn; eauto. }
    apply bind_inv in X. destruct X as [(e0 & D & _)|(u & w3 & e5 & e6 & _ & X & _)].
    { rewrite debug_print_run in D. discriminate. }
    destruct test_fn as [t|].
    + apply bind_inv in X. destruct X as [(e0 & T & E)|(b & w4 & e7 & e8 & _ & X & _)].
      { inversion E; subst. eapply Qt; eauto. }
      apply bind_inv in X. destruct X as [(e0 & D & _)|(u' & w5 & e9 & e10 & _ & X & _)].
      { rewrite delay_run in D. discriminate. }
      eapply IH; eauto.
    + destruct (truthy r); [discriminate|].
      apply bind_inv in X. destruct X as [(e0 & D & _)|(u' & w5 & e9 & e10 & _ & X & _)].
      { rewrite delay_run in D. discriminate. }
      eapply IH; eauto.
Qed.

(** X1: a result the engine returns is always one that [fn] produced and
    that was accepted: with a predicate, the predicate answered true on
    it; without one, the result itself is true. *)
Theorem until_returns_accepted_result {R} dbg fuel truthy
    (test_fn : option (R -> M W bool)) lim_min desc fn (w : W) r w' evs :
  until_with_lim_test dbg fuel truthy test_fn lim_min desc fn w = Some (Ok r, w', evs) ->
  accepted truthy test_fn fn r.
Proof.
  unfold until_with_lim_test. intros X.
  apply bind_inv in X. destruct X as [(e & _ & X)|(start & w1 & e1 & e2 & _ & X & _)];
    [discriminate|].
  apply bind_inv in X. destruct X as [(e & _ & X)|(s & w2 & e3 & e4 & L & X & _)];
    [discriminate|].
  unfold exit_branch in X.
  destruct (limit_reached s); [discriminate|].
  destruct (test s) eqn:T; [|discriminate]. cbn [negb] in X.
  assert (I0 : test (Build_LoopState 0 false false (@None R)) = true ->
               exists r0, res (Build_LoopState 0 false false (@None R)) = Some r0 /\
                          accepted truthy test_fn fn r0) by discriminate.
  destruct (until_loop_accepts _ _ _ _ _ _ _ _ _ _ _ _ _ I0 L T) as (r0 & Rs & A).
  rewrite Rs in X.
  apply bind_inv in X. destruct X as [(e & _ & X)|(u & w3 & e5 & e6 & _ & X & _)];
    [discriminate|].
  inversion X; subst. exact A.
Qed.

End EngineMeaning.

(** ** The retry engine: the time limit against the clock's record *)

Section EngineClock.
Context {W : Type} `{Collaborators W}.
Variable hist : W -> list Answer.

Lemma now_recorded (w : W) t w1 :
  records_clock hist -> datetime_now w = (t, w1) -> hist w1 = hist w ++ [ClockRead t].
Proof. intros [Hn _] E. specialize (Hn w). rewrite E in Hn. exact Hn. Qed.

Lemma delay_recorded n (w : W) r w' evs :
  records_clock hist -> delay n w = Some (r, w', evs) -> hist w' = hist w.
Proof.
  intros [_ Hs] X. rewrite delay_run in X.
  destruct (2 <? n)%nat; inversion X; subst; auto.
Qed.

(** Every world can be made to keep such a record. *)
Lemma recorded_clock : records_clock (H := Recorded.collaborators H) snd.
Proof.
  split.
  - intros [b l]. unfold Recorded.collaborators. simpl.
    destruct (datetime_now b). reflexivity.
  - intros secs [b l]. reflexivity.
Qed.

Lemma recorded_listing : records_listing (H := Recorded.collaborators H) snd.
Proof.
  intros [b l]. unfold Recorded.collaborators. simpl.
  destruct (getVirtualGuests b). reflexivity.
Qed.

(** The loop only adds to the record, and it sets [limit_reached] only on
    a reading of its own, taken more than the limit after [start]. *)
Lemma until_loop_limit {R} dbg fuel truthy (test_fn : option (R -> M W bool))
    lim_min desc fn start s0 w s w' evs :
  records_clock hist ->
  extends hist fn ->
  (forall t r, test_fn = Some t -> extends hist (t r)) ->
  until_loop dbg fuel truthy test_fn lim_min desc fn start s0 w = Some (Ok s, w', evs) ->
  exists l,
    hist w' = hist w ++ l /\
    (limit_reached s = true ->
     limit_reached s0 = true \/
     exists mid t1 post,
       l = mid ++ ClockRead t1 :: post /\ limit_us lim_min < t1 - start).
Proof.
  intros Rc Efn Et. revert s0 w evs. induction fuel as [|fuel IH]; intros s0 w evs; simpl.
  - discriminate.
  - destruct (test s0 || limit_reached s0) eqn:C; simpl.
    + intros X. inversion X; subst. exists []. rewrite app_nil_r. auto.
    + intros X.
      apply bind_inv in X. destruct X as [(e & _ & X)|(now & w1 & e1 & e2 & N & X & _)];
        [discriminate|].
      unfold call_total in N. destruct (datetime_now w) as [now' w1'] eqn:Dn.
      inversion N; subst now' w1'; clear N.
      pose proof (now_recorded _ _ _ Rc Dn) as H1.
      apply bind_inv in X. destruct X as [(e & _ & X)|(r & w2 & e3 & e4 & F & X & _)];
        [discriminate|].
      destruct (Efn _ _ _ _ F) as (l2 & H2).
      apply bind_inv in X. destruct X as [(e & _ & X)|(u & w3 & e5 & e6 & D & X & _)];
        [discriminate|].
      assert (w3 = w2) by (rewrite debug_print_run in D; congruence). subst w3. clear D.
      assert (Here : forall post,
                 (limit_us lim_min <? now - start) = true ->
                 exists mid t1 post',
                   [ClockRead now] ++ post = mid ++ ClockRead t1 :: post' /\
                   limit_us lim_min < t1 - start).
      { intros post L. apply Z.ltb_lt in L. exists [], now, post. auto. }
      assert (Later : forall a b l',
                 (exists mid t1 post,
                     l' = mid ++ ClockRead t1 :: post /\ limit_us lim_min < t1 - start) ->
                 exists mid t1 post,
                   [ClockRead now] ++ a ++ b ++ l' = mid ++ ClockRead t1 :: post /\
                   limit_us lim_min < t1 - start).
      { intros a b l' (mid & t1 & post & -> & L).
        exists ([ClockRead now] ++ a ++ b ++ mid), t1, post.
        rewrite <- !app_assoc. auto. }
      destruct test_fn as [t|].
      * apply bind_inv in X. destruct X as [(e & _ & X)|(b & w4 & e7 & e8 & T & X & _)];
          [discriminate|].
        destruct (Et t r eq_refl _ _ _ _ T) as (l4 & H4).
        apply bind_inv in X. destruct X as [(e & _ & X)|(u' & w5 & e9 & e10 & D & X & _)];
          [discriminate|].
        pose proof (delay_recorded _ _ _ _ _ Rc D) as H5.
        destruct (IH _ _ _ X) as (l' & H' & I').
        exists ([ClockRead now] ++ l2 ++ l4 ++ l'). split.
        -- rewrite H', H5, H4, H2, H1, <- !app_assoc. reflexivity.
        -- intros Lr. right. destruct (I' Lr) as [L|L].
           ++ cbn [limit_reached] in L. apply Here. exact L.
           ++ apply Later. exact L.
      * destruct (truthy r) eqn:Tr.
        -- inversion X; subst. exists ([ClockRead now] ++ l2). split.
           ++ rewrite H2, H1, <- !app_assoc. reflexivity.
           ++ cbn [limit_reached]. intros L. right. apply Here. exact L.
        -- apply bind_inv in X.
           destruct X as [(e & _ & X)|(u' & w5 & e9 & e10 & D & X & _)]; [discriminate|].
           pose proof (delay_recorded _ _ _ _ _ Rc D) as H5.
           destruct (IH _ _ _ X) as (l' & H' & I').
           exists ([ClockRead now] ++ l2 ++ [] ++ l'). split.
           ++ rewrite H', H5, H2, H1, <- !app_assoc. reflexivity.
           ++ intros Lr. right. destruct (I' Lr) as [L|L].
              ** cbn [limit_reached] in L. apply Here. exact L.
              ** apply Later. exact L.
Qed.

(** X2: the engine raises its time-limit exception only after a clock
    reading of its own run that is more than [lim_min] minutes after the
    reading taken at its start.  The readings are those of the record the
    world keeps of its clock; [fn] and the predicate only add to the
    record and do not raise that exception themselves. *)
Theorem until_time_limit_not_early {R} dbg fuel truthy
    (test_fn : option (R -> M W bool)) lim_min desc fn (w : W) w' evs :
  records_clock hist ->
  extends hist fn ->
  (forall t r, test_fn = Some t -> extends hist (t r)) ->
  raises (fun e => e <> TimeLimitedOperationException lim_min) fn ->
  (forall t r, test_fn = Some t ->
     raises (fun e => e <> TimeLimitedOperationException lim_min) (t r)) ->
  until_with_lim_test dbg fuel truthy test_fn lim_min desc fn w
    = Some (Raise (TimeLimitedOperationException lim_min), w', evs) ->
  exists t0 mid t1 post,
    hist w' = hist w ++ ClockRead t0 :: mid ++ ClockRead t1 :: post /\
    limit_us lim_min < t1 - t0.
Proof.
  intros Rc Efn Et Qfn Qt. unfold until_with_lim_test. intros X.
  apply bind_inv in X. destruct X as [(e & N & _)|(start & w1 & e1 & e2 & N & X & _)].
  { unfold call_total in N. destruct (datetime_now w). discriminate. }
  unfold call_total in N. destruct (datetime_now w) as [start' w1'] eqn:Dn.
  inversion N; subst start' w1'; clear N.
  pose proof (now_recorded _ _ _ Rc Dn) as H1.
  apply bind_inv in X. destruct X as [(e & L & E)|(s & w2 & e3 & e4 & L & X & _)].
  { inversion E; subst.
    exfalso. eapply (raises_until_loop _ dbg fuel truthy test_fn lim_min desc fn start
                       _ Qfn Qt); eauto. }
  destruct (until_loop_limit _ _ _ _ _ _ _ _ _ _ _ _ _ Rc Efn Et L) as (l & Hl & Il).
  unfold exit_branch in X.
  destruct (limit_reached s) eqn:Lr.
  - inversion X; subst w'.
    destruct (Il eq_refl) as [I0|(mid & t1 & post & -> & Lt)]; [discriminate|].
    exists start, mid, t1, post. split; [|exact Lt].
    rewrite Hl, H1, <- app_assoc. reflexivity.
  - destruct (negb (test s)); [discriminate|].
    apply bind_inv in X. destruct X as [(e & D & _)|(u & w3 & e5 & e6 & _ & X & _)].
    { rewrite debug_print_run in D. discriminate. }
    destruct (res s); discriminate.
Qed.
End EngineClock.

(** ** The Locator: outcomes of a lookup *)

Section LocatorOutcomes.
Context {W : Type} `{Collaborators W}.

(** An iteration in which [fn] raises ends the loop with that exception. *)
Lemma until_loop_fn_raises {R} dbg fuel truthy (test_fn : option (R -> M W bool))
    lim_min desc fn start s (w : W) now w1 ex w2 e :
  test s || limit_reached s = false ->
  datetime_now w = (now, w1) ->
  fn w1 = Some (Raise ex, w2, e) ->
  until_loop dbg (S fuel) truthy test_fn lim_min desc fn start s w
    = Some (Raise ex, w2, [EvNow] ++ e).
Proof.
  intros C N F. simpl. rewrite C. simpl.
  unfold bind at 1. unfold call_total. rewrite N.
  unfold bind at 1. rewrite F. reflexivity.
Qed.

(** An iteration in which the predicate raises ends the loop with that
    exception, before any delay. *)
Lemma until_loop_test_raises {R} dbg fuel truthy (t : R -> M W bool)
    lim_min desc fn start s (w : W) now w1 r w2 e ex w3 f :
  test s || limit_reached s = false ->
  datetime_now w = (now, w1) ->
  fn w1 = Some (Ok r, w2, e) ->
  t r w2 = Some (Raise ex, w3, f) ->
  until_loop dbg (S fuel) truthy (Some t) lim_min desc fn start s w
    = Some (Raise ex, w3,
            [EvNow] ++ e ++ debug_line dbg "operation {} retried: {} times" ++ f).
Proof.
  intros C N F T. simpl. rewrite C. simpl.
  unfold bind at 1. unfold call_total. rewrite N.
  unfold bind at 1. rewrite F.
  unfold bind at 1. rewrite debug_print_run.
  unfold bind at 1. rewrite T. reflexivity.
Qed.

Lemma until_first_call_fn_raises {R} dbg fuel truthy (test_fn : option (R -> M W bool))
    lim_min desc fn (w0 : W) t0 w1 t1 w2 ex w3 e :
  datetime_now w0 = (t0, w1) ->
  datetime_now w1 = (t1, w2) ->
  fn w2 = Some (Raise ex, w3, e) ->
  until_with_lim_test dbg (S fuel) truthy test_fn lim_min desc fn w0
    = Some (Raise ex, w3, [EvNow] ++ [EvNow] ++ e).
Proof.
  intros N0 N1 F. unfold until_with_lim_test.
  unfold bind at 1. unfold call_total at 1. rewrite N0.
  rewrite (bind_raise _ _ _ _ _ _
             (until_loop_fn_raises dbg fuel truthy test_fn lim_min desc fn t0
                (Build_LoopState 0 false false None) w1 t1 w2 ex w3 e eq_refl N1 F)).
  reflexivity.
Qed.

Lemma until_first_call_test_raises {R} dbg fuel truthy (t : R -> M W bool)
    lim_min desc fn (w0 : W) t0 w1 t1 w2 r w3 e ex w4 f :
  datetime_now w0 = (t0, w1) ->
  datetime_now w1 = (t1, w2) ->
  fn w2 = Some (Ok r, w3, e) ->
  t r w3 = Some (Raise ex, w4, f) ->
  until_with_lim_test dbg (S fuel) truthy (Some t) lim_min desc fn w0
    = Some (Raise ex, w4,
            [EvNow] ++ [EvNow] ++ e
            ++ debug_line dbg "operation {} retried: {} times" ++ f).
Proof.
  intros N0 N1 F T. unfold until_with_lim_test.
  unfold bind at 1. unfold call_total at 1. rewrite N0.
  rewrite (bind_raise _ _ _ _ _ _
             (until_loop_test_raises dbg fuel truthy t lim_min desc fn t0
                (Build_LoopState 0 false false None) w1 t1 w2 r w3 e ex w4 f
                eq_refl N1 F T)).
  reflexivity.
Qed.

(** X3: no guest carries the name: the Locator answers "not found" ([None])
    without raising, after the one listing call, whatever else the
    account holds. *)
Theorem locate_absent_is_not_an_error dbg fuel name domain (w : W) vs_li w1 :
  getVirtualGuests w = (inr vs_li, w1) ->
  exact_matches name domain vs_li = [] ->
  _locate_instance dbg fuel name domain w =
  Some (Ok None, w1,
        debug_line dbg "Attempting lookup of instance with name: {}; ..."
        ++ [EvGetVirtualGuests]).
Proof. apply locate_none. Qed.

(** X4: the single match is fully populated at the first poll: the Locator
    returns its descriptor after two listing calls and two clock readings,
    without any delay.  The poll's listing is not checked for duplicates:
    when it shows several matches, the first one is used. *)
Theorem locate_ready_at_first_poll dbg fuel name domain (w : W) l1 w1 g1 t0 w2 t1 w3
    l2 w4 g rest fqdn ip password id :
  getVirtualGuests w = (inr l1, w1) ->
  exact_matches name domain l1 = [g1] ->
  datetime_now w1 = (t0, w2) ->
  datetime_now w2 = (t1, w3) ->
  t1 - t0 <= limit_us 5 ->
  getVirtualGuests w3 = (inr l2, w4) ->
  exact_matches name domain l2 = g :: rest ->
  provisioned_as g fqdn ip password id ->
  exists evs,
    _locate_instance dbg (2 + fuel) name domain w =
    Some (Ok (Some {| inst_fqdn := fqdn; inst_ip := ip;
                      inst_root_password := Some password; inst_id := id |}), w4, evs) /\
    filter is_timing evs = [EvNow; EvNow] /\
    filter is_listing evs = [EvGetVirtualGuests; EvGetVirtualGuests].
Proof.
  intros E1 M1 N0 N1 L E2 M2 P.
  pose proof (locate_found dbg fuel name domain w l1 w1 g1 t0 w2 t1 w3 l2 w4 g rest
                fqdn ip password id E1 M1 N0 N1 L E2 M2 P) as X.
  cbv zeta in X. eexists. split; [exact X|].
  unfold attempt_events.
  split; rewrite ?filter_app, ?filter_debug_line by reflexivity;
    destruct dbg; reflexivity.
Qed.

Lemma root_pass_several dbg name g rest (w : W) :
  several_root_credentials g -> guest_truthy g = true ->
  root_pass_test dbg name (g :: rest) w
    = Some (Raise (MultipleRootPasswords name), w, debug_line dbg "my_vs: {}").
Proof.
  intros (os & pws & Hos & Hpws & L) T.
  unfold root_pass_test, root_pass, bind. rewrite debug_print_run.
  rewrite T, Hos, Hpws.
  assert (Lt : list_truthy pws = true).
  { destruct pws; [simpl in L; lia|reflexivity]. }
  rewrite Lt.
  destruct (root_passwords pws) as [|p1 [|p2 ps]]; simpl in L; try lia.
  cbn [List.length Nat.eqb Nat.ltb Nat.leb raise]. rewrite app_nil_r. reflexivity.
Qed.

(** X5: the single match shows two or more root credentials at the first
    poll: the Locator raises the 'Multiple "root" passwords' exception
    right away, without waiting for the time limit and without picking
    one. *)
Theorem locate_several_root_credentials dbg fuel name domain (w : W) l1 w1 g1 t0 w2
    t1 w3 l2 w4 g rest :
  getVirtualGuests w = (inr l1, w1) ->
  exact_matches name domain l1 = [g1] ->
  datetime_now w1 = (t0, w2) ->
  datetime_now w2 = (t1, w3) ->
  getVirtualGuests w3 = (inr l2, w4) ->
  exact_matches name domain l2 = g :: rest ->
  guest_truthy g = true ->
  several_root_credentials g ->
  exists evs,
    _locate_instance dbg (1 + fuel) name domain w
      = Some (Raise (MultipleRootPasswords name), w4, evs) /\
    filter is_timing evs = [EvNow; EvNow].
Proof.
  intros E1 M1 N0 N1 E2 M2 T Sv.
  unfold _locate_instance.
  rewrite (bind_ok _ _ _ _ _ _ (vs_lookup_run dbg name domain w l1 w1 E1)).
  rewrite M1. cbn [list_truthy negb List.length Nat.eqb].
  pose proof (vs_lookup_run dbg name domain w3 l2 w4 E2) as F. rewrite M2 in F.
  change (1 + fuel)%nat with (S fuel).
  rewrite (bind_raise _ _ _ _ _ _
             (until_first_call_test_raises dbg fuel list_truthy (root_pass_test dbg name) 5
                "VM lookup" (vs_lookup dbg name domain) w1 t0 w2 t1 w3 _ w4 _ _ w4 _
                N0 N1 F (root_pass_several dbg name g rest w4 Sv T))).
  eexists. split; [reflexivity|].
  rewrite ?filter_app, ?filter_debug_line by reflexivity. destruct dbg; reflexivity.
Qed.

End LocatorOutcomes.

(** ** Which exceptions a computation can end with *)

Section Raises.
Context {W : Type} `{Collaborators W}.

Lemma raises_ret Q {A} (a : A) : raises Q (@ret W A a).
Proof. intros w e w' evs X. discriminate. Qed.

Lemma raises_raise (Q : exn -> Prop) {A} e : Q e -> raises Q (@raise W A e).
Proof. intros Hq w e' w' evs X. inversion X; subst. exact Hq. Qed.

Lemma raises_emit Q ev : raises Q (@emit W ev).
Proof. intros w e w' evs X. discriminate. Qed.

Lemma raises_bind Q {A B} (m : M W A) (f : A -> M W B) :
  raises Q m -> (forall a, raises Q (f a)) -> raises Q (bind m f).
Proof.
  intros Hm Hf w e w' evs X.
  destruct (bind_inv _ _ _ _ _ _ X) as [(e0 & E & E')|(a & w1 & e1 & e2 & E & F & _)].
  - inversion E'; subst. eapply Hm; eauto.
  - eapply Hf; eauto.
Qed.

Lemma raises_call (Q : exn -> Prop) {A} (op : W -> (string + A) * W) ev :
  (forall msg, Q (CollaboratorError msg)) -> raises Q (call op ev).
Proof.
  intros Hq w e w' evs. unfold call.
  destruct (op w) as [[msg|a] w1]; intros X; inversion X; subst; auto.
Qed.

Lemma raises_call_total Q {A} (op : W -> A * W) ev : raises Q (call_total op ev).
Proof.
  intros w e w' evs. unfold call_total. destruct (op w) as [a w1]. discriminate.
Qed.

Lemma raises_debug_print Q dbg template : raises Q (@debug_print W dbg template).
Proof. destruct dbg; simpl; [apply raises_emit | apply raises_ret]. Qed.

Lemma raises_getitem (Q : exn -> Prop) {A} (fld : option A) key :
  Q (KeyError key) -> raises Q (@getitem W A fld key).
Proof. intros Hq. destruct fld; [apply raises_ret | apply raises_raise; exact Hq]. Qed.

(** What gets past [except Exception] is not an [Exception]. *)
Lemma raises_attempt (Q : exn -> Prop) {A} (m : M W A) :
  raises (fun e => is_Exception e = false -> Q e) m -> raises Q (attempt m).
Proof.
  intros Hm w e w' evs X.
  destruct (attempt_inv _ _ _ _ _ X) as [(a & _ & E)|(e0 & E & E')]; [discriminate|].
  destruct (is_Exception e0) eqn:Ex; [discriminate|].
  inversion E'; subst. eapply Hm; eauto.
Qed.

Lemma raises_weaken (P Q : exn -> Prop) {A} (m : M W A) :
  (forall e, P e -> Q e) -> raises P m -> raises Q m.
Proof. intros I Hm w e w' evs X. apply I. eapply Hm; eauto. Qed.

Lemma raises_delay Q n : raises Q (@delay W _ n).
Proof. intros w e w' evs X. rewrite delay_run in X. discriminate. Qed.

(** After the loop, the engine adds its time-limit exception only: the
    other two branches that raise are never taken. *)
Lemma raises_until_with_lim_test (Q : exn -> Prop) {R} dbg fuel truthy
    (test_fn : option (R -> M W bool)) lim_min desc fn :
  Q (TimeLimitedOperationException lim_min) ->
  raises Q fn ->
  (forall t r, test_fn = Some t -> raises Q (t r)) ->
  raises Q (until_with_lim_test dbg fuel truthy test_fn lim_min desc fn).
Proof.
  intros Ht Qfn Qt w e w' evs X. unfold until_with_lim_test in X.
  apply bind_inv in X. destruct X as [(e0 & N & _)|(start & w1 & e1 & e2 & _ & X & _)].
  { exfalso. eapply (raises_call_total (fun _ => False)); eauto. }
  apply bind_inv in X. destruct X as [(e0 & L & E)|(s & w2 & e3 & e4 & L & X & _)].
  { inversion E; subst.
    eapply (raises_until_loop Q dbg fuel truthy test_fn lim_min desc fn start); eauto. }
  pose proof (until_loop_exit _ _ _ _ _ _ _ _ _ _ _ _ _ L) as C.
  assert (I0 : test (Build_LoopState 0 false false (@None R)) = true ->
               exists r0, res (Build_LoopState 0 false false (@None R)) = Some r0 /\
                          accepted truthy test_fn fn r0) by discriminate.
  pose proof (until_loop_accepts _ _ _ _ _ _ _ _ _ _ _ _ _ I0 L) as A.
  unfold exit_branch in X.
  destruct (limit_reached s).
  - inversion X; subst. exact Ht.
  - destruct (test s); [|discriminate]. cbn [negb] in X.
    destruct (A eq_refl) as (r0 & Rs & _). rewrite Rs in X.
    apply bind_inv in X. destruct X as [(e0 & D & _)|(u & w3 & e5 & e6 & _ & X & _)].
    + rewrite debug_print_run in D. discriminate.
    + discriminate.
Qed.

Lemma raises_vs_lookup (Q : exn -> Prop) dbg name domain :
  (forall msg, Q (CollaboratorError msg)) -> raises Q (@vs_lookup W _ dbg name domain).
Proof.
  intros Hq. unfold vs_lookup.
  apply raises_bind; [apply raises_debug_print|intros _].
  apply raises_bind; [apply raises_call; exact Hq|intros vs_li]. apply raises_ret.
Qed.

(** [root_pass] raises for several root credentials or for a root entry
    without a password; indexing the filtered list never fails. *)
Lemma raises_root_pass (Q : exn -> Prop) dbg name vs :
  Q (MultipleRootPasswords name) -> Q (KeyError "password") ->
  raises Q (@root_pass W dbg name vs).
Proof.
  intros Hm Hk. unfold root_pass.
  apply raises_bind; [apply raises_debug_print|intros _].
  destruct (match vs with OfList [] => None | OfList (g :: _) | OfGuest g => Some g end)
    as [g|]; [|apply raises_ret].
  destruct (guest_truthy g); [|apply raises_ret].
  destruct (vg_operatingSystem g) as [os|]; [|apply raises_ret].
  destruct (os_passwords os) as [pws|]; [|apply raises_ret].
  destruct (list_truthy pws); [|apply raises_ret].
  destruct (root_passwords pws) as [|p [|p' ps]]; cbn [List.length Nat.eqb Nat.ltb Nat.leb].
  - apply raises_ret.
  - apply raises_bind; [apply raises_getitem; exact Hk|intros s; apply raises_ret].
  - apply raises_raise; exact Hm.
Qed.

Lemma raises_root_pass_test (Q : exn -> Prop) dbg name vs :
  Q (MultipleRootPasswords name) -> Q (KeyError "password") ->
  raises Q (@root_pass_test W dbg name vs).
Proof.
  intros Hm Hk. unfold root_pass_test.
  apply raises_bind; [apply raises_root_pass; assumption|intros p; apply raises_ret].
Qed.

(** The predicate of the poll answers true only on a list whose first
    element is a non-empty record. *)
Lemma root_pass_test_true dbg name vs (w : W) w' evs :
  root_pass_test dbg name vs w = Some (Ok true, w', evs) ->
  exists g rest, vs = g :: rest /\ guest_truthy g = true.
Proof.
  unfold root_pass_test, root_pass. intros X.
  apply bind_inv in X. destruct X as [(e & _ & X)|(p & w1 & e1 & e2 & P & X & _)];
    [discriminate|].
  assert (Pt : password_truthy p = true) by (unfold ret in X; congruence). clear X.
  apply bind_inv in P. destruct P as [(e & _ & P)|(u & w2 & e3 & e4 & _ & P & _)];
    [discriminate|].
  destruct vs as [|g rest].
  { assert (p = None) by (unfold ret in P; congruence). subst p. discriminate. }
  exists g, rest. split; [reflexivity|].
  destruct (guest_truthy g); [reflexivity|].
  assert (p = None) by (unfold ret in P; congruence). subst p. discriminate.
Qed.

Lemma raises_locate_instance dbg fuel name domain :
  raises locator_exn (@_locate_instance W _ dbg fuel name domain).
Proof.
  unfold _locate_instance.
  apply raises_bind; [apply raises_vs_lookup; intros; exact I|intros matching].
  destruct (negb (list_truthy matching)); [apply raises_ret|].
  destruct (List.length matching =? 1)%nat; [|apply raises_raise; exact I].
  intros w e w' evs X.
  apply bind_inv in X. destruct X as [(e0 & U & E)|(found & w1 & e1 & e2 & U & X & _)].
  - inversion E; subst.
    eapply (raises_until_with_lim_test locator_exn); [exact I| | |exact U].
    + apply raises_vs_lookup; intros; exact I.
    + intros t r Et. inversion Et; subst. apply raises_root_pass_test; exact I.
  - apply until_returns_accepted_result in U.
    destruct U as (w0 & w2 & e0 & _ & w3 & e3 & T).
    apply root_pass_test_true in T. destruct T as (g & rest & -> & Tg).
    rewrite Tg in X.
    assert (R : raises locator_exn
              (debug_print dbg "queried provisioned box: {}" ;;
               fqdn <- getitem (vg_fullyQualifiedDomainName g)
                         "fullyQualifiedDomainName" ;;
               ip <- getitem (vg_primaryIpAddress g) "primaryIpAddress" ;;
               pw <- root_pass dbg name (OfGuest g) ;;
               id <- getitem (vg_id g) "id" ;;
               @ret W _ (Some {| inst_fqdn := fqdn; inst_ip := ip;
                            inst_root_password := pw; inst_id := id |}))).
    { apply raises_bind; [apply raises_debug_print|intros _].
      apply raises_bind; [apply raises_getitem; exact I|intros fqdn].
      apply raises_bind; [apply raises_getitem; exact I|intros ip].
      apply raises_bind; [apply raises_root_pass; exact I|intros pw].
      apply raises_bind; [apply raises_getitem; exact I|intros id].
      apply raises_ret. }
    eapply R; exact X.
Qed.

(** X7: the Locator ends only with a provider error, the time-limit
    exception, the 'Multiple "root" passwords' or 'Ambiguous results'
    exception, or a [KeyError] for a missing field.  In particular its
    'failed to locate vs ... with operatingSystem val' is never raised:
    a result that passed [root_pass] has a non-empty first element. *)
Theorem locate_failures dbg fuel name domain (w : W) e w' evs :
  _locate_instance dbg fuel name domain w = Some (Raise e, w', evs) ->
  locator_exn e /\ e <> FailedToLocate name /\ e <> IndexError.
Proof.
  intros X.
  assert (G : locator_exn e) by (eapply raises_locate_instance; eauto).
  split; [exact G|split; intros ->; exact G].
Qed.
End Raises.

(** ** The Locator against the record of the listing call *)

Section LocatorRecord.
Context {W : Type} `{Collaborators W}.
Variable hist : W -> list Answer.

Lemma still_ret {A} (a : A) : still (@ret W A a).
Proof. intros w r w' evs X. inversion X. reflexivity. Qed.

Lemma still_raise {A} e : still (@raise W A e).
Proof. intros w r w' evs X. inversion X. reflexivity. Qed.

Lemma still_debug_print dbg template : still (@debug_print W dbg template).
Proof. intros w r w' evs X. rewrite debug_print_run in X. inversion X. reflexivity. Qed.

Lemma still_getitem {A} (field : option A) key : still (@getitem W A field key).
Proof. destruct field; [apply still_ret | apply still_raise]. Qed.

Lemma still_bind {A B} (m : M W A) (f : A -> M W B) :
  still m -> (forall a, still (f a)) -> still (bind m f).
Proof.
  intros Hm Hf w r w' evs X.
  destruct (bind_inv _ _ _ _ _ _ X) as [(e & E & _)|(a & w1 & e1 & e2 & E & F & _)].
  - eapply Hm; eauto.
  - apply Hm in E. apply Hf in F. congruence.
Qed.

Lemma still_root_pass dbg name vs : still (@root_pass W dbg name vs).
Proof.
  unfold root_pass.
  apply still_bind; [apply still_debug_print|intros _].
  destruct (match vs with OfList [] => None | OfList (g :: _) | OfGuest g => Some g end)
    as [g|]; [|apply still_ret].
  destruct (guest_truthy g); [|apply still_ret].
  destruct (vg_operatingSystem g) as [os|]; [|apply still_ret].
  destruct (os_passwords os) as [pws|]; [|apply still_ret].
  destruct (list_truthy pws); [|apply still_ret].
  destruct (List.length (root_passwords pws) =? 1)%nat.
  - destruct (root_passwords pws); [apply still_raise|].
    apply still_bind; [apply still_getitem|intros s; apply still_ret].
  - destruct (1 <? List.length (root_passwords pws))%nat;
      [apply still_raise|apply still_ret].
Qed.

Lemma still_root_pass_test dbg name vs : still (@root_pass_test W dbg name vs).
Proof.
  unfold root_pass_test.
  apply still_bind; [apply still_root_pass|intros p; apply still_ret].
Qed.

Lemma failure_last_app {A} l1 l2 (r : Res A) :
  unfailing l1 -> failure_last l2 r -> failure_last (l1 ++ l2) r.
Proof.
  intros U1 [U2|(pre & msg & -> & Up & ->)].
  - left. apply Forall_app. auto.
  - right. exists (l1 ++ pre), msg. rewrite app_assoc.
    repeat split. apply Forall_app. auto.
Qed.

Lemma failure_last_ok {A} l (a : A) : failure_last l (Ok a) -> unfailing l.
Proof. intros [U|(pre & msg & _ & _ & E)]; [exact U|discriminate]. Qed.

Lemma failure_last_raise {A B} l e :
  @failure_last A l (Raise e) -> @failure_last B l (Raise e).
Proof.
  intros [U|(pre & msg & -> & Up & E)]; [left; exact U|].
  right. exists pre, msg. inversion E. auto.
Qed.

(** One listing adds one answer, and it raises exactly when the call
    failed. *)
Lemma vs_lookup_recorded dbg name domain (w : W) r w' evs :
  records_listing hist ->
  vs_lookup dbg name domain w = Some (r, w', evs) ->
  exists a,
    hist w' = hist w ++ [a] /\ failure_last [a] r /\
    (forall x, r = Ok x -> is_failed_listing a = false).
Proof.
  intros Rl. unfold vs_lookup. intros X.
  apply bind_inv in X. destruct X as [(e & D & _)|(u & w1 & e1 & e2 & D & X & _)].
  { rewrite debug_print_run in D. discriminate. }
  assert (w1 = w) by (rewrite debug_print_run in D; congruence). subst w1. clear D.
  specialize (Rl w).
  apply bind_inv in X. destruct X as [(e & C & E)|(vs_li & w2 & e3 & e4 & C & X & _)].
  - unfold call in C. destruct (getVirtualGuests w) as [[msg|l] w2] eqn:G;
      inversion C; subst. cbn [fst snd listing_answer] in Rl.
    exists (ListingFailed msg). split; [exact Rl|]. split; [|discriminate].
    right. exists [], msg. repeat split. constructor.
  - unfold call in C. destruct (getVirtualGuests w) as [[msg|l] w3] eqn:G;
      inversion C; subst. cbn [fst snd listing_answer] in Rl.
    inversion X; subst.
    exists (Listed vs_li). split; [exact Rl|]. split; [|reflexivity].
    left. repeat constructor.
Qed.

(** The polling loop of the Locator: after a failed listing nothing more
    is asked. *)
Lemma poll_loop_recorded dbg fuel name domain lim_min desc start s0 (w : W) r w' evs :
  records_clock hist -> records_listing hist ->
  until_loop dbg fuel list_truthy (Some (root_pass_test dbg name)) lim_min desc
    (vs_lookup dbg name domain) start s0 w = Some (r, w', evs) ->
  exists l, hist w' = hist w ++ l /\ failure_last l r.
Proof.
  intros Rc Rl. revert s0 w evs. induction fuel as [|fuel IH]; intros s0 w evs; simpl.
  - discriminate.
  - destruct (test s0 || limit_reached s0); simpl.
    + intros X. inversion X; subst. exists []. rewrite app_nil_r.
      split; [reflexivity|left; constructor].
    + intros X.
      apply bind_inv in X. destruct X as [(e & N & _)|(now & w1 & e1 & e2 & N & X & _)].
      { unfold call_total in N. destruct (datetime_now w). discriminate. }
      unfold call_total in N. destruct (datetime_now w) as [now' w1'] eqn:Dn.
      inversion N; subst now' w1'; clear N.
      pose proof (now_recorded hist _ _ _ Rc Dn) as H1.
      assert (Un : unfailing [ClockRead now]) by (repeat constructor).
      apply bind_inv in X. destruct X as [(e & F & E)|(vs & w2 & e3 & e4 & F & X & _)].
      { destruct (vs_lookup_recorded _ _ _ _ _ _ _ Rl F) as (a & H2 & Fl & _).
        subst r. exists ([ClockRead now] ++ [a]). split.
        - rewrite H2, H1, <- app_assoc. reflexivity.
        - apply failure_last_app; [exact Un|]. eapply failure_last_raise; exact Fl. }
      destruct (vs_lookup_recorded _ _ _ _ _ _ _ Rl F) as (a & H2 & _ & Ua).
      specialize (Ua _ eq_refl).
      assert (U2 : unfailing ([ClockRead now] ++ [a])) by (repeat constructor; exact Ua).
      apply bind_inv in X. destruct X as [(e & D & _)|(u & w3 & e5 & e6 & D & X & _)].
      { rewrite debug_print_run in D. discriminate. }
      assert (w3 = w2) by (rewrite debug_print_run in D; congruence). subst w3. clear D.
      apply bind_inv in X. destruct X as [(e & T & E)|(b & w4 & e7 & e8 & T & X & _)].
      { apply still_root_pass_test in T. subst w'.
        exists ([ClockRead now] ++ [a]). split.
        - rewrite H2, H1, <- app_assoc. reflexivity.
        - left. exact U2. }
      apply still_root_pass_test in T. subst w4.
      apply bind_inv in X. destruct X as [(e & D & _)|(u' & w5 & e9 & e10 & D & X & _)].
      { rewrite delay_run in D. discriminate. }
      pose proof (delay_recorded hist _ _ _ _ _ Rc D) as H5.
      destruct (IH _ _ _ X) as (l' & H' & Fl').
      exists (([ClockRead now] ++ [a]) ++ l'). split.
      * rewrite H', H5, H2, H1, <- !app_assoc. reflexivity.
      * apply failure_last_app; assumption.
Qed.

Lemma poll_recorded dbg fuel name domain lim_min desc (w : W) r w' evs :
  records_clock hist -> records_listing hist ->
  until_with_lim_test dbg fuel list_truthy (Some (root_pass_test dbg name)) lim_min desc
    (vs_lookup dbg name domain) w = Some (r, w', evs) ->
  exists l, hist w' = hist w ++ l /\ failure_last l r.
Proof.
  intros Rc Rl. unfold until_with_lim_test. intros X.
  apply bind_inv in X. destruct X as [(e & N & _)|(start & w1 & e1 & e2 & N & X & _)].
  { unfold call_total in N. destruct (datetime_now w). discriminate. }
  unfold call_total in N. destruct (datetime_now w) as [start' w1'] eqn:Dn.
  inversion N; subst start' w1'; clear N.
  pose proof (now_recorded hist _ _ _ Rc Dn) as H1.
  assert (Un : unfailing [ClockRead start]) by (repeat constructor).
  apply bind_inv in X. destruct X as [(e & L & E)|(s & w2 & e3 & e4 & L & X & _)].
  { destruct (poll_loop_recorded _ _ _ _ _ _ _ _ _ _ _ _ Rc Rl L) as (l & Hl & Fl).
    subst r. exists ([ClockRead start] ++ l). split.
    - rewrite Hl, H1, <- app_assoc. reflexivity.
    - apply failure_last_app; [exact Un|]. eapply failure_last_raise; exact Fl. }
  destruct (poll_loop_recorded _ _ _ _ _ _ _ _ _ _ _ _ Rc Rl L) as (l & Hl & Fl).
  apply failure_last_ok in Fl.
  assert (St : still (match exit_branch s with
                      | BrTimeLimit => raise (TimeLimitedOperationException lim_min)
                      | BrFailedTest => raise FailedOperationProvidedTest
                      | BrSuccess =>
                          debug_print dbg "succeeded, returning result" ;;
                          match res s with
                          | Some r => @ret W _ r
                          | None => raise (UnboundLocalError "res")
                          end
                      end)).
  { destruct (exit_branch s); try apply still_raise.
    apply still_bind; [apply still_debug_print|intros _].
    destruct (res s); [apply still_ret|apply still_raise]. }
  apply St in X. subst w'.
  exists ([ClockRead start] ++ l). split.
  - rewrite Hl, H1, <- app_assoc. reflexivity.
  - left. apply Forall_app. auto.
Qed.

Lemma locate_recorded dbg fuel name domain (w : W) r w' evs :
  records_clock hist -> records_listing hist ->
  _locate_instance dbg fuel name domain w = Some (r, w', evs) ->
  exists l, hist w' = hist w ++ l /\ failure_last l r.
Proof.
  intros Rc Rl. unfold _locate_instance. intros X.
  apply bind_inv in X. destruct X as [(e & F & E)|(matching & w1 & e1 & e2 & F & X & _)].
  { destruct (vs_lookup_recorded _ _ _ _ _ _ _ Rl F) as (a & H1 & Fl & _).
    subst r. exists [a]. split; [exact H1|]. eapply failure_last_raise; exact Fl. }
  destruct (vs_lookup_recorded _ _ _ _ _ _ _ Rl F) as (a & H1 & _ & Ua).
  specialize (Ua _ eq_refl).
  assert (U1 : unfailing [a]) by (repeat constructor; exact Ua).
  destruct (negb (list_truthy matching)).
  { inversion X; subst. exists [a]. split; [exact H1|left; exact U1]. }
  destruct (List.length matching =? 1)%nat.
  2:{ inversion X; subst. exists [a]. split; [exact H1|left; exact U1]. }
  apply bind_inv in X. destruct X as [(e & P & E)|(found & w2 & e3 & e4 & P & X & _)].
  { destruct (poll_recorded _ _ _ _ _ _ _ _ _ _ Rc Rl P) as (l & Hl & Fl).
    subst r. exists ([a] ++ l). split.
    - rewrite Hl, H1, <- app_assoc. reflexivity.
    - apply failure_last_app; [exact U1|]. eapply failure_last_raise; exact Fl. }
  destruct (poll_recorded _ _ _ _ _ _ _ _ _ _ Rc Rl P) as (l & Hl & Fl).
  apply failure_last_ok in Fl.
  assert (St : still (match found with
                      | [] => raise IndexError
                      | provisioned :: _ =>
                          if guest_truthy provisioned then
                            debug_print dbg "queried provisioned box: {}" ;;
                            fqdn <- getitem (vg_fullyQualifiedDomainName provisioned)
                                      "fullyQualifiedDomainName" ;;
                            ip <- getitem (vg_primaryIpAddress provisioned)
                                    "primaryIpAddress" ;;
                            pw <- root_pass dbg name (OfGuest provisioned) ;;
                            id <- getitem (vg_id provisioned) "id" ;;
                            @ret W _ (Some {| inst_fqdn := fqdn; inst_ip := ip;
                                              inst_root_password := pw; inst_id := id |})
                          else raise (FailedToLocate name)
                      end)).
  { destruct found as [|g rest]; [apply still_raise|].
    destruct (guest_truthy g); [|apply still_raise].
    apply still_bind; [apply still_debug_print|intros _].
    apply still_bind; [apply still_getitem|intros fqdn].
    apply still_bind; [apply still_getitem|intros ip].
    apply still_bind; [apply still_root_pass|intros pw].
    apply still_bind; [apply still_getitem|intros id].
    apply still_ret. }
  apply St in X. subst w'.
  exists ([a] ++ l). split.
  - rewrite Hl, H1, <- app_assoc. reflexivity.
  - left. apply Forall_app. auto.
Qed.

Lemma extends_still {A} (m : M W A) : still m -> extends hist m.
Proof.
  intros St w r w' evs X. apply St in X. subst. exists []. rewrite app_nil_r. reflexivity.
Qed.

Lemma extends_vs_lookup dbg name domain :
  records_listing hist -> extends hist (vs_lookup dbg name domain).
Proof.
  intros Rl w r w' evs X.
  destruct (vs_lookup_recorded _ _ _ _ _ _ _ Rl X) as (a & Ha & _). eauto.
Qed.

(** X6: a provider error raised by a listing call of the Locator, the
    first lookup or any attempt of the poll, is not retried.  In the
    record the world keeps of its clock and of its listing call, a
    failed listing of a run of the Locator is the last answer the run
    asked for, and the run ended with that error; and an attempt of the
    poll that finds the listing failing ends the poll there, with that
    error. *)
Theorem locate_poll_error_is_not_retried dbg name domain :
  (forall fuel (w : W) r w' evs,
      records_clock hist -> records_listing hist ->
      _locate_instance dbg fuel name domain w = Some (r, w', evs) ->
      forall pre msg post,
        hist w' = hist w ++ pre ++ ListingFailed msg :: post ->
        post = [] /\ r = Raise (CollaboratorError msg)) /\
  (forall fuel start s (w : W) now w1 msg w2,
      test s || limit_reached s = false ->
      datetime_now w = (now, w1) ->
      getVirtualGuests w1 = (inl msg, w2) ->
      until_loop dbg (S fuel) list_truthy (Some (root_pass_test dbg name)) 5 "VM lookup"
        (vs_lookup dbg name domain) start s w
      = Some (Raise (CollaboratorError msg), w2,
              [EvNow]
              ++ debug_line dbg "Attempting lookup of instance with name: {}; ..."
              ++ [EvGetVirtualGuests])).
Proof.
  split.
  - intros fuel w r w' evs Rc Rl X pre msg post Hh.
    destruct (locate_recorded _ _ _ _ _ _ _ _ Rc Rl X) as (l & Hl & Fl).
    rewrite Hl in Hh. apply app_inv_head in Hh. subst l.
    destruct Fl as [U|(pre' & msg' & E & Up & ->)].
    + exfalso. apply Forall_app in U. destruct U as [_ U].
      inversion U; subst. discriminate.
    + destruct post as [|x post _] using rev_ind.
      * apply app_inj_tail in E. destruct E as [_ E]. inversion E. auto.
      * exfalso. rewrite app_comm_cons, app_assoc in E.
        apply app_inj_tail in E. destruct E as [E _]. subst pre'.
        apply Forall_app in Up. destruct Up as [_ Up].
        inversion Up; subst. discriminate.
  - intros fuel start s w now w1 msg w2 C N G.
    apply (until_loop_fn_raises dbg fuel list_truthy (Some (root_pass_test dbg name))
             5 "VM lookup" (vs_lookup dbg name domain) start s w now w1
             (CollaboratorError msg) w2 _ C N).
    unfold vs_lookup, bind, call. rewrite debug_print_run, G. reflexivity.
Qed.
End LocatorRecord.

(** ** Splitting on whitespace: key comments and report fields *)

Section Fields.

Lemma append_nil_r (s : string) : (s ++ "")%string = s.
Proof. induction s as [|c s IH]; simpl; [|rewrite IH]; reflexivity. Qed.

Lemma append_assoc (a b c : string) : ((a ++ b) ++ c)%string = (a ++ (b ++ c))%string.
Proof. induction a as [|x a IH]; simpl; [|rewrite IH]; reflexivity. Qed.

(** Reading a run of non-whitespace characters extends the current
    field. *)
Lemma split_from_token (c rest : string) cur :
  no_space c -> c <> "" ->
  split_from (c ++ rest) cur = split_from rest (Some (get_or cur "" ++ c)%string).
Proof.
  revert cur. induction c as [|a c IH]; intros cur Ns Ne; [congruence|].
  destruct Ns as [Na Ns]. simpl. rewrite Na.
  destruct c as [|b c'].
  - reflexivity.
  - rewrite IH by (auto; discriminate). cbn [get_or].
    rewrite append_assoc. reflexivity.
Qed.

(** Trailing whitespace closes the current field and adds none. *)
Lemma split_from_blank (ws : string) cur :
  all_space ws ->
  split_from ws cur = match cur with Some t => [t] | None => [] end.
Proof.
  revert cur. induction ws as [|a ws IH]; intros cur As; [reflexivity|].
  destruct As as [Sa As]. simpl. rewrite Sa.
  destruct cur as [t|]; rewrite (IH None As); reflexivity.
Qed.

Lemma split_field_then_space (a rest : string) sp :
  field a -> is_space sp = true ->
  split_from (a ++ String sp rest) None = a :: split_from rest None.
Proof.
  intros [Ne Ns] Sp. rewrite split_from_token by assumption.
  simpl. rewrite Sp. reflexivity.
Qed.

Lemma split_last_field (a ws : string) :
  field a -> all_space ws -> split_from (a ++ ws) None = [a].
Proof.
  intros [Ne Ns] As. rewrite split_from_token by assumption.
  rewrite split_from_blank by assumption. reflexivity.
Qed.



Lemma no_space_uint (d : Decimal.uint) : no_space (NilEmpty.string_of_uint d).
Proof. induction d; simpl; auto. Qed.

Lemma field_str_int (z : Z) : field (str_int z).
Proof.
  unfold str_int, NilZero.string_of_int.
  assert (U : forall d, field (NilZero.string_of_uint d)).
  { intros d. unfold NilZero.string_of_uint. destruct d;
      try (split; [discriminate|]; simpl; split; [reflexivity|apply no_space_uint]).
    split; [discriminate|simpl; auto]. }
  destruct (Z.to_int z) as [d|d].
  - apply U.
  - split; [discriminate|]. simpl. split; [reflexivity|apply U].
Qed.

(** X9: when the name, the address and (if shown) the password are
    non-empty and free of whitespace, the report splits on whitespace
    into exactly four fields: fqdn, address, password or [XXXXX], and the
    decimal ID.  Without --show_root_pass the third field is [XXXXX]
    whatever the password. *)
Theorem report_has_four_fields (i : Instance) (show : bool) :
  field (inst_fqdn i) -> field (inst_ip i) ->
  (show = true -> field (str_opt (inst_root_password i))) ->
  exists line,
    _report_instance (Some i) show = Ok line /\
    split line =
    [inst_fqdn i; inst_ip i;
     if show then str_opt (inst_root_password i) else "XXXXX";
     str_int (inst_id i)].
Proof.
  intros Ff Fi Fp. eexists. split; [reflexivity|].
  set (pw := if show then str_opt (inst_root_password i) else "XXXXX").
  assert (Fw : field pw).
  { unfold pw. destruct show; [auto|]. split; [discriminate|]. simpl. tauto. }
  change (split_from
            (inst_fqdn i ++ String " " (inst_ip i ++ String " " (pw ++ String " "
               (str_int (inst_id i)))))%string None
          = [inst_fqdn i; inst_ip i; pw; str_int (inst_id i)]).
  rewrite (split_field_then_space _ _ " "%char Ff eq_refl).
  rewrite (split_field_then_space _ _ " "%char Fi eq_refl).
  rewrite (split_field_then_space _ _ " "%char Fw eq_refl).
  rewrite <- (append_nil_r (str_int (inst_id i))) at 1.
  rewrite (split_last_field _ "" (field_str_int _) I). reflexivity.
Qed.
End Fields.

(** ** The Key Provisioner: what it can and cannot do *)

Section KeyOutcomes.
Context {W : Type} `{Collaborators W}.

Lemma raises_key_by_label label : raises key_exn (@key_by_label W _ label).
Proof.
  unfold key_by_label.
  apply raises_bind; [apply raises_call; intros; exact I|intros keys].
  apply raises_bind.
  - destruct (keys_with_label keys label) as [found|e] eqn:K; simpl;
      [apply raises_ret|apply raises_raise].
    revert e K. induction keys as [|k keys IH]; simpl; intros e K; [discriminate|].
    destruct (key_label k); [|inversion K; exact I].
    destruct (keys_with_label keys label); [discriminate|].
    inversion K; subst. apply IH. reflexivity.
  - intros found. destruct found; [apply raises_raise; exact I|apply raises_ret].
Qed.

(** X10: the argument is not a file.  The Provisioner lists the keys once
    and returns the first one bearing the label; when none does it raises
    [IndexError], and a listed key without a label gives a [KeyError]. *)
Theorem key_label_lookup path (w : W) w1 keys w2 :
  path_exists path w = (false, w1) ->
  list_keys w1 = (inr keys, w2) ->
  _locate_or_add_pubkey path w =
  Some (match keys_with_label keys path with
        | Ok (k :: _) => Ok k
        | Ok [] => Raise IndexError
        | Raise e => Raise e
        end, w2, [EvPathExists path; EvListKeys]).
Proof.
  intros E L. unfold _locate_or_add_pubkey, key_by_label, bind, call_total, call.
  rewrite E, L.
  destruct (keys_with_label keys path) as [[|k rest]|e] eqn:K; simpl; try reflexivity.
  apply keys_with_label_labelled in K. inversion K; subst.
  unfold key_truthy.
  match goal with E : key_label _ = Some _ |- _ => rewrite E end.
  rewrite orb_true_r. reflexivity.
Qed.

Lemma raises_locate_or_add_pubkey path :
  raises key_exn (@_locate_or_add_pubkey W _ path).
Proof.
  unfold _locate_or_add_pubkey.
  apply raises_bind; [apply raises_call_total|intros is_file]. destruct is_file.
  - apply raises_bind; [apply raises_call; intros; exact I|intros key].
    apply raises_bind; [apply raises_key_by_label|intros sl_key].
    apply raises_bind; [apply raises_key_by_label|intros again].
    destruct (key_truthy again); [apply raises_raise; exact I|].
    apply raises_bind; [apply raises_call; intros; exact I|intros _].
    apply raises_key_by_label.
  - intros w e w' evs X.
    apply bind_inv in X. destruct X as [(e0 & B & E)|(sl_key & w2 & e1 & e2 & B & X & _)].
    + inversion E; subst. eapply raises_key_by_label; eauto.
    + rewrite (key_by_label_truthy _ _ _ _ _ B) in X. discriminate.
Qed.

Lemma locate_or_add_pubkey_unregistered path (w : W) r w' evs :
  _locate_or_add_pubkey path w = Some (r, w', evs) -> filter is_add_key evs = [].
Proof.
  intros X. destruct (path_exists path w) as [[|] w1] eqn:E.
  - eapply file_key_path_always_fails; eauto.
  - unfold _locate_or_add_pubkey in X.
    unfold bind at 1 in X. unfold call_total at 1 in X. rewrite E in X.
    destruct (bind _ _ w1) as [[[r1 w1'] evs1]|] eqn:B; [|discriminate].
    assert (Hr : evs = [EvPathExists path] ++ evs1) by (destruct r1; inversion X; auto).
    subst evs. simpl. apply Forall_filter_nil.
    revert B.
    match goal with |- ?m w1 = _ -> _ =>
      assert (R : emits (fun ev => is_add_key ev = false) m) end.
    { apply emits_bind; [apply emits_key_by_label; reflexivity|intros sl_key].
      destruct (key_truthy sl_key); auto with emits. }
    intros B. eapply R; eauto.
Qed.

(** X11: no run of the Provisioner registers a key, whatever the argument
    and the account hold, and its failures are a provider or file error,
    [IndexError], [KeyError] or the 'already exists' exception: the
    'was not found in SL configured keys' exception is never raised. *)
Theorem key_provisioner_never_registers path (w : W) r w' evs :
  _locate_or_add_pubkey path w = Some (r, w', evs) ->
  filter is_add_key evs = [] /\ (forall e, r = Raise e -> key_exn e).
Proof.
  intros X. split; [eapply locate_or_add_pubkey_unregistered; eauto|].
  intros e ->. eapply raises_locate_or_add_pubkey; eauto.
Qed.
End KeyOutcomes.

(** ** The Orchestrator: which calls a run can make *)

Section OrchestratorEvents.
Context {W : Type} `{Collaborators W}.
Variable P : Event -> Prop.
Hypothesis local : forall ev, local_event ev = true -> P ev.

Lemma emits_local_locate dbg fuel name domain :
  emits P (@_locate_instance W _ dbg fuel name domain).
Proof. apply emits_locate_instance; intros; apply local; reflexivity. Qed.

Lemma emits_local_key_by_label label : emits P (@key_by_label W _ label).
Proof. apply emits_key_by_label. apply local. reflexivity. Qed.

Lemma emits_any_locate_or_add_pubkey path :
  (forall key label, P (EvAddKey key label)) ->
  emits P (@_locate_or_add_pubkey W _ path).
Proof.
  intros HA. unfold _locate_or_add_pubkey.
  apply emits_bind; [apply emits_call_total; apply local; reflexivity|intros is_file].
  destruct is_file.
  - apply emits_bind; [apply emits_call; apply local; reflexivity|intros key].
    apply emits_bind; [apply emits_local_key_by_label|intros sl_key].
    apply emits_bind; [apply emits_local_key_by_label|intros again].
    destruct (key_truthy again); [apply emits_raise|].
    apply emits_bind; [apply emits_call; apply HA|intros _].
    apply emits_local_key_by_label.
  - apply emits_bind; [apply emits_local_key_by_label|intros sl_key].
    destruct (key_truthy sl_key); auto with emits.
Qed.

Lemma emits_any_resolve_key dbg args :
  (forall key label, P (EvAddKey key label)) ->
  emits P (@resolve_key W _ dbg args).
Proof.
  intros HA. unfold resolve_key.
  destruct (str_truthy (ssh_pub_key args)); [|apply emits_ret].
  apply emits_bind; [apply emits_attempt, emits_any_locate_or_add_pubkey, HA|intros r].
  destruct r; [|apply emits_ret].
  apply emits_bind; [apply emits_debug_print; apply local; reflexivity|intros _].
  apply emits_raise.
Qed.

Lemma emits_any_ssh_connect dbg instance :
  (forall ip pw, P (EvSshConnect ip pw)) ->
  emits P (@ssh_connect W _ dbg instance).
Proof.
  intros HS. unfold ssh_connect.
  apply emits_bind.
  - apply emits_attempt.
    apply emits_bind; [apply emits_debug_print; apply local; reflexivity|intros _].
    destruct instance; [apply emits_call; apply HS|apply emits_raise].
  - intros r. destruct r; [|apply emits_ret].
    apply emits_bind.
    + destruct dbg; [destruct instance; apply emits_raise|apply emits_ret].
    + intros _. apply emits_bind; [apply emits_emit; apply local; reflexivity|intros _].
      apply emits_ret.
Qed.

Lemma emits_any_ssh_with_retry dbg fuel instance fn lim :
  emits P (ssh_connect dbg instance) -> emits P fn ->
  emits P (@_ssh_with_retry W _ dbg fuel instance fn lim).
Proof.
  intros Hc Hfn. unfold _ssh_with_retry, until_with_lim.
  apply emits_bind; [|intros _; exact Hfn].
  apply emits_until_with_lim_test; try (intros; apply local; reflexivity).
  - exact Hc.
  - discriminate.
Qed.

Lemma emits_any_configure dbg fuel args vs :
  (forall ip pw, P (EvSshConnect ip pw)) ->
  (forall ev, is_remote_action ev = true -> P ev) ->
  emits P (@configure W _ dbg fuel args vs).
Proof.
  intros HS HR. pose proof (emits_any_ssh_connect dbg vs HS) as Hc. unfold configure.
  apply emits_bind.
  - destruct (str_truthy (seed_dir args)); [|apply emits_ret].
    apply emits_any_ssh_with_retry; [exact Hc|]. unfold _upload_salt_seed.
    apply emits_bind; [apply emits_call; apply HR; reflexivity|intros _].
    apply emits_bind; [apply emits_call; apply HR; reflexivity|intros _].
    apply emits_debug_print; apply local; reflexivity.
  - intros _. apply emits_bind.
    + apply emits_any_ssh_with_retry; [exact Hc|]. unfold _install_saltmaster_in_docker.
      apply emits_bind; [apply emits_debug_print; apply local; reflexivity|intros _].
      apply emits_bind;
        [destruct dbg; [apply emits_call; apply HR; reflexivity|apply emits_ret]|intros _].
      apply emits_bind; [apply emits_debug_print; apply local; reflexivity|intros _].
      destruct dbg; [apply emits_call; apply HR; reflexivity|apply emits_ret].
    + intros _. destruct (add_sl_cli args); [|apply emits_ret].
      apply emits_any_ssh_with_retry; [exact Hc|]. unfold _add_sl_cli.
      apply emits_bind; [apply emits_call; apply HR; reflexivity|intros _].
      apply emits_raise.
Qed.

(** Without debug output, seed directory and CLI option, the remote steps
    amount to waiting for an SSH connection. *)
Lemma emits_plain_configure fuel args vs :
  (forall ip pw, P (EvSshConnect ip pw)) ->
  str_truthy (seed_dir args) = false -> add_sl_cli args = false ->
  emits P (@configure W _ false fuel args vs).
Proof.
  intros HS Sd Cli. pose proof (emits_any_ssh_connect false vs HS) as Hc.
  unfold configure. rewrite Sd, Cli.
  apply emits_bind; [apply emits_ret|intros _].
  apply emits_bind; [|intros _; apply emits_ret].
  apply emits_any_ssh_with_retry; [exact Hc|]. unfold _install_saltmaster_in_docker.
  cbn [debug_print].
  repeat (apply emits_bind; [apply emits_ret|intros _]). apply emits_ret.
Qed.

Lemma emits_any_main fuel args :
  (forall key label, P (EvAddKey key label)) ->
  (forall vm, P (EvCreateObject vm)) ->
  (forall id, P (EvCancelInstance id)) ->
  (forall vs, emits P (configure (debug args) fuel args vs)) ->
  emits P (@main W _ fuel args).
Proof.
  intros HA HC HK Hconf. unfold main, main_with.
  assert (Hrep : forall vs code, emits P (@report_and_exit W args vs code)).
  { intros vs code. unfold report_and_exit.
    apply emits_bind; [apply emits_lift_res|intros line].
    apply emits_bind; [apply emits_emit; apply local; reflexivity|intros _].
    apply emits_raise. }
  assert (Hfail : forall ex vs, emits P (@on_failure W _ (debug args) args ex vs)).
  { intros ex vs. unfold on_failure.
    apply emits_bind; [apply emits_emit; apply local; reflexivity|intros _].
    destruct vs; [|apply emits_ret]. unfold _hose_instance.
    apply emits_bind; [apply emits_debug_print; apply local; reflexivity|intros _].
    apply emits_call. apply HK. }
  apply emits_bind; [apply emits_debug_print; apply local; reflexivity|intros _].
  apply emits_bind; [apply emits_local_locate|intros vs].
  destruct vs; [apply Hrep|].
  apply emits_bind; [apply emits_any_resolve_key; exact HA|intros ssh_key].
  apply emits_bind.
  { destruct ssh_key; [apply emits_getitem|apply emits_raise]. }
  intros id.
  apply emits_bind; [apply emits_debug_print; apply local; reflexivity|intros _].
  apply emits_bind; [|intros vs'; apply Hrep].
  unfold create_and_provision.
  apply emits_bind.
  - apply emits_attempt.
    apply emits_bind; [apply emits_call; apply HC|intros _]. apply emits_local_locate.
  - intros located. destruct located as [ex|vs].
    + apply emits_bind; [apply Hfail|intros _; apply emits_ret].
    + apply emits_bind; [apply emits_attempt, Hconf|intros configured].
      destruct configured as [ex|u]; [|apply emits_ret].
      apply emits_bind; [apply Hfail|intros _; apply emits_ret].
Qed.
End OrchestratorEvents.

Section PlainRun.
Context {W : Type} `{Collaborators W}.

(** X12: without --debug, --seed_dir and --add-sl-cli, no run of [main]
    executes a command or puts a file on the instance: both commands of
    the install step sit behind the debug flag. *)
Theorem plain_run_never_acts_on_instance fuel args (w : W) r w' evs :
  debug args = false ->
  str_truthy (seed_dir args) = false ->
  add_sl_cli args = false ->
  main fuel args w = Some (r, w', evs) ->
  filter is_remote_action evs = [].
Proof.
  intros D Sd Cli X. apply Forall_filter_nil.
  eapply (emits_any_main (fun ev => is_remote_action ev = false)); [| | | | |exact X].
  - intros ev L. destruct ev; try discriminate; reflexivity.
  - reflexivity.
  - reflexivity.
  - reflexivity.
  - intros vs. rewrite D. apply emits_plain_configure; auto.
    intros ev L. destruct ev; try discriminate; reflexivity.
Qed.
End PlainRun.

(** ** The Orchestrator: how a run ends *)

Section RunShape.
Context {W : Type} `{Collaborators W}.

Lemma locator_exn_caught e : locator_exn e -> caught e.
Proof. destruct e; simpl; intros L; try contradiction; reflexivity. Qed.

Lemma key_exn_caught e : key_exn e -> caught e.
Proof. destruct e; simpl; intros L; try contradiction; reflexivity. Qed.

Lemma caught_exit_status e : caught e -> exit_status (Raise e) = 1.
Proof. destruct e; intros C; try reflexivity; discriminate. Qed.

Lemma raises_my_locate dbg fuel args : raises caught (@my_locate W _ dbg fuel args).
Proof.
  eapply raises_weaken; [apply locator_exn_caught|apply raises_locate_instance].
Qed.

(** A failed connection attempt is turned into [False]; what escapes is
    the handler's own [NameError] or [TypeError]. *)
Lemma raises_ssh_connect dbg instance : raises caught (@ssh_connect W _ dbg instance).
Proof.
  unfold ssh_connect. apply raises_bind.
  - apply raises_attempt.
    apply raises_bind; [apply raises_debug_print|intros _].
    destruct instance.
    + apply raises_call. intros msg C. discriminate.
    + apply raises_raise. intros C. discriminate.
  - intros r. destruct r; [|apply raises_ret].
    apply raises_bind.
    + destruct dbg; [destruct instance; apply raises_raise; reflexivity|apply raises_ret].
    + intros _. apply raises_bind; [apply raises_emit|intros _; apply raises_ret].
Qed.

Lemma raises_ssh_with_retry dbg fuel instance fn lim :
  raises caught fn -> raises caught (@_ssh_with_retry W _ dbg fuel instance fn lim).
Proof.
  intros Hfn. unfold _ssh_with_retry, until_with_lim.
  apply raises_bind; [|intros _; exact Hfn].
  apply raises_until_with_lim_test; [reflexivity|apply raises_ssh_connect|discriminate].
Qed.

Lemma raises_configure dbg fuel args vs : raises caught (@configure W _ dbg fuel args vs).
Proof.
  unfold configure. apply raises_bind.
  - destruct (str_truthy (seed_dir args)); [|apply raises_ret].
    apply raises_ssh_with_retry. unfold _upload_salt_seed.
    apply raises_bind; [apply raises_call; reflexivity|intros _].
    apply raises_bind; [apply raises_call; reflexivity|intros _].
    apply raises_debug_print.
  - intros _. apply raises_bind.
    + apply raises_ssh_with_retry. unfold _install_saltmaster_in_docker.
      apply raises_bind; [apply raises_debug_print|intros _].
      apply raises_bind;
        [destruct dbg; [apply raises_call; reflexivity|apply raises_ret]|intros _].
      apply raises_bind; [apply raises_debug_print|intros _].
      destruct dbg; [apply raises_call; reflexivity|apply raises_ret].
    + intros _. destruct (add_sl_cli args); [|apply raises_ret].
      apply raises_ssh_with_retry. unfold _add_sl_cli.
      apply raises_bind; [apply raises_call; reflexivity|intros _].
      apply raises_raise. reflexivity.
Qed.

(** The key block either binds [ssh_key] or exits with code 1. *)
Lemma raises_resolve_key dbg args :
  raises (fun e => e = SystemExit 1) (@resolve_key W _ dbg args).
Proof.
  unfold resolve_key. destruct (str_truthy (ssh_pub_key args)); [|apply raises_ret].
  apply raises_bind.
  - apply raises_attempt. eapply raises_weaken; [|apply raises_locate_or_add_pubkey].
    intros e K C. apply key_exn_caught in K. unfold caught in K. congruence.
  - intros r. destruct r; [|apply raises_ret].
    apply raises_bind; [apply raises_debug_print|intros _].
    apply raises_raise. reflexivity.
Qed.

Lemma steady_local ev : local_event ev = true -> steady ev.
Proof. destruct ev; try discriminate; split; reflexivity. Qed.

Lemma steady_filters evs :
  Forall steady evs -> filter is_create evs = [] /\ filter is_cancel evs = [].
Proof.
  intros F. split; apply Forall_filter_nil; eapply Forall_impl; try exact F;
    intros ev [C K]; assumption.
Qed.

Lemma steady_my_locate dbg fuel args : emits steady (@my_locate W _ dbg fuel args).
Proof. apply emits_local_locate. exact steady_local. Qed.

Lemma steady_configure dbg fuel args vs : emits steady (@configure W _ dbg fuel args vs).
Proof.
  apply emits_any_configure; [exact steady_local|split; reflexivity|].
  intros ev R. destruct ev; try discriminate; split; reflexivity.
Qed.

Lemma steady_resolve_key dbg args : emits steady (@resolve_key W _ dbg args).
Proof. apply emits_any_resolve_key; [exact steady_local|split; reflexivity]. Qed.

(** The [try] statement starts with the create call, makes no other, and
    makes at most one cancel call; what escapes it is an [Exception]
    (raised by the cancel call itself). *)
Lemma create_and_provision_shape dbg fuel args my_vm (w : W) r w' evs :
  create_and_provision dbg fuel args my_vm w = Some (r, w', evs) ->
  exists post,
    evs = EvCreateObject my_vm :: post /\
    filter is_create post = [] /\
    (List.length (filter is_cancel post) <= 1)%nat /\
    (forall e, r = Raise e -> caught e).
Proof.
  unfold create_and_provision. intros X.
  assert (Hm : forall r1 w1 e1,
             (call (createObject my_vm) (EvCreateObject my_vm) ;;
              my_locate dbg fuel args) w = Some (r1, w1, e1) ->
             (exists rest, e1 = EvCreateObject my_vm :: rest /\ Forall steady rest) /\
             (forall e, r1 = Raise e -> caught e)).
  { intros r1 w1 e1 B. apply bind_inv in B.
    destruct B as [(e0 & B & ->)|(u & w2 & e2 & e3 & B & B2 & ->)].
    - unfold call in B. destruct (createObject my_vm w) as [[msg|u] w2];
        inversion B; subst. split; [exists []; auto|].
      intros e E. inversion E; subst. reflexivity.
    - unfold call in B. destruct (createObject my_vm w) as [[msg|u'] w2'];
        inversion B; subst. split.
      + exists e3. split; [reflexivity|]. eapply steady_my_locate; eauto.
      + intros e ->. eapply raises_my_locate; eauto. }
  assert (Hf : forall ex vs w1 r1 w2 e1,
             on_failure dbg args ex vs w1 = Some (r1, w2, e1) ->
             filter is_create e1 = [] /\
             (List.length (filter is_cancel e1) <= 1)%nat /\
             (forall e, r1 = Raise e -> caught e)).
  { intros ex vs w1 r1 w2 e1. unfold on_failure, _hose_instance, bind, emit, call.
    destruct vs as [i|].
    - rewrite debug_print_run.
      destruct (cancel_instance (inst_id i) w1) as [[msg|u] w3]; intros B;
        inversion B; subst; cbn [filter is_create is_cancel app];
        rewrite ?filter_app, ?filter_debug_line by reflexivity;
        simpl; (split; [reflexivity|split; [lia|]]); intros e E; inversion E; reflexivity.
    - intros B. inversion B; subst. simpl. split; [reflexivity|split; [lia|]].
      discriminate. }
  apply bind_inv in X.
  destruct X as [(e0 & A & ->)|(located & w1 & e1 & e2 & A & X & ->)].
  - apply attempt_inv in A. destruct A as [(a & _ & E)|(e1 & A & E)]; [discriminate|].
    destruct (Hm _ _ _ A) as [_ C]. specialize (C e1 eq_refl). unfold caught in C.
    rewrite C in E. discriminate.
  - assert (S1 : exists rest, e1 = EvCreateObject my_vm :: rest /\ Forall steady rest).
    { apply attempt_inv in A. destruct A as [(a & A & _)|(e0 & A & _)];
        apply Hm in A; apply A. }
    destruct S1 as (rest & -> & St). destruct (steady_filters _ St) as [Fc Fk].
    destruct located as [ex|vs].
    + apply bind_inv in X.
      destruct X as [(e0 & B & ->)|(u & w2 & e3 & e4 & B & X & ->)];
        apply Hf in B; destruct B as (Bc & Bk & Be).
      * exists (rest ++ e2). split; [reflexivity|].
        rewrite !filter_app, Fc, Fk, Bc. simpl.
        split; [reflexivity|split; [exact Bk|]].
        intros e E. inversion E; subst. apply Be. reflexivity.
      * inversion X; subst. exists (rest ++ e3 ++ []). split; [reflexivity|].
        rewrite !filter_app, Fc, Fk, Bc. simpl. rewrite app_nil_r.
        split; [reflexivity|split; [exact Bk|discriminate]].
    + apply bind_inv in X.
      destruct X as [(e0 & A2 & ->)|(configured & w2 & e3 & e4 & A2 & X & ->)].
      * apply attempt_inv in A2. destruct A2 as [(a & _ & E)|(e1 & A2 & E)]; [discriminate|].
        pose proof (raises_configure _ _ _ _ _ _ _ _ A2) as C. unfold caught in C.
        rewrite C in E. discriminate.
      * assert (S3 : Forall steady e3).
        { apply attempt_inv in A2. destruct A2 as [(a & A2 & _)|(e0 & A2 & _)];
            eapply steady_configure; eauto. }
        destruct (steady_filters _ S3) as [Gc Gk].
        destruct configured as [ex|u].
        -- apply bind_inv in X.
           destruct X as [(e0 & B & ->)|(u & w3 & e5 & e6 & B & X & ->)];
             apply Hf in B; destruct B as (Bc & Bk & Be).
           ++ exists (rest ++ e3 ++ e4). split; [reflexivity|].
              rewrite !filter_app, Fc, Fk, Gc, Gk, Bc. simpl.
              split; [reflexivity|split; [exact Bk|]].
        intros e E. inversion E; subst. apply Be. reflexivity.
           ++ inversion X; subst. exists (rest ++ e3 ++ e5 ++ []). split; [reflexivity|].
              rewrite !filter_app, Fc, Fk, Gc, Gk, Bc. simpl. rewrite app_nil_r.
              split; [reflexivity|split; [exact Bk|discriminate]].
        -- inversion X; subst. exists (rest ++ e3 ++ []). split; [reflexivity|].
           rewrite !filter_app, Fc, Fk, Gc, Gk. simpl.
           split; [reflexivity|split; [lia|discriminate]].
Qed.

(** How a run of [main] can end: on the report of an existing instance;
    before any create call, with status 1; or after exactly one create
    call. *)
Lemma main_run_shape fuel args (w : W) r w' evs :
  main fuel args w = Some (r, w', evs) ->
  (r = Raise (SystemExit 0) /\
   exists pre line, evs = pre ++ [EvPrint line] /\ Forall steady pre) \/
  (exit_status r = 1 /\ (exists e, r = Raise e) /\ Forall steady evs) \/
  (exists pre vm post,
      evs = pre ++ EvCreateObject vm :: post /\ Forall steady pre /\
      filter is_create post = [] /\
      (List.length (filter is_cancel post) <= 1)%nat /\
      ((r = Raise (SystemExit 15) /\ exists post' line, post = post' ++ [EvPrint line])
       \/ (exit_status r = 1 /\ exists e, r = Raise e))).
Proof.
  unfold main, main_with. intros X.
  apply bind_inv in X. destruct X as [(e0 & D & _)|(u & w1 & e1 & e2 & D & X & ->)].
  { rewrite debug_print_run in D. discriminate. }
  rewrite debug_print_run in D. inversion D; subst w1 e1; clear D.
  assert (Sd : forall t, Forall steady (debug_line (debug args) t)).
  { intros t. destruct (debug args); repeat constructor. }
  apply bind_inv in X. destruct X as [(e0 & L & ->)|(vs & w2 & e3 & e4 & L & X & ->)].
  { right. left. split; [apply caught_exit_status; eapply raises_my_locate; eauto|].
    split; [eauto|]. apply Forall_app. split; [apply Sd|].
    eapply steady_my_locate; eauto. }
  pose proof (steady_my_locate _ _ _ _ _ _ _ L) as S3.
  destruct vs as [i|].
  - left. unfold report_and_exit, _report_instance, lift_res, bind, ret, emit,
      sys_exit, raise in X. inversion X; subst.
    split; [reflexivity|]. eexists (_ ++ e3), _.
    split; [rewrite <- app_assoc; reflexivity|].
    apply Forall_app. split; [apply Sd|exact S3].
  - apply bind_inv in X. destruct X as [(e0 & K & ->)|(ssh_key & w3 & e5 & e6 & K & X & ->)].
    { right. left. pose proof (raises_resolve_key _ _ _ _ _ _ K) as E.
      cbv beta in E. subst e0.
      split; [reflexivity|]. split; [eauto|].
      repeat (apply Forall_app; split); auto. eapply steady_resolve_key; eauto. }
    pose proof (steady_resolve_key _ _ _ _ _ _ K) as S5.
    apply bind_inv in X. destruct X as [(e0 & G & ->)|(id & w4 & e7 & e8 & G & X & ->)].
    { right. left.
      assert (E : exit_status (Raise e0) = 1 /\ e6 = []).
      { destruct ssh_key as [k|]; [destruct (key_id k)|]; inversion G; auto. }
      destruct E as [E ->]. split; [exact E|]. split; [eauto|].
      repeat (apply Forall_app; split); auto. }
    assert (E7 : e7 = []).
    { destruct ssh_key as [k|]; [destruct (key_id k)|]; inversion G; auto. }
    subst e7.
    apply bind_inv in X. destruct X as [(e0 & D & _)|(u' & w5 & e9 & e10 & D & X & ->)].
    { rewrite debug_print_run in D. discriminate. }
    rewrite debug_print_run in D. inversion D; subst w5 e9; clear D.
    right. right.
    set (pre := debug_line (debug args) "Enabling debug output" ++ e3 ++ e5 ++ []
                ++ debug_line (debug args) "creating new server w/ order detail: {}").
    assert (Sp : Forall steady pre).
    { unfold pre. repeat (apply Forall_app; split); auto. }
    apply bind_inv in X.
    destruct X as [(e0 & C & ->)|(vs' & w6 & e11 & e12 & C & X & ->)];
      apply create_and_provision_shape in C; destruct C as (post & -> & Pc & Pk & Pe).
    + exists pre. eexists _, post. split.
      { unfold pre. rewrite <- !app_assoc. reflexivity. }
      split; [exact Sp|]. split; [exact Pc|]. split; [exact Pk|]. right.
      split; [apply caught_exit_status; auto|eauto].
    + unfold report_and_exit, lift_res, bind, ret, emit, sys_exit, raise in X.
      destruct (_report_instance vs' (show_root_pass args)) as [line|e] eqn:Rp.
      * inversion X; subst. exists pre. eexists _, (post ++ [EvPrint line]). split.
        { unfold pre. rewrite <- !app_assoc. reflexivity. }
        split; [exact Sp|].
        rewrite !filter_app, Pc. simpl. rewrite app_nil_r.
        split; [reflexivity|]. split; [exact Pk|]. left. eauto.
      * inversion X; subst. exists pre. eexists _, post. split.
        { unfold pre. rewrite <- !app_assoc, app_nil_r. reflexivity. }
        split; [exact Sp|].
        split; [exact Pc|]. split; [exact Pk|]. right.
        destruct vs'; inversion Rp; subst. split; [reflexivity|eauto].
Qed.
End RunShape.

Section ExitStatus.
Context {W : Type} `{Collaborators W}.

Lemma filter_snoc_nil (p : Event -> bool) pre ev :
  filter p pre = [] -> p ev = false -> filter p (pre ++ [ev]) = [].
Proof. intros F E. rewrite filter_app, F. simpl. rewrite E. reflexivity. Qed.

(** X13: every run of [main] ends on an exception or [sys.exit], with exit
    status 0, 1 or 15.  Status 0 means an existing instance was reported
    and no create or cancel call was made; status 15 means exactly one
    create call was made and the report was printed last. *)
Theorem main_exit_status fuel args (w : W) r w' evs :
  main fuel args w = Some (r, w', evs) ->
  (exists e, r = Raise e) /\
  (exit_status r = 0 \/ exit_status r = 1 \/ exit_status r = 15) /\
  (exit_status r = 0 ->
   filter is_create evs = [] /\ filter is_cancel evs = [] /\
   exists pre line, evs = pre ++ [EvPrint line]) /\
  (exit_status r = 15 ->
   exists vm pre line,
     filter is_create evs = [EvCreateObject vm] /\ evs = pre ++ [EvPrint line]).
Proof.
  intros X. apply main_run_shape in X.
  destruct X as [(-> & pre & line & -> & Sp)
                |[(E1 & (e & ->) & Se)
                 |(pre & vm & post & -> & Sp & Pc & Pk & Hr)]].
  - destruct (steady_filters _ Sp) as [Fc Fk].
    split; [eauto|]. split; [left; reflexivity|]. split.
    + intros _. split; [apply filter_snoc_nil; auto|].
      split; [apply filter_snoc_nil; auto|eauto].
    + discriminate.
  - split; [eauto|]. split; [right; left; exact E1|].
    split; intros E; rewrite E in E1; discriminate.
  - destruct (steady_filters _ Sp) as [Fc Fk].
    destruct Hr as [(-> & post' & line & ->)|(E1 & e & ->)].
    + split; [eauto|]. split; [right; right; reflexivity|]. split; [discriminate|].
      intros _. exists vm, (pre ++ EvCreateObject vm :: post'), line.
      split.
      * rewrite filter_app, Fc. simpl. rewrite Pc. reflexivity.
      * rewrite <- app_assoc. reflexivity.
    + split; [eauto|]. split; [right; left; exact E1|].
      split; intros E; rewrite E in E1; discriminate.
Qed.

(** X14: a run of [main] makes at most one create call and at most one
    cancel call, and a cancel call only after the create call. *)
Theorem main_creates_and_cancels_at_most_once fuel args (w : W) r w' evs :
  main fuel args w = Some (r, w', evs) ->
  (List.length (filter is_create evs) <= 1)%nat /\
  (List.length (filter is_cancel evs) <= 1)%nat /\
  (filter is_cancel evs <> [] ->
   exists pre vm post,
     evs = pre ++ EvCreateObject vm :: post /\ filter is_cancel pre = []).
Proof.
  intros X. apply main_run_shape in X.
  destruct X as [(-> & pre & line & -> & Sp)
                |[(E1 & (e & ->) & Se)
                 |(pre & vm & post & -> & Sp & Pc & Pk & Hr)]].
  - destruct (steady_filters _ Sp) as [Fc Fk].
    rewrite (filter_snoc_nil is_create pre (EvPrint line) Fc eq_refl).
    rewrite (filter_snoc_nil is_cancel pre (EvPrint line) Fk eq_refl).
    simpl. split; [lia|split; [lia|congruence]].
  - destruct (steady_filters _ Se) as [Fc Fk]. rewrite Fc, Fk.
    simpl. split; [lia|split; [lia|congruence]].
  - destruct (steady_filters _ Sp) as [Fc Fk].
    rewrite !filter_app, Fc, Fk. simpl. rewrite Pc. simpl.
    split; [lia|split; [exact Pk|]]. intros _. exists pre, vm, post. auto.
Qed.

Lemma no_mutation evs :
  filter is_create evs = [] -> filter is_cancel evs = [] -> filter is_add_key evs = [] ->
  filter is_provider_mutation evs = [].
Proof.
  induction evs as [|ev evs IH]; simpl; [reflexivity|]. unfold is_provider_mutation.
  destruct (is_create ev); [discriminate|].
  destruct (is_cancel ev); [discriminate|].
  destruct (is_add_key ev); [discriminate|]. simpl. exact IH.
Qed.

(** Nothing was found and the Key Provisioner raised. *)
Lemma main_key_failure fuel args (w0 : W) w1 e1 ex w2 e2 :
  my_locate (debug args) fuel args w0 = Some (Ok None, w1, e1) ->
  str_truthy (ssh_pub_key args) = true ->
  _locate_or_add_pubkey (get_or (ssh_pub_key args) "") w1 = Some (Raise ex, w2, e2) ->
  let evs := debug_line (debug args) "Enabling debug output" ++ e1 ++ e2
             ++ debug_line (debug args) "Failed to use ssh_key. Original exception: {}" in
  main fuel args w0 = Some (Raise (SystemExit 1), w2, evs) /\
  filter is_provider_mutation evs = [].
Proof.
  intros L K F evs.
  assert (C : is_Exception ex = true).
  { apply key_exn_caught. eapply raises_locate_or_add_pubkey; eauto. }
  split.
  - unfold main, main_with.
    rewrite (bind_ok _ _ _ _ _ _ (debug_print_run _ _ w0)).
    rewrite (bind_ok _ _ _ _ _ _ L).
    assert (R : resolve_key (debug args) args w1 = Some (Raise (SystemExit 1), w2,
                  e2 ++ debug_line (debug args)
                          "Failed to use ssh_key. Original exception: {}")).
    { unfold resolve_key. rewrite K.
      assert (A : attempt (_locate_or_add_pubkey (get_or (ssh_pub_key args) "")) w1
                  = Some (Ok (inl ex), w2, e2)).
      { unfold attempt. rewrite F, C. reflexivity. }
      rewrite (bind_ok _ _ _ _ _ _ A).
      unfold bind, sys_exit, raise. rewrite debug_print_run.
      rewrite app_nil_r. reflexivity. }
    rewrite (bind_raise _ _ _ _ _ _ R). reflexivity.
  - unfold evs.
    pose proof (steady_my_locate _ _ _ _ _ _ _ L) as S1.
    destruct (steady_filters _ S1) as [Fc1 Fk1].
    assert (S2 : Forall steady e2).
    { eapply (emits_any_locate_or_add_pubkey steady steady_local); [|exact F].
      split; reflexivity. }
    destruct (steady_filters _ S2) as [Fc2 Fk2].
    apply no_mutation; rewrite !filter_app, ?filter_debug_line by reflexivity;
      rewrite ?Fc1, ?Fk1, ?Fc2, ?Fk2; try reflexivity.
    rewrite (locate_or_add_pubkey_unregistered _ _ _ _ _ F).
    rewrite (Forall_filter_nil is_add_key e1); [reflexivity|].
    eapply (emits_local_locate (fun ev => is_add_key ev = false)); [|exact L].
    intros ev Lc. destruct ev; try discriminate; reflexivity.
Qed.

(** X15: when nothing is found and the Key Provisioner fails, [main] exits
    with status 1 before any create call; no key is registered
    either. *)
Theorem key_failure_exits_before_create fuel args (w0 : W) w1 e1 ex w2 e2 :
  my_locate (debug args) fuel args w0 = Some (Ok None, w1, e1) ->
  str_truthy (ssh_pub_key args) = true ->
  _locate_or_add_pubkey (get_or (ssh_pub_key args) "") w1 = Some (Raise ex, w2, e2) ->
  exists evs,
    main fuel args w0 = Some (Raise (SystemExit 1), w2, evs) /\
    filter is_provider_mutation evs = [].
Proof.
  intros L K F. eexists. exact (main_key_failure fuel args w0 w1 e1 ex w2 e2 L K F).
Qed.

(** X16: when nothing is found and --ssh_pub_key names an existing file,
    every run of [main] exits with status 1 without creating anything:
    the file path of the Key Provisioner always raises. *)
Theorem key_file_run_exits_with_1 fuel args (w0 : W) w1 e1 path w1' r w' evs :
  my_locate (debug args) fuel args w0 = Some (Ok None, w1, e1) ->
  ssh_pub_key args = Some path -> path <> "" ->
  path_exists path w1 = (true, w1') ->
  main fuel args w0 = Some (r, w', evs) ->
  r = Raise (SystemExit 1) /\ filter is_provider_mutation evs = [].
Proof.
  intros L Kp Ne E X.
  assert (K : str_truthy (ssh_pub_key args) = true).
  { rewrite Kp. simpl. destruct (String.eqb_spec path ""); [contradiction|reflexivity]. }
  destruct (_locate_or_add_pubkey path w1) as [[[r1 w2] e2]|] eqn:F.
  - destruct (file_key_path_always_fails path w1 w1' r1 w2 e2 E F) as [[ex ->] _].
    assert (F' : _locate_or_add_pubkey (get_or (ssh_pub_key args) "") w1
                 = Some (Raise ex, w2, e2)) by (rewrite Kp; exact F).
    destruct (main_key_failure fuel args w0 w1 e1 ex w2 e2 L K F') as [Hm Hn].
    rewrite Hm in X. inversion X; subst. split; [reflexivity|exact Hn].
  - exfalso. unfold main, main_with in X.
    rewrite (bind_ok _ _ _ _ _ _ (debug_print_run _ _ w0)) in X.
    rewrite (bind_ok _ _ _ _ _ _ L) in X.
    unfold resolve_key in X. rewrite K, Kp in X. cbn [get_or] in X.
    unfold bind at 1 2 in X. unfold attempt in X. rewrite F in X. discriminate.
Qed.
End ExitStatus.

(** ** Remote configuration *)

Section RemoteSteps.
Context {W : Type} `{Collaborators W}.

(** Without a predicate, a true first result leaves through [break]. *)
Lemma until_first_call_breaks {R} dbg fuel truthy lim_min desc (fn : M W R)
    (w0 : W) t0 w1 t1 w2 r w3 e :
  datetime_now w0 = (t0, w1) ->
  datetime_now w1 = (t1, w2) ->
  fn w2 = Some (Ok r, w3, e) ->
  truthy r = true ->
  t1 - t0 <= limit_us lim_min ->
  until_with_lim dbg (S fuel) truthy lim_min desc fn w0 =
  Some (Ok r, w3,
        [EvNow] ++ [EvNow] ++ e ++ debug_line dbg "operation {} retried: {} times"
        ++ debug_line dbg "succeeded, returning result").
Proof.
  intros N0 N1 F T L. apply Z.ltb_ge in L.
  unfold until_with_lim, until_with_lim_test.
  unfold bind at 1. unfold call_total at 1. rewrite N0.
  unfold bind at 1. simpl until_loop.
  unfold bind at 1. unfold call_total at 1. rewrite N1.
  unfold bind at 1. rewrite F.
  unfold bind at 1. rewrite debug_print_run. rewrite T. cbn [ret].
  unfold exit_branch. cbn [limit_reached test negb res]. rewrite L.
  unfold bind. rewrite debug_print_run. cbn [ret].
  rewrite !app_nil_r, <- !app_assoc. reflexivity.
Qed.

(** X17: a connection attempt that fails is answered with [False] and
    retried when debug output is off; with --debug the handler's message
    names the undefined [ssh_lim_min], so the first failed attempt ends
    the wait with a [NameError] and the remote step is not run. *)
Theorem failed_connection_with_and_without_debug fuel i fn lim (w0 : W) t0 w1 t1 w2
    msg w3 :
  datetime_now w0 = (t0, w1) ->
  datetime_now w1 = (t1, w2) ->
  ssh_connect_to (inst_ip i) (inst_root_password i) w2 = (inl msg, w3) ->
  ssh_connect false (Some i) w2 =
    Some (Ok false, w3, [EvSshConnect (inst_ip i) (inst_root_password i); EvTraceback]) /\
  _ssh_with_retry true (S fuel) (Some i) fn lim w0 =
    Some (Raise (NameError "ssh_lim_min"), w3,
          [EvNow; EvNow; EvDebug "Attempting to SSH to instance: {}";
           EvSshConnect (inst_ip i) (inst_root_password i)]).
Proof.
  intros N0 N1 C. split.
  - unfold ssh_connect, attempt, bind, call, debug_print, ret, emit. rewrite C. reflexivity.
  - assert (F : ssh_connect true (Some i) w2 =
                Some (Raise (NameError "ssh_lim_min"), w3,
                      [EvDebug "Attempting to SSH to instance: {}";
                       EvSshConnect (inst_ip i) (inst_root_password i)])).
    { unfold ssh_connect, attempt, bind, call, debug_print, ret, emit, raise.
      rewrite C. reflexivity. }
    unfold _ssh_with_retry, until_with_lim.
    rewrite (bind_raise _ _ _ _ _ _
               (until_first_call_fn_raises true fuel (fun b : bool => b) None lim
                  "SSH connect" (ssh_connect true (Some i)) w0 t0 w1 t1 w2 _ w3 _
                  N0 N1 F)).
    reflexivity.
Qed.

(** X18: without --debug, --seed_dir and --add-sl-cli, the remote
    configuration of a reachable instance is a single SSH connection: when
    the first attempt connects (and the five minutes were not found
    exceeded), it succeeds having run no command. *)
Theorem plain_configure_is_one_connection fuel args i (w0 : W) t0 w1 t1 w2 w3 :
  str_truthy (seed_dir args) = false ->
  add_sl_cli args = false ->
  datetime_now w0 = (t0, w1) ->
  datetime_now w1 = (t1, w2) ->
  t1 - t0 <= limit_us 5 ->
  ssh_connect_to (inst_ip i) (inst_root_password i) w2 = (inr tt, w3) ->
  configure false (S fuel) args (Some i) w0 =
  Some (Ok tt, w3, [EvNow; EvNow; EvSshConnect (inst_ip i) (inst_root_password i)]).
Proof.
  intros Sd Cli N0 N1 L C.
  assert (F : ssh_connect false (Some i) w2 =
              Some (Ok true, w3, [EvSshConnect (inst_ip i) (inst_root_password i)])).
  { unfold ssh_connect, attempt, bind, call, debug_print, ret. rewrite C. reflexivity. }
  unfold configure. rewrite Sd, Cli.
  unfold bind at 1. cbn [ret].
  unfold _ssh_with_retry.
  unfold bind at 1. unfold bind at 1.
  rewrite (until_first_call_breaks false fuel (fun b : bool => b) 5 "SSH connect"
             (ssh_connect false (Some i)) w0 t0 w1 t1 w2 true w3 _ N0 N1 F eq_refl L).
  reflexivity.
Qed.

(** The last remote step always raises. *)
Lemma add_sl_cli_raises (w : W) r w' evs :
  _add_sl_cli w = Some (r, w', evs) -> exists e, r = Raise e.
Proof.
  unfold _add_sl_cli. intros X. apply bind_inv in X.
  destruct X as [(e & _ & ->)|(u & w1 & e1 & e2 & _ & X & _)]; [eauto|].
  inversion X; subst. eauto.
Qed.

Lemma configure_with_cli_raises dbg fuel args vs (w : W) r w' evs :
  add_sl_cli args = true ->
  configure dbg fuel args vs w = Some (r, w', evs) ->
  exists e, r = Raise e /\ caught e.
Proof.
  intros Cli X. destruct r as [u|e].
  - exfalso. unfold configure in X. rewrite Cli in X.
    apply bind_inv in X. destruct X as [(e & _ & X)|(u1 & w1 & e1 & e2 & _ & X & _)];
      [discriminate|].
    apply bind_inv in X. destruct X as [(e & _ & X)|(u2 & w2 & e3 & e4 & _ & X & _)];
      [discriminate|].
    unfold _ssh_with_retry in X.
    apply bind_inv in X. destruct X as [(e & _ & X)|(b & w3 & e5 & e6 & _ & X & _)];
      [discriminate|].
    apply add_sl_cli_raises in X. destruct X as [e X]. discriminate.
  - exists e. split; [reflexivity|]. eapply raises_configure; eauto.
Qed.

(** X19: with --add-sl-cli the remote configuration can never succeed: its
    last step reads the undefined name [debug] after copying the
    credential file, so every run that gets to locate the new instance
    cancels it. *)
Theorem add_sl_cli_run_is_rolled_back fuel args (w0 : W) w1 e1 key kid w2 e2 w3 inst
    w4 e4 r w' evs :
  add_sl_cli args = true ->
  my_locate (debug args) fuel args w0 = Some (Ok None, w1, e1) ->
  resolve_key (debug args) args w1 = Some (Ok (Some key), w2, e2) ->
  key_id key = Some kid ->
  createObject (_vm_template (saltmaster_vm_name args) (saltmaster_vm_domain args) [kid])
    w2 = (inr tt, w3) ->
  my_locate (debug args) fuel args w3 = Some (Ok (Some inst), w4, e4) ->
  main fuel args w0 = Some (r, w', evs) ->
  filter is_cancel evs = [EvCancelInstance (inst_id inst)] /\ exit_status r <> 0.
Proof.
  intros Cli L0 K Kid C L1 X.
  destruct (configure (debug args) fuel args (Some inst) w4) as [[[r5 w5] e5]|] eqn:F.
  - destruct (configure_with_cli_raises _ _ _ _ _ _ _ _ Cli F) as (ex & -> & Ex).
    destruct (main_configure_failure fuel args w0 w1 e1 key kid w2 e2 w3 inst w4 e4
                ex w5 e5 L0 K Kid C L1 F Ex) as (r' & w'' & evs' & Hm & Hc & _ & Hx).
    rewrite Hm in X. inversion X; subst. auto.
  - exfalso.
    pose proof (main_reaches_try fuel args w0 w1 e1 key kid w2 e2 L0 K Kid) as Hm.
    cbv zeta in Hm. rewrite X in Hm.
    unfold create_and_provision in Hm.
    assert (A1 : attempt (call (createObject (_vm_template (saltmaster_vm_name args)
                                               (saltmaster_vm_domain args) [kid]))
                               (EvCreateObject (_vm_template (saltmaster_vm_name args)
                                               (saltmaster_vm_domain args) [kid])) ;;
                          my_locate (debug args) fuel args) w2
                 = Some (Ok (inr (Some inst)), w4,
                         [EvCreateObject (_vm_template (saltmaster_vm_name args)
                                            (saltmaster_vm_domain args) [kid])] ++ e4)).
    { unfold attempt, bind, call. rewrite C, L1. reflexivity. }
    rewrite (bind_ok _ _ _ _ _ _ A1) in Hm.
    unfold bind at 1 in Hm. unfold attempt in Hm. rewrite F in Hm. discriminate.
Qed.
End RemoteSteps.

(** ** After the create call *)

Section AfterCreate.
Context {W : Type} `{Collaborators W}.

(** X20: nothing was found, the key was resolved, the create call was
    accepted, the new instance was located and the remote configuration
    returned: [main] prints the report of the new instance last and exits
    with status 15, having made that one create call and no cancel
    call. *)
Theorem created_instance_report fuel args (w0 : W) w1 e1 key kid w2 e2 w3 inst
    w4 e4 w5 e5 :
  let my_vm := _vm_template (saltmaster_vm_name args) (saltmaster_vm_domain args) [kid] in
  my_locate (debug args) fuel args w0 = Some (Ok None, w1, e1) ->
  resolve_key (debug args) args w1 = Some (Ok (Some key), w2, e2) ->
  key_id key = Some kid ->
  createObject my_vm w2 = (inr tt, w3) ->
  my_locate (debug args) fuel args w3 = Some (Ok (Some inst), w4, e4) ->
  configure (debug args) fuel args (Some inst) w4 = Some (Ok tt, w5, e5) ->
  exists pre line,
    _report_instance (Some inst) (show_root_pass args) = Ok line /\
    main fuel args w0 = Some (Raise (SystemExit 15), w5, pre ++ [EvPrint line]) /\
    filter is_create pre = [EvCreateObject my_vm] /\
    filter is_cancel pre = [].
Proof.
  intros my_vm L0 K Kid C L1 F.
  pose proof (main_reaches_try fuel args w0 w1 e1 key kid w2 e2 L0 K Kid) as Hm.
  cbv zeta in Hm. fold my_vm in Hm.
  assert (P : create_and_provision (debug args) fuel args my_vm w2
              = Some (Ok (Some inst), w5, [EvCreateObject my_vm] ++ e4 ++ e5)).
  { unfold create_and_provision.
    assert (A1 : attempt (call (createObject my_vm) (EvCreateObject my_vm) ;;
                          my_locate (debug args) fuel args) w2
                 = Some (Ok (inr (Some inst)), w4, [EvCreateObject my_vm] ++ e4)).
    { unfold attempt, bind, call. rewrite C, L1. reflexivity. }
    rewrite (bind_ok _ _ _ _ _ _ A1).
    assert (A2 : attempt (configure (debug args) fuel args (Some inst)) w4
                 = Some (Ok (inr tt), w5, e5)).
    { unfold attempt. rewrite F. reflexivity. }
    rewrite (bind_ok _ _ _ _ _ _ A2). cbn [ret].
    rewrite app_nil_r, <- app_assoc. reflexivity. }
  rewrite P in Hm. cbn [_report_instance] in Hm.
  eexists _, _. split; [reflexivity|]. split.
  - rewrite Hm. rewrite !app_assoc. reflexivity.
  - destruct (steady_filters _ (steady_my_locate _ _ _ _ _ _ _ L0)) as [Fc1 Fk1].
    destruct (steady_filters _ (steady_resolve_key _ _ _ _ _ _ K)) as [Fc2 Fk2].
    destruct (steady_filters _ (steady_my_locate _ _ _ _ _ _ _ L1)) as [Fc4 Fk4].
    destruct (steady_filters _ (steady_configure _ _ _ _ _ _ _ _ F)) as [Fc5 Fk5].
    split; rewrite !filter_app, ?filter_debug_line by reflexivity;
      rewrite ?Fc1, ?Fk1, ?Fc2, ?Fk2, ?Fc4, ?Fk4, ?Fc5, ?Fk5; reflexivity.
Qed.

(** Waiting for SSH on a missing instance: indexing [None] fails inside
    the [try], so no connection is ever attempted. *)
Lemma ssh_connect_none dbg (w : W) :
  ssh_connect dbg None w =
  if dbg then Some (Raise TypeError, w, [EvDebug "Attempting to SSH to instance: {}"])
  else Some (Ok false, w, [EvTraceback]).
Proof. destruct dbg; reflexivity. Qed.

Lemma ssh_with_retry_none dbg fuel fn lim (w : W) r w' evs :
  _ssh_with_retry dbg fuel None fn lim w = Some (r, w', evs) ->
  (r = Raise TypeError \/ r = Raise (TimeLimitedOperationException lim)) /\
  Forall (fun ev => local_event ev = true) evs.
Proof.
  unfold _ssh_with_retry, until_with_lim. intros X.
  assert (E : emits (fun ev => local_event ev = true)
                (until_with_lim_test dbg fuel (fun b : bool => b) None lim "SSH connect"
                   (@ssh_connect W _ dbg None))).
  { apply emits_until_with_lim_test; try reflexivity; [|discriminate].
    intros w1 r1 w1' evs1. rewrite ssh_connect_none.
    destruct dbg; intros Y; inversion Y; repeat constructor. }
  apply bind_inv in X. destruct X as [(e & U & ->)|(b & w1 & e1 & e2 & U & _ & _)].
  - split; [|eapply E; eauto].
    assert (Q : e = TypeError \/ e = TimeLimitedOperationException lim).
    { eapply (raises_until_with_lim_test
                (fun e => e = TypeError \/ e = TimeLimitedOperationException lim)
                dbg fuel (fun b : bool => b) None lim "SSH connect"
                (ssh_connect dbg None));
        [right; reflexivity| |intros ? ? Et; discriminate Et|exact U].
      intros w1 e1 w1' evs1. rewrite ssh_connect_none.
      destruct dbg; intros Y; inversion Y. left. reflexivity. }
    destruct Q as [-> | ->]; auto.
  - exfalso. apply until_returns_accepted_result in U.
    destruct U as (wa & wb & ea & Fa & Tb). rewrite ssh_connect_none in Fa.
    destruct dbg; inversion Fa; subst. discriminate.
Qed.

Lemma configure_none dbg fuel args (w : W) r w' evs :
  configure dbg fuel args None w = Some (r, w', evs) ->
  (r = Raise TypeError \/ r = Raise (TimeLimitedOperationException 5)) /\
  Forall (fun ev => local_event ev = true) evs.
Proof.
  unfold configure. intros X.
  apply bind_inv in X. destruct X as [(e & S1 & ->)|(u & w1 & e1 & e2 & S1 & X & ->)].
  - destruct (str_truthy (seed_dir args)); [|discriminate].
    apply ssh_with_retry_none in S1. exact S1.
  - assert (E1 : e1 = []).
    { destruct (str_truthy (seed_dir args)); [|inversion S1; reflexivity].
      apply ssh_with_retry_none in S1. destruct S1 as [[?|?] _]; discriminate. }
    subst e1. simpl.
    apply bind_inv in X. destruct X as [(e & S2 & ->)|(u' & w2 & e3 & e4 & S2 & _ & _)];
      apply ssh_with_retry_none in S2; [exact S2|].
    destruct S2 as [[?|?] _]; discriminate.
Qed.

(** X21: the create call was accepted but the provider does not list the
    new instance yet, so it is located as "not found".  The remote steps
    then wait on a missing instance: no SSH connection is attempted, no
    command is run, no cancel call is made, and [main] ends on the
    [TypeError] of reporting a missing instance, with status 1. *)
Theorem unlisted_instance_is_left_running fuel args (w0 : W) w1 e1 key kid w2 e2 w3
    w4 e4 r w' evs :
  my_locate (debug args) fuel args w0 = Some (Ok None, w1, e1) ->
  resolve_key (debug args) args w1 = Some (Ok (Some key), w2, e2) ->
  key_id key = Some kid ->
  createObject (_vm_template (saltmaster_vm_name args) (saltmaster_vm_domain args) [kid])
    w2 = (inr tt, w3) ->
  my_locate (debug args) fuel args w3 = Some (Ok None, w4, e4) ->
  main fuel args w0 = Some (r, w', evs) ->
  r = Raise TypeError /\ exit_status r = 1 /\
  filter is_cancel evs = [] /\
  filter is_ssh_connect evs = [] /\
  filter is_remote_action evs = [].
Proof.
  intros L0 K Kid C L1 X.
  set (my_vm := _vm_template (saltmaster_vm_name args) (saltmaster_vm_domain args) [kid])
    in *.
  pose proof (main_reaches_try fuel args w0 w1 e1 key kid w2 e2 L0 K Kid) as Hm.
  cbv zeta in Hm. fold my_vm in Hm. rewrite X in Hm.
  assert (A1 : attempt (call (createObject my_vm) (EvCreateObject my_vm) ;;
                        my_locate (debug args) fuel args) w2
               = Some (Ok (inr None), w4, [EvCreateObject my_vm] ++ e4)).
  { unfold attempt, bind, call. rewrite C, L1. reflexivity. }
  unfold create_and_provision in Hm. rewrite (bind_ok _ _ _ _ _ _ A1) in Hm.
  destruct (configure (debug args) fuel args None w4) as [[[r5 w5] e5]|] eqn:F.
  2: { unfold bind at 1 in Hm. unfold attempt in Hm. rewrite F in Hm. discriminate. }
  destruct (configure_none _ _ _ _ _ _ _ F) as [Hr S5].
  assert (A2 : exists ex, attempt (configure (debug args) fuel args None) w4
                          = Some (Ok (inl ex), w5, e5)).
  { unfold attempt. rewrite F. destruct Hr as [-> | ->]; eexists; reflexivity. }
  destruct A2 as [ex A2]. rewrite (bind_ok _ _ _ _ _ _ A2) in Hm.
  unfold on_failure, bind, emit, ret in Hm. cbn [_report_instance] in Hm.
  inversion Hm; subst. split; [reflexivity|]. split; [reflexivity|].
  set (P := fun ev => is_cancel ev = false /\ is_ssh_connect ev = false
                      /\ is_remote_action ev = false).
  assert (Pl : forall ev, local_event ev = true -> P ev).
  { intros ev Lc. destruct ev; try discriminate; repeat split. }
  assert (G : Forall P
                ((debug_line (debug args) "Enabling debug output" ++ e1 ++ e2
                  ++ debug_line (debug args) "creating new server w/ order detail: {}")
                 ++ EvCreateObject my_vm
                    :: e4 ++ e5 ++ [EvPrintFailed (saltmaster_vm_name args) ex])).
  { assert (G1 : Forall P e1) by (eapply (emits_local_locate P Pl); exact L0).
    assert (G2 : Forall P e2).
    { eapply (emits_any_resolve_key P Pl); [|exact K]. repeat split. }
    assert (G4 : Forall P e4) by (eapply (emits_local_locate P Pl); exact L1).
    assert (G5 : Forall P e5) by (eapply Forall_impl; [exact Pl|exact S5]).
    assert (Gd : forall t, Forall P (debug_line (debug args) t)).
    { intros t. destruct (debug args); repeat constructor. }
    apply Forall_app. split; [repeat (apply Forall_app; split); auto|].
    constructor; [repeat split|].
    repeat (apply Forall_app; split); auto; repeat constructor. }
  repeat split; apply Forall_filter_nil; (eapply Forall_impl; [|exact G]);
    unfold P; intros ev (Pk & Ps & Pr); assumption.
Qed.
End AfterCreate.

(** ** The name filter *)

Section Matching.
Context {W : Type} `{Collaborators W}.

(** For a non-empty name and domain neither the truth value of a record
    nor the defaults of [get] matter. *)
Lemma exact_matches_filter name domain vs_li :
  name <> "" -> domain <> "" ->
  exact_matches name domain vs_li = filter (carries name domain) vs_li.
Proof.
  intros Nn Nd. unfold exact_matches. apply filter_ext. intros g.
  unfold carries, guest_truthy.
  destruct (vg_hostname g) as [h|], (vg_domain g) as [d|]; cbn [get_or is_some].
  - rewrite !orb_true_r. reflexivity.
  - destruct (String.eqb_spec "" domain); [congruence|]. apply andb_false_r.
  - destruct (String.eqb_spec "" name); [congruence|].
    rewrite andb_false_r. reflexivity.
  - destruct (String.eqb_spec "" name); [congruence|].
    rewrite andb_false_r. reflexivity.
Qed.

(** X22: for a non-empty name and domain, [vs_lookup] makes one listing
    call and returns the listed records that have both the hostname and
    the domain as fields, equal to them character for character: all of
    them, each as often as it is listed, in the order of the listing, and
    nothing else.  For the empty name a record that has the domain and no
    hostname passes the filter as well. *)
Theorem exact_matches_are_exact dbg name domain (w : W) vs_li w1 :
  domain <> "" ->
  getVirtualGuests w = (inr vs_li, w1) ->
  (name <> "" ->
   vs_lookup dbg name domain w =
   Some (Ok (filter (carries name domain) vs_li), w1,
         debug_line dbg "Attempting lookup of instance with name: {}; ..."
         ++ [EvGetVirtualGuests])) /\
  (name = "" ->
   forall g, In g vs_li -> vg_hostname g = None -> vg_domain g = Some domain ->
   exists found w' evs,
     vs_lookup dbg name domain w = Some (Ok found, w', evs) /\ In g found).
Proof.
  intros Nd G. split.
  - intros Nn. rewrite (vs_lookup_run dbg name domain w vs_li w1 G).
    rewrite exact_matches_filter by assumption. reflexivity.
  - intros -> g Hin Hh Hd. do 3 eexists.
    split; [apply (vs_lookup_run dbg "" domain w vs_li w1 G)|].
    unfold exact_matches. apply filter_In. split; [exact Hin|].
    unfold guest_truthy. rewrite Hh, Hd. cbn [get_or is_some].
    rewrite !String.eqb_refl, !orb_true_r. reflexivity.
Qed.
End Matching.

(** * The further properties at concrete inputs *)

Section FurtherWitnesses.
Import Sim.

Lemma until_returns_accepted_result_witness :
  accepted list_truthy (Some (root_pass_test false "db1"))
    (vs_lookup false "db1" "example.com") [db1].
Proof.
  eapply (until_returns_accepted_result false 10 list_truthy
            (Some (root_pass_test false "db1")) 5 "VM lookup"
            (vs_lookup false "db1" "example.com") ready_on_third).
  vm_compute. reflexivity.
Defined.

Lemma locate_absent_is_not_an_error_witness :
  exists w1,
    _locate_instance false 0 "db1" "example.com" absent
      = Some (Ok None, w1, [EvGetVirtualGuests]).
Proof.
  eexists.
  eapply (locate_absent_is_not_an_error false 0 "db1" "example.com" absent []);
    vm_compute; reflexivity.
Defined.

Lemma locate_ready_at_first_poll_witness :
  exists w evs,
    _locate_instance false 2 "db1" "example.com" existing
      = Some (Ok (Some db1_instance), w, evs) /\
    filter is_timing evs = [EvNow; EvNow] /\
    filter is_listing evs = [EvGetVirtualGuests; EvGetVirtualGuests].
Proof.
  eexists.
  eapply (locate_ready_at_first_poll false 0 "db1" "example.com" existing
            [db1] _ db1 _ _ _ _ [db1] _ db1 [] "db1.example.com" "10.0.0.5" "p@ss" 4242);
    try (vm_compute; reflexivity).
  - vm_compute. discriminate.
  - repeat split; try reflexivity; try discriminate.
    do 3 eexists. repeat split; reflexivity.
Defined.

Lemma locate_several_root_credentials_witness :
  exists w evs,
    _locate_instance false 1 "db1" "example.com" two_roots
      = Some (Raise (MultipleRootPasswords "db1"), w, evs) /\
    filter is_timing evs = [EvNow; EvNow].
Proof.
  eexists.
  eapply (locate_several_root_credentials false 0 "db1" "example.com" two_roots
            [db1] _ db1 _ _ _ _ [db1_two_roots] _ db1_two_roots []);
    try (vm_compute; reflexivity).
  do 2 eexists. repeat split; reflexivity.
Defined.

Lemma locate_failures_witness :
  locator_exn (TimeLimitedOperationException 5) /\
  TimeLimitedOperationException 5 <> FailedToLocate "db1" /\
  TimeLimitedOperationException 5 <> IndexError.
Proof.
  eapply (locate_failures false 10 "db1" "example.com" never_root).
  vm_compute. reflexivity.
Defined.

Lemma report_has_four_fields_witness :
  exists line,
    _report_instance (Some db1_instance) false = Ok line /\
    split line = ["db1.example.com"; "10.0.0.5"; "XXXXX"; "4242"].
Proof.
  apply (report_has_four_fields db1_instance false).
  - split; [discriminate|]. simpl. tauto.
  - split; [discriminate|]. simpl. tauto.
  - discriminate.
Defined.

Lemma key_label_lookup_witness :
  _locate_or_add_pubkey "ops@laptop" absent
    = Some (Ok {| key_id := Some 77; key_label := Some "ops@laptop" |}, absent,
            [EvPathExists "ops@laptop"; EvListKeys]).
Proof.
  apply (key_label_lookup "ops@laptop" absent absent (keys absent) absent);
    vm_compute; reflexivity.
Defined.

Lemma key_provisioner_never_registers_witness :
  exists r w evs,
    _locate_or_add_pubkey "/home/me/id_rsa.pub" absent = Some (r, w, evs) /\
    filter is_add_key evs = [] /\ (forall e, r = Raise e -> key_exn e).
Proof.
  do 3 eexists. split; [vm_compute; reflexivity|].
  eapply (key_provisioner_never_registers "/home/me/id_rsa.pub" absent).
  vm_compute. reflexivity.
Defined.
End FurtherWitnesses.

Section OrchestratorWitnesses.
Import Sim.

Lemma plain_run_never_acts_on_instance_witness :
  exists r w evs,
    main 10 (args_for "db1" "example.com" (Some "ops@laptop")) created_ready
      = Some (r, w, evs) /\
    filter is_create evs <> [] /\
    filter is_remote_action evs = [].
Proof.
  do 3 eexists. split; [vm_compute; reflexivity|]. split; [vm_compute; discriminate|].
  eapply (plain_run_never_acts_on_instance 10
            (args_for "db1" "example.com" (Some "ops@laptop")) created_ready);
    vm_compute; reflexivity.
Defined.

Lemma main_exit_status_witness :
  exists r w evs,
    main 10 (args_for "db1" "example.com" None) existing = Some (r, w, evs) /\
    exit_status r = 0 /\
    filter is_create evs = [] /\ filter is_cancel evs = [].
Proof.
  do 3 eexists. split; [vm_compute; reflexivity|]. split; [reflexivity|].
  edestruct (main_exit_status 10 (args_for "db1" "example.com" None) existing)
    as (_ & _ & Z0 & _); [vm_compute; reflexivity|].
  destruct (Z0 eq_refl) as (Fc & Fk & _). split; assumption.
Defined.

Lemma main_creates_and_cancels_at_most_once_witness :
  exists r w evs,
    main 10 (args_for "db1" "example.com" (Some "ops@laptop")) created_unreachable
      = Some (r, w, evs) /\
    filter is_cancel evs = [EvCancelInstance 4242] /\
    (List.length (filter is_create evs) <= 1)%nat /\
    (List.length (filter is_cancel evs) <= 1)%nat.
Proof.
  do 3 eexists. split; [vm_compute; reflexivity|]. split; [reflexivity|].
  edestruct (main_creates_and_cancels_at_most_once 10
               (args_for "db1" "example.com" (Some "ops@laptop")) created_unreachable)
    as (Lc & Lk & _); [vm_compute; reflexivity|].
  split; assumption.
Defined.

Lemma key_failure_exits_before_create_witness :
  exists w evs,
    main 10 (args_for "db1" "example.com" (Some "no-such-label")) absent
      = Some (Raise (SystemExit 1), w, evs) /\
    filter is_provider_mutation evs = [].
Proof.
  eexists.
  eapply (key_failure_exits_before_create 10
            (args_for "db1" "example.com" (Some "no-such-label")) absent);
    vm_compute; reflexivity.
Defined.

Lemma key_file_run_exits_with_1_witness :
  exists r w evs,
    main 10 (args_for "db1" "example.com" (Some "/home/me/id_rsa.pub")) absent
      = Some (r, w, evs) /\
    r = Raise (SystemExit 1) /\ filter is_provider_mutation evs = [].
Proof.
  do 3 eexists. split; [vm_compute; reflexivity|].
  eapply (key_file_run_exits_with_1 10
            (args_for "db1" "example.com" (Some "/home/me/id_rsa.pub")) absent
            _ _ "/home/me/id_rsa.pub");
    try (vm_compute; reflexivity).
  discriminate.
Defined.

Lemma failed_connection_with_and_without_debug_witness :
  exists w3,
    ssh_connect false (Some db1_instance) created_unreachable
      = Some (Ok false, w3, [EvSshConnect "10.0.0.5" (Some "p@ss"); EvTraceback]) /\
    _ssh_with_retry true 1 (Some db1_instance) (ret tt) 5 created_unreachable
      = Some (Raise (NameError "ssh_lim_min"), w3,
              [EvNow; EvNow; EvDebug "Attempting to SSH to instance: {}";
               EvSshConnect "10.0.0.5" (Some "p@ss")]).
Proof.
  eexists.
  eapply (failed_connection_with_and_without_debug 0 db1_instance (ret tt) 5
            created_unreachable);
    vm_compute; reflexivity.
Defined.

Lemma plain_configure_is_one_connection_witness :
  exists w3,
    configure false 1 (args_for "db1" "example.com" None) (Some db1_instance) existing
      = Some (Ok tt, w3, [EvNow; EvNow; EvSshConnect "10.0.0.5" (Some "p@ss")]).
Proof.
  eexists.
  eapply (plain_configure_is_one_connection 0 (args_for "db1" "example.com" None)
            db1_instance existing);
    try (vm_compute; reflexivity).
  vm_compute. discriminate.
Defined.

Lemma add_sl_cli_run_is_rolled_back_witness :
  exists r w evs,
    main 10 args_with_cli created_ready = Some (r, w, evs) /\
    filter is_cancel evs = [EvCancelInstance 4242] /\ exit_status r <> 0.
Proof.
  do 3 eexists. split; [vm_compute; reflexivity|].
  eapply (add_sl_cli_run_is_rolled_back 10 args_with_cli created_ready
            _ _ _ 77 _ _ _ db1_instance);
    vm_compute; reflexivity.
Defined.

Lemma created_instance_report_witness :
  exists w pre,
    main 10 (args_for "db1" "example.com" (Some "ops@laptop")) created_ready
      = Some (Raise (SystemExit 15), w,
              pre ++ [EvPrint "db1.example.com 10.0.0.5 XXXXX 4242"]) /\
    filter is_cancel pre = [].
Proof.
  pose proof (fun w1 e1 key w2 e2 w3 w4 e4 w5 e5 =>
                created_instance_report 10
                  (args_for "db1" "example.com" (Some "ops@laptop")) created_ready
                  w1 e1 key 77 w2 e2 w3 db1_instance w4 e4 w5 e5) as T.
  cbv zeta in T.
  edestruct T as (pre & line & Hl & Hm & _ & Hk); try (vm_compute; reflexivity).
  vm_compute in Hl. inversion Hl; subst line.
  eexists. exists pre. split; [exact Hm|exact Hk].
Defined.

Lemma unlisted_instance_is_left_running_witness :
  exists r w evs,
    main 10 args_debug absent = Some (r, w, evs) /\
    filter is_create evs <> [] /\
    r = Raise TypeError /\ exit_status r = 1 /\
    filter is_cancel evs = [] /\
    filter is_ssh_connect evs = [] /\
    filter is_remote_action evs = [].
Proof.
  do 3 eexists. split; [vm_compute; reflexivity|]. split; [vm_compute; discriminate|].
  eapply (unlisted_instance_is_left_running 10 args_debug absent _ _ _ 77);
    vm_compute; reflexivity.
Defined.

End OrchestratorWitnesses.

Section RecordWitnesses.
Import Sim.

Lemma until_time_limit_not_early_witness :
  exists w' evs,
    until_with_lim_test (H := Recorded.collaborators Sim.collaborators) false 10
      list_truthy (Some (root_pass_test false "db1")) 5 "VM lookup"
      (vs_lookup (H := Recorded.collaborators Sim.collaborators) false "db1" "example.com") (never_root, [])
    = Some (Raise (TimeLimitedOperationException 5), w', evs) /\
    exists t0 mid t1 post,
      snd w' = [] ++ ClockRead t0 :: mid ++ ClockRead t1 :: post /\
      limit_us 5 < t1 - t0.
Proof.
  do 2 eexists. split; [vm_compute; reflexivity|].
  eapply (until_time_limit_not_early (H := Recorded.collaborators Sim.collaborators) snd
            false 10%nat list_truthy (Some (root_pass_test false "db1")) 5 "VM lookup"
            (vs_lookup (H := Recorded.collaborators Sim.collaborators) false "db1" "example.com") (never_root, [])).
  - apply recorded_clock.
  - apply extends_vs_lookup. apply recorded_listing.
  - intros t r E. inversion E. apply extends_still. apply still_root_pass_test.
  - apply raises_vs_lookup. intros; discriminate.
  - intros t r E. inversion E. apply raises_root_pass_test; discriminate.
  - vm_compute. reflexivity.
Defined.

Lemma locate_poll_error_is_not_retried_witness :
  (exists r w' evs,
      _locate_instance (H := Recorded.collaborators Flaky.collaborators) false 5
        "db1" "example.com" (Flaky.two_listings, [])
      = Some (r, w', evs) /\
      snd w' = [Listed [db1]; ClockRead 1000000; ClockRead 1000000;
                Listed [db1_pending]; ClockRead 2000000;
                ListingFailed "Service unavailable"] /\
      r = Raise (CollaboratorError "Service unavailable")) /\
  (exists w evs,
      until_loop (H := Flaky.collaborators) false 1 list_truthy
        (Some (root_pass_test false "db1")) 5 "VM lookup"
        (vs_lookup (H := Flaky.collaborators) false "db1" "example.com") 0 (loop_start _)
        {| Flaky.base := existing; Flaky.healthy := 0 |}
      = Some (Raise (CollaboratorError "Service unavailable"), w, evs)).
Proof.
  split.
  - do 3 eexists. split; [vm_compute; reflexivity|]. split; [vm_compute; reflexivity|].
    refine (proj2 (proj1 (locate_poll_error_is_not_retried
                            (H := Recorded.collaborators Flaky.collaborators) snd
                            false "db1" "example.com")
                     5%nat (Flaky.two_listings, []) _ _ _
                     (recorded_clock (H := Flaky.collaborators))
                     (recorded_listing (H := Flaky.collaborators)) _
                     [Listed [db1]; ClockRead 1000000; ClockRead 1000000;
                      Listed [db1_pending]; ClockRead 2000000]
                     "Service unavailable" [] _));
      vm_compute; reflexivity.
  - do 2 eexists.
    eapply (proj2 (locate_poll_error_is_not_retried (H := Flaky.collaborators)
                     (fun _ => []) false "db1" "example.com")
              0%nat 0 (loop_start _) {| Flaky.base := existing; Flaky.healthy := 0 |});
    vm_compute; reflexivity.
Defined.


Lemma exact_matches_are_exact_witness :
  (exists w1,
      vs_lookup false "db1" "example.com" crowded
      = Some (Ok [db1; db1_pending; db1], w1, [EvGetVirtualGuests])) /\
  (exists found w' evs,
      vs_lookup false "" "example.com" (world 1000000 [[db1; nameless]])
      = Some (Ok found, w', evs) /\ In nameless found).
Proof.
  split.
  - eexists.
    eapply (proj1 (exact_matches_are_exact false "db1" "example.com" crowded
                     [web1; db1; unnamed; db1_pending; db1] _ _ _)).
    Unshelve. all: try (vm_compute; reflexivity); discriminate.
  - eapply (proj2 (exact_matches_are_exact false "" "example.com"
                     (world 1000000 [[db1; nameless]]) [db1; nameless] _ _ _)
              eq_refl nameless).
    Unshelve. all: try (vm_compute; reflexivity); try discriminate.
    vm_compute. tauto.
Defined.
End RecordWitnesses.
